(** * Fudano: the reduced SCTP association, the peer connection and the
    session description, embedded from the TypeScript sources

    - [src/sctp/sctp.ts]      : Module [Sctp]
    - [sdp.ts]                : Module [Sdp]
    - [src/peerConnection.ts] : Module [PeerConnection]

    JavaScript numbers that the code keeps integral are [Z]; [undefined] is
    [None]; a [Buffer] is a [list byte]; a thrown [Error] is the [Throw]
    outcome of a small state-and-exception monad whose state survives the
    throw, as the fields of [this] do. *)

From Stdlib Require Import ZArith NArith List String Ascii Strings.Byte Bool Lia.
From stdpp Require Import base gmap list strings.
From coqutil Require Import Datatypes.RecordSetters.
Import DoubleBraceUpdate.

#[local] Open Scope Z_scope.

(** ** JavaScript helpers shared by the three modules *)

Module Js.

(** *** Outcomes of a call *)

Inductive Outcome (A : Type) :=
| Ok (a : A)
| Throw (message : string).
Arguments Ok {A} a.
Arguments Throw {A} message.

(** Sequencing: a throw ends the computation. *)
Definition andThen {A B} (r : Outcome A) (k : A -> Outcome B) : Outcome B :=
  match r with
  | Ok a => k a
  | Throw e => Throw e
  end.

(** [xs.forEach(x => { acc = f(acc, x) })] where [f] may throw. *)
Fixpoint foldOutcome {A S} (f : S -> A -> Outcome S) (xs : list A) (acc : S)
  : Outcome S :=
  match xs with
  | [] => Ok acc
  | x :: xs' => andThen (f acc x) (foldOutcome f xs')
  end.

(** *** Methods: state and exceptions

    A method is a function of the object's state that gives an outcome
    and the state it leaves; after a throw the state is the one reached
    at the throw. *)

Definition M (S A : Type) : Type := S -> Outcome A * S.

Definition ret {S A} (a : A) : M S A := fun s => (Ok a, s).
Definition throw {S A} (message : string) : M S A := fun s => (Throw message, s).
Definition bind {S A B} (m : M S A) (k : A -> M S B) : M S B :=
  fun s => match m s with
           | (Ok a, s') => k a s'
           | (Throw e, s') => (Throw e, s')
           end.
Definition get {S} : M S S := fun s => (Ok s, s).
Definition modify {S} (f : S -> S) : M S unit := fun s => (Ok tt, f s).

(** [for (const x of xs) body(x)]; a throw ends the loop. *)
Fixpoint forEach {S A} (xs : list A) (body : A -> M S unit) : M S unit :=
  match xs with
  | [] => ret tt
  | x :: xs' => bind (body x) (fun _ => forEach xs' body)
  end.

(** [try { m } catch (error) { }] *)
Definition tryCatch {S} (m : M S unit) : M S unit :=
  fun s => match m s with
           | (Throw _, s') => (Ok tt, s')
           | r => r
           end.

Module Notations.
Notation "'let*' x := m 'in' k" := (bind m (fun x => k))
  (at level 10, x name, m at level 100, k at level 200).
Notation "m ;;; k" := (bind m (fun _ => k))
  (at level 100, k at level 200, right associativity).
End Notations.

(** *** Numbers

    The numbers of these files are integers or [NaN]. *)

Inductive number := NaN | Num (z : Z).

Definition digitChar (d : N) : ascii := ascii_of_N (48 + d).

Definition isDigit (c : ascii) : bool :=
  let n := N_of_ascii c in (48 <=? n)%N && (n <=? 57)%N.

Definition digitValue (c : ascii) : Z := Z.of_N (N_of_ascii c) - 48.

(** The decimal digits of [n] in front of [acc], most significant
    first; [fuel] bounds the number of digits. *)
Fixpoint digitsAux (fuel : nat) (n : N) (acc : string) : string :=
  match fuel with
  | O => acc
  | S fuel' =>
      let acc' := String (digitChar (n mod 10)) acc in
      if (n <? 10)%N then acc' else digitsAux fuel' (n / 10) acc'
  end.

Definition digits (n : N) : string :=
  digitsAux (S (N.to_nat (N.size n))) n EmptyString.

(** [Number.prototype.toString] on an integer below 1e21: the decimal
    digits, with a leading minus sign for a negative number. *)
Definition intToString (z : Z) : string :=
  if z <? 0 then String "-" (digits (Z.to_N (- z))) else digits (Z.to_N z).

Definition numberToString (n : number) : string :=
  match n with
  | NaN => "NaN"
  | Num z => intToString z
  end.

(** [if (n)]: neither [0] nor [NaN]. *)
Definition numberTruthy (n : number) : bool :=
  match n with
  | NaN => false
  | Num z => negb (z =? 0)
  end.

(** The leading decimal digits of a string, read into [acc]. *)
Fixpoint readDigits (acc : Z) (s : string) : Z :=
  match s with
  | String c s' =>
      if isDigit c then readDigits (acc * 10 + digitValue c) s' else acc
  | EmptyString => acc
  end.

Definition isHexDigit (c : ascii) : bool :=
  let n := N_of_ascii c in
  isDigit c || ((65 <=? n)%N && (n <=? 70)%N) || ((97 <=? n)%N && (n <=? 102)%N).

Definition hexValue (c : ascii) : Z :=
  let n := Z.of_N (N_of_ascii c) in
  if isDigit c then n - 48 else if n <? 97 then n - 55 else n - 87.

Fixpoint readHexDigits (acc : Z) (s : string) : Z :=
  match s with
  | String c s' =>
      if isHexDigit c then readHexDigits (acc * 16 + hexValue c) s' else acc
  | EmptyString => acc
  end.

(** White space that [parseInt] skips, among the 8-bit characters. *)
Definition isWhiteSpace (c : ascii) : bool :=
  let n := N_of_ascii c in
  ((9 <=? n)%N && (n <=? 13)%N) || (n =? 32)%N || (n =? 160)%N.

Fixpoint skipWhiteSpace (s : string) : string :=
  match s with
  | String c s' => if isWhiteSpace c then skipWhiteSpace s' else s
  | EmptyString => s
  end.

Definition startsWithDigit (s : string) : bool :=
  match s with String c _ => isDigit c | EmptyString => false end.

Definition startsWithHexDigit (s : string) : bool :=
  match s with String c _ => isHexDigit c | EmptyString => false end.

(** The sign [parseInt] reads, and the rest. *)
Definition readSign (s : string) : Z * string :=
  match s with
  | String "-" s' => (-1, s')
  | String "+" s' => (1, s')
  | _ => (1, s)
  end.

(** [parseInt(s, 10)] *)
Definition parseInt10 (s : string) : number :=
  let '(sign, body) := readSign (skipWhiteSpace s) in
  if startsWithDigit body then Num (sign * readDigits 0 body) else NaN.

(** [parseInt(s)]: as with radix 10, except that a [0x] or [0X] prefix
    selects radix 16. *)
Definition parseInt (s : string) : number :=
  let '(sign, body) := readSign (skipWhiteSpace s) in
  match body with
  | String "0" (String x hex) =>
      if (Ascii.eqb x "x" || Ascii.eqb x "X")%bool
      then if startsWithHexDigit hex then Num (sign * readHexDigits 0 hex) else NaN
      else Num (sign * readDigits 0 body)
  | _ => if startsWithDigit body then Num (sign * readDigits 0 body) else NaN
  end.

(** *** Strings (sequences of 8-bit characters) *)

Definition CR : ascii := "013".
Definition LF : ascii := "010".
Definition CRLF : string := String CR (String LF EmptyString).

(** [`${v}`] of a value that may be [undefined]. *)
Definition text (v : option string) : string := default "undefined" v.

(** [if (v)] on a string that may be [undefined]. *)
Definition truthy (v : option string) : bool :=
  match v with
  | Some (String _ _) => true
  | _ => false
  end.

Fixpoint startsWith (s p : string) {struct p} : bool :=
  match p, s with
  | EmptyString, _ => true
  | String a p', String b s' => Ascii.eqb a b && startsWith s' p'
  | String _ _, EmptyString => false
  end.

(** [s.slice(n)] *)
Fixpoint slice (n : nat) (s : string) : string :=
  match n, s with
  | S n', String _ s' => slice n' s'
  | _, _ => s
  end.

(** [s.includes(c)] for a one-character [c]. *)
Fixpoint includes (c : ascii) (s : string) : bool :=
  match s with
  | String a s' => Ascii.eqb a c || includes c s'
  | EmptyString => false
  end.

(** [s.split(c)] for a one-character separator. *)
Fixpoint split (c : ascii) (s : string) : list string :=
  match s with
  | EmptyString => [EmptyString]
  | String a s' =>
      if Ascii.eqb a c then EmptyString :: split c s'
      else match split c s' with
           | w :: ws => String a w :: ws
           | [] => [String a EmptyString]
           end
  end.

(** [s.split('\r\n')] *)
Fixpoint splitCRLF (s : string) : list string :=
  match s with
  | EmptyString => [EmptyString]
  | String a s' =>
      let keep :=
        match splitCRLF s' with
        | w :: ws => String a w :: ws
        | [] => [String a EmptyString]
        end in
      if Ascii.eqb a CR
      then match s' with
           | String b s'' => if Ascii.eqb b LF then EmptyString :: splitCRLF s'' else keep
           | EmptyString => keep
           end
      else keep
  end.

(** [xs.join(sep)] *)
Definition join (sep : string) (xs : list string) : string :=
  String.concat sep xs.

(** The longest prefix whose characters satisfy [p], and the rest. *)
Fixpoint span (p : ascii -> bool) (s : string) : string * string :=
  match s with
  | String a s' =>
      if p a then let '(w, r) := span p s' in (String a w, r)
      else (EmptyString, s)
  | EmptyString => (EmptyString, EmptyString)
  end.

(** *** Arrays and sets *)

(** The order [Array.prototype.sort] uses when it is called without a
    comparator: both elements are converted to strings and the strings are
    compared by code unit. *)
Definition defaultCompareLe (a b : Z) : bool :=
  String.leb (intToString a) (intToString b).

Fixpoint insertSorted (x : Z) (l : list Z) : list Z :=
  match l with
  | [] => [x]
  | y :: l' => if defaultCompareLe x y then x :: y :: l' else y :: insertSorted x l'
  end.

(** [[...xs].sort()] *)
Definition sort (l : list Z) : list Z := foldr insertSorted [] l.

(** A JavaScript [Set] of numbers: the elements in insertion order. *)
Definition set_has (x : Z) (s : list Z) : bool := existsb (Z.eqb x) s.
Definition set_add (x : Z) (s : list Z) : list Z :=
  if set_has x s then s else s ++ [x].

(** [a % b]: the remainder takes the sign of the dividend. *)
Definition rem (a b : Z) : Z := Z.rem a b.

End Js.

(** ** src/sctp/sctp.ts *)

Module Sctp.

(** *** Constants *)

Definition COOKIE_LENGTH : Z := 24.
Definition COOKIE_LIFETIME : Z := 60.
Definition MAX_STREAMS : Z := 65535.
Definition USERDATA_MAX_LENGTH : Z := 1200.

Definition SCTP_DATA_LAST_FRAG : Z := 1.
Definition SCTP_DATA_FIRST_FRAG : Z := 2.
Definition SCTP_DATA_UNORDERED : Z := 4.

Definition SCTP_MAX_ASSOCIATION_RETRANS : Z := 10.
Definition SCTP_MAX_INIT_RETRANS : Z := 8.
Definition SCTP_RTO_INITIAL : Z := 3.
Definition SCTP_TSN_MODULO : Z := 2 ^ 32.

Definition RECONFIG_MAX_STREAMS : nat := 135.

Definition SCTP_STATE_COOKIE : Z := 7.
Definition SCTP_SUPPORTED_CHUNK_EXT : Z := 32776.
Definition SCTP_PRSCTP_SUPPORTED : Z := 49152.

(** Modelled from the spec: the enum [SCTP_STATE] of [./const], which is
    not among the sources; the spec lists these association states. *)
Inductive SCTP_STATE :=
| CLOSED | COOKIE_WAIT | COOKIE_ECHOED | ESTABLISHED
| SHUTDOWN_SENT | SHUTDOWN_RECEIVED | SHUTDOWN_ACK_SENT.

Definition SCTP_STATE_eqb (a b : SCTP_STATE) : bool :=
  match a, b with
  | CLOSED, CLOSED | COOKIE_WAIT, COOKIE_WAIT | COOKIE_ECHOED, COOKIE_ECHOED
  | ESTABLISHED, ESTABLISHED | SHUTDOWN_SENT, SHUTDOWN_SENT
  | SHUTDOWN_RECEIVED, SHUTDOWN_RECEIVED
  | SHUTDOWN_ACK_SENT, SHUTDOWN_ACK_SENT => true
  | _, _ => false
  end.

(** [SCTPConnectionStates]; [new] is spelled [new_]. *)
Inductive SCTPConnectionState := new_ | closed | connected | connecting.

Definition isClosedState (s : SCTPConnectionState) : bool :=
  match s with closed => true | _ => false end.

(** *** 32-bit sequence arithmetic *)

Definition tsnMinusOne (a : Z) : Z := Js.rem (a - 1) SCTP_TSN_MODULO.
Definition tsnPlusOne (a : Z) : Z := Js.rem (a + 1) SCTP_TSN_MODULO.

(** Modelled from the spec: [uint32Gt], [uint32Gte] and [uint16Add] of
    [../common/number], which is not among the sources. The spec gives the
    comparison as "a > b iff (a - b) mod 2^32 < 2^31"; [uint32Gt] is the
    strict one, so equal arguments are excluded, and [uint32Gte] adds them
    back. The per-stream counter "wraps at 2^16". *)
Definition uint32Gt (a b : Z) : bool :=
  negb (a =? b) && ((a - b) mod 2 ^ 32 <? 2 ^ 31).
Definition uint32Gte (a b : Z) : bool :=
  (a =? b) || uint32Gt a b.
Definition uint16Add (a b : Z) : Z := (a + b) mod 2 ^ 16.

(** The same comparisons when an argument may be [undefined]: every
    comparison with [undefined] is false. *)
Definition uint32Gte_u (a : option Z) (b : Z) : bool :=
  match a with Some a => uint32Gte a b | None => false end.
Definition uint32Gt_u (a : Z) (b : option Z) : bool :=
  match b with Some b => uint32Gt a b | None => false end.

(** [tsn === tsnPlusOne(this.lastReceivedTsn!)]: with an undefined
    [lastReceivedTsn] the right-hand side is [NaN], equal to nothing. *)
Definition isNextTsn (tsn : Z) (lastReceivedTsn : option Z) : bool :=
  match lastReceivedTsn with
  | Some l => tsn =? tsnPlusOne l
  | None => false
  end.

(** *** Buffers *)

Definition Buffer := list byte.

Definition u8 (z : Z) : byte :=
  default Byte.x00 (Byte.of_N (Z.to_N (z mod 256))).
Definition byteToZ (b : byte) : Z := Z.of_N (Byte.to_N b).

(** [jspack.Pack('!L', [v])]: the value is clamped to the unsigned 32-bit
    range and written big-endian, most significant byte first. *)
Definition packL (v : Z) : Buffer :=
  let v := Z.max 0 (Z.min (2 ^ 32 - 1) v) in
  [u8 (v / 2 ^ 24); u8 (v / 2 ^ 16); u8 (v / 2 ^ 8); u8 v].

(** [jspack.Unpack('!L', buf)[0]]: the first four bytes read big-endian;
    [undefined] when the buffer is shorter. *)
Definition unpackL (b : Buffer) : option Z :=
  match b with
  | b0 :: b1 :: b2 :: b3 :: _ =>
      Some (((byteToZ b0 * 256 + byteToZ b1) * 256 + byteToZ b2) * 256 + byteToZ b3)
  | _ => None
  end.

(** [a.equals(b)] *)
Fixpoint bufferEquals (a b : Buffer) : bool :=
  match a, b with
  | [], [] => true
  | x :: a', y :: b' => Byte.eqb x y && bufferEquals a' b'
  | _, _ => false
  end.

(** *** Chunks (the classes of [./chunk], by the fields this file uses) *)

Definition Params := list (Z * Buffer).

Module DataChunk.
#[projections(primitive)]
Record t := mk {
  flags : Z;
  tsn : Z;
  streamId : Z;
  streamSeqNum : Z;
  protocol : Z;
  userData : Buffer;
  bookSize : Z;
  expiry : option Z;
  maxRetransmits : option Z;
  sentCount : Z;
  (** [Date.now()] at transmission, in milliseconds (the source stores
      it divided by 1000). *)
  sentTime : option Z;
}.
(** [new DataChunk(0, undefined)] *)
Definition create : t :=
  mk 0 0 0 0 0 [] 0 None None 0 None.
End DataChunk.

Module InitChunk.
(** Shared by INIT and INIT_ACK. *)
Record t := mk {
  initiateTag : Z;
  advertisedRwnd : Z;
  outboundStreams : Z;
  inboundStreams : Z;
  initialTsn : Z;
  params : Params;
}.
End InitChunk.

Module SackChunk.
(** A gap position is [NaN] ([None]) when it was computed from an
    undefined [lastReceivedTsn]. *)
Record t := mk {
  cumulativeTsn : option Z;
  advertisedRwnd : Z;
  duplicates : list Z;
  gaps : list (option Z * option Z);
}.
End SackChunk.

(** The re-configuration parameters of [./param]. A parameter whose type
    [RECONFIG_PARAM_BY_TYPES] does not list, or that [receiveReconfigParam]
    has no case for, is [OtherParam]. *)
Module OutgoingSSNResetRequestParam.
Record t := mk {
  requestSequence : Z;
  responseSequence : Z;
  lastTsn : Z;
  streams : list Z;
}.
End OutgoingSSNResetRequestParam.

Inductive StreamParam :=
| OutgoingSSNResetRequest (p : OutgoingSSNResetRequestParam.t)
| ReconfigResponse (responseSequence result : Z)
| StreamAddOutgoing (requestSequence newStreams : Z)
| OtherParam (type : Z) (body : Buffer).

Inductive Chunk :=
| Data (c : DataChunk.t)
| Init (c : InitChunk.t)
| InitAck (c : InitChunk.t)
| Sack (c : SackChunk.t)
| Heartbeat (params : Params)
| HeartbeatAck (params : Params)
| Abort
| Shutdown
| ShutdownAck
| ErrorC (params : Params)
| CookieEcho (body : option Buffer)
| CookieAck
| ShutdownComplete
| Reconfig (params : list StreamParam)
| ForwardTsn (cumulativeTsn : Z)
| OtherChunk (type : Z).

Definition isInit (c : Chunk) : bool :=
  match c with Init _ => true | _ => false end.
Definition isSack (c : Chunk) : bool :=
  match c with Sack _ => true | _ => false end.

(** What [serializePacket(localPort, remotePort, verificationTag, chunk)]
    is called with and what [parsePacket] gives back; the byte layout of
    [./chunk] is outside this model. *)
Record Packet := mkPacket {
  sourcePort : Z;
  destinationPort : Z;
  verificationTag : Z;
  chunk : Chunk;
}.

(** *** Effects the association has on its collaborators, in call order *)

Inductive Effect :=
| TransportSend (p : Packet)
| OnReceive (streamId ppId : Z) (data : Buffer)
| OnReconfigStreams (streams : list Z)
| StateChanged (st : SCTPConnectionState)
| AllUnsubscribe.

Definition sentPackets (tr : list Effect) : list Packet :=
  omap (fun e => match e with TransportSend p => Some p | _ => None end) tr.

Definition delivered (tr : list Effect) : list (Z * Z * Buffer) :=
  omap (fun e => match e with OnReceive s p d => Some (s, p, d) | _ => None end) tr.

Arguments sentPackets : simpl never.
Arguments delivered : simpl never.

(** *** The association object *)

#[projections(primitive)]
Record SCTP := mkSCTP {
  associationState : SCTP_STATE;
  started : bool;
  state : SCTPConnectionState;
  isServer : bool;
  hmacKey : Buffer;
  localPartialReliability : bool;
  localPort : Z;
  localVerificationTag : Z;
  remoteExtensions : list Z;
  remotePartialReliability : bool;
  remotePort : option Z;
  remoteVerificationTag : Z;
  (* inbound *)
  advertisedRwnd : Z;
  _inboundStreamsCount : Z;
  _inboundStreamsMax : Z;
  lastReceivedTsn : option Z;
  sackDuplicates : list Z;
  sackMisOrdered : list Z;
  sackNeeded : bool;
  (* outbound *)
  flightSize : Z;
  outboundStreamSeq : gmap Z Z;
  _outboundStreamsCount : Z;
  localTsn : Z;
  (* reconfiguration *)
  reconfigRequestSeq : Z;
  reconfigResponseSeq : Z;
  reconfigRequest : option OutgoingSSNResetRequestParam.t;
  reconfigQueue : list Z;
  (* timers: a handle is the delay, in milliseconds, it was armed with *)
  rto : Z;
  timer1Handle : option Z;
  timer1Chunk : option Chunk;
  timer1Failures : Z;
  timer2Handle : option Z;
  timer2Chunk : option Chunk;
  timer2Failures : Z;
  timerReconfigHandle : option Z;
  timerReconfigFailures : Z;
  ssthresh : option Z;
  (* the calls made on the transport and on the event objects *)
  trace : list Effect;
}.

(** [new SCTP(transport, port)]; [key], [tag] and [tsn] are the draws of
    [randomBytes(16)] and [random32()]. *)
Definition create (port : Z) (key : Buffer) (tag tsn : Z) : SCTP :=
  {| associationState := CLOSED; started := false; state := new_;
     isServer := true; hmacKey := key; localPartialReliability := true;
     localPort := port; localVerificationTag := tag;
     remoteExtensions := []; remotePartialReliability := false;
     remotePort := None; remoteVerificationTag := 0;
     advertisedRwnd := 16 * 256 * 1200; _inboundStreamsCount := 0;
     _inboundStreamsMax := MAX_STREAMS; lastReceivedTsn := None;
     sackDuplicates := []; sackMisOrdered := []; sackNeeded := false;
     flightSize := 0; outboundStreamSeq := ∅;
     _outboundStreamsCount := MAX_STREAMS; localTsn := tsn;
     reconfigRequestSeq := tsn; reconfigResponseSeq := 0;
     reconfigRequest := None; reconfigQueue := [];
     rto := SCTP_RTO_INITIAL;
     timer1Handle := None; timer1Chunk := None; timer1Failures := 0;
     timer2Handle := None; timer2Chunk := None; timer2Failures := 0;
     timerReconfigHandle := None; timerReconfigFailures := 0;
     ssthresh := None; trace := [] |}.

(** *** Methods of the association *)

Import Js (Outcome, Ok, Throw, ret, throw, bind, get, modify, forEach, tryCatch).
Import Js.Notations.

Definition M (A : Type) : Type := Js.M SCTP A.

Definition emit (e : Effect) : M unit :=
  modify (fun s => s {{ trace := trace s ++ [e] }}).

(** *** What the file takes from modules that are not among the sources *)

Record Externals := {
  (** [createHmac('sha1', key).update(data).digest()] of node's crypto. *)
  hmacSha1 : Buffer -> Buffer -> Buffer;
  (** [ForwardTsnChunk.type] and [ReConfigChunk.type] of [./chunk]. *)
  ForwardTsnChunk_type : Z;
  ReConfigChunk_type : Z;
  (** [ErrorChunk.CODE.StaleCookieError] of [./chunk]. *)
  StaleCookieError : Z;
  (** [reconfigResult.ReconfigResultSuccessPerformed] of [./param]. *)
  ReconfigResultSuccessPerformed : Z;
}.

Section Association.

Context (ext : Externals).

(** *** Sending *)

Definition sendChunk (c : Chunk) : M unit :=
  let* s := get in
  if isClosedState (state s) then ret tt
  else match remotePort s with
       | None => throw "invalid remote port"
       | Some rp =>
           emit (TransportSend
                   (mkPacket (localPort s) rp (remoteVerificationTag s) c))
       end.

(** The loop of [sendSack] over [[...this.sackMisOrdered].sort()]:
    [gapNext] starts undefined. *)
Definition gapPos (tsn : Z) (lastReceivedTsn : option Z) : option Z :=
  match lastReceivedTsn with
  | Some l => Some (Js.rem (tsn - l) SCTP_TSN_MODULO)
  | None => None
  end.

Definition setLastEnd (gaps : list (option Z * option Z)) (pos : option Z)
  : list (option Z * option Z) :=
  match reverse gaps with
  | [] => gaps
  | (a, _) :: r => reverse ((a, pos) :: r)
  end.

Fixpoint sackGaps (sorted : list Z) (lastReceivedTsn : option Z)
    (gapNext : option Z) (gaps : list (option Z * option Z))
  : list (option Z * option Z) :=
  match sorted with
  | [] => gaps
  | tsn :: rest =>
      let pos := gapPos tsn lastReceivedTsn in
      let gaps' :=
        if bool_decide (Some tsn = gapNext)
        then setLastEnd gaps pos
        else gaps ++ [(pos, pos)] in
      sackGaps rest lastReceivedTsn (Some (tsnPlusOne tsn)) gaps'
  end.

Definition sendSack : M unit :=
  let* s := get in
  let gaps := sackGaps (Js.sort (sackMisOrdered s)) (lastReceivedTsn s) None [] in
  let sack :=
    SackChunk.mk (lastReceivedTsn s) (Z.max 0 (advertisedRwnd s))
                 (sackDuplicates s) gaps in
  sendChunk (Sack sack) ;;;
  modify (fun s => s {{ sackDuplicates := []; sackNeeded := false }}).

Definition flightSizeIncrease (c : DataChunk.t) : M unit :=
  modify (fun s => s {{ flightSize := flightSize s + DataChunk.bookSize c }}).

(** [now] is the reading of [Date.now()]. *)
Definition transmit (now : Z) (c : DataChunk.t) : M unit :=
  flightSizeIncrease c ;;;
  let c := c {{ DataChunk.sentCount := DataChunk.sentCount c + 1;
                DataChunk.sentTime := Some now }} in
  sendChunk (Data c).

(** The options object of [send]; a missing object takes the default
    [{ expiry: undefined, maxRetransmits: undefined, ordered: true }],
    a missing [ordered] key is [undefined]. *)
Record SendOptions := {
  expiry : option Z;
  maxRetransmits : option Z;
  ordered : option bool;
}.

Definition defaultSendOptions : SendOptions :=
  {| expiry := None; maxRetransmits := None; ordered := Some true |}.

Definition truthy (b : option bool) : bool := default false b.

Definition send (now : Z) (streamId ppId : Z) (userData : Buffer)
    (options : option SendOptions) : M unit :=
  let o := default defaultSendOptions options in
  let* s := get in
  let streamSeqNum :=
    if truthy (ordered o)
    then default 0 (outboundStreamSeq s !! streamId)
    else 0 in
  let flags0 := if truthy (ordered o) then 0 else SCTP_DATA_UNORDERED in
  let c :=
    DataChunk.create
      {{ DataChunk.flags :=
           Z.lor (Z.lor flags0 SCTP_DATA_FIRST_FRAG) SCTP_DATA_LAST_FRAG;
         DataChunk.tsn := localTsn s;
         DataChunk.streamId := streamId;
         DataChunk.streamSeqNum := streamSeqNum;
         DataChunk.protocol := ppId;
         DataChunk.userData := userData;
         DataChunk.bookSize := Z.of_nat (length userData);
         DataChunk.expiry := expiry o;
         DataChunk.maxRetransmits := maxRetransmits o }} in
  modify (fun s => s {{ localTsn := tsnPlusOne (localTsn s) }}) ;;;
  (if truthy (ordered o)
   then modify (fun s => s {{ outboundStreamSeq :=
                                <[streamId := uint16Add streamSeqNum 1]>
                                  (outboundStreamSeq s) }})
   else ret tt) ;;;
  transmit now c.

(** *** Timers and states *)

Definition timer1Start (c : Chunk) : M unit :=
  let* s := get in
  match timer1Handle s with
  | Some _ => throw ""
  | None =>
      modify (fun s => s {{ timer1Chunk := Some c; timer1Failures := 0;
                            timer1Handle := Some (rto s * 1000) }})
  end.

Definition timer1Cancel : M unit :=
  let* s := get in
  match timer1Handle s with
  | Some _ => modify (fun s => s {{ timer1Handle := None; timer1Chunk := None }})
  | None => ret tt
  end.

Definition t2Start (c : Chunk) : M unit :=
  let* s := get in
  match timer2Handle s with
  | Some _ => throw ""
  | None =>
      modify (fun s => s {{ timer2Chunk := Some c; timer2Failures := 0;
                            timer2Handle := Some (rto s * 1000) }})
  end.

Definition timer2Cancel : M unit :=
  let* s := get in
  match timer2Handle s with
  | Some _ => modify (fun s => s {{ timer2Handle := None; timer2Chunk := None }})
  | None => ret tt
  end.

Definition timerReconfigHandleStart : M unit :=
  let* s := get in
  match timerReconfigHandle s with
  | Some _ => ret tt
  | None =>
      modify (fun s => s {{ timerReconfigFailures := 0;
                            timerReconfigHandle := Some (rto s * 1000) }})
  end.

Definition timerReconfigCancel : M unit :=
  let* s := get in
  match timerReconfigHandle s with
  | Some _ => modify (fun s => s {{ timerReconfigHandle := None }})
  | None => ret tt
  end.

Definition setConnectionState (st : SCTPConnectionState) : M unit :=
  modify (fun s => s {{ state := st }}) ;;;
  emit (StateChanged st).

Definition removeAllListeners : M unit := emit AllUnsubscribe.

Definition setState (st : SCTP_STATE) : M unit :=
  let* s := get in
  (if negb (SCTP_STATE_eqb st (associationState s))
   then modify (fun s => s {{ associationState := st }})
   else ret tt) ;;;
  match st with
  | ESTABLISHED => setConnectionState connected
  | CLOSED =>
      timer1Cancel ;;; timer2Cancel ;;;
      setConnectionState closed ;;;
      removeAllListeners
  | _ => ret tt
  end.

Definition abort : M unit := sendChunk Abort.

(** [clearTimeout] on the handles that [setState(CLOSED)] has already
    cleared does nothing. *)
Definition stop : M unit :=
  let* s := get in
  (if negb (SCTP_STATE_eqb (associationState s) CLOSED) then abort else ret tt) ;;;
  setState CLOSED.

Definition setRemotePort (port : Z) : M unit :=
  modify (fun s => s {{ remotePort := Some port }}).

Definition setExtensions (params : Params) : M Params :=
  let* s := get in
  let params1 :=
    if localPartialReliability s
    then params ++ [(SCTP_PRSCTP_SUPPORTED, [])] else params in
  let extensions :=
    (if localPartialReliability s then [ForwardTsnChunk_type ext] else [])
      ++ [ReConfigChunk_type ext] in
  ret (params1 ++ [(SCTP_SUPPORTED_CHUNK_EXT, map u8 extensions)]).

Definition init : M unit :=
  let* s := get in
  let* params := setExtensions [] in
  let c := Init (InitChunk.mk (localVerificationTag s) (advertisedRwnd s)
                   (_outboundStreamsCount s) (_inboundStreamsMax s)
                   (localTsn s) params) in
  tryCatch (sendChunk c ;;; timer1Start c ;;; setState COOKIE_WAIT).

(** [if (remotePort)]: a port of [0] is not set. *)
Definition start (port : option Z) : M unit :=
  let* s := get in
  if started s then ret tt
  else
    modify (fun s => s {{ started := true }}) ;;;
    setConnectionState connecting ;;;
    (match port with
     | Some p => if p =? 0 then ret tt else setRemotePort p
     | None => ret tt
     end) ;;;
    (if isServer s then ret tt else init).

(** *** Receiving *)

Definition receive (streamId ppId : Z) (data : Buffer) : M unit :=
  emit (OnReceive streamId ppId data).

(** The loop that advances the cumulative TSN over the sorted
    mis-ordered set, leaving at the first element that is not next. *)
Fixpoint advanceTsn (sorted : list Z) (lastReceivedTsn : option Z) : option Z :=
  match sorted with
  | [] => lastReceivedTsn
  | tsn :: rest =>
      if isNextTsn tsn lastReceivedTsn
      then advanceTsn rest (Some tsn)
      else lastReceivedTsn
  end.

(** [isObsolete] reads [this.lastReceivedTsn] when it is called. *)
Definition isObsolete (s : SCTP) (x : Z) : bool :=
  uint32Gt_u x (lastReceivedTsn s).

Definition markReceived (tsn : Z) : M bool :=
  let* s := get in
  if uint32Gte_u (lastReceivedTsn s) tsn || Js.set_has tsn (sackMisOrdered s)
  then
    modify (fun s => s {{ sackDuplicates := sackDuplicates s ++ [tsn] }}) ;;;
    ret true
  else
    modify (fun s => s {{ sackMisOrdered := Js.set_add tsn (sackMisOrdered s) }}) ;;;
    modify (fun s => s {{ lastReceivedTsn :=
                            advanceTsn (Js.sort (sackMisOrdered s))
                                       (lastReceivedTsn s) }}) ;;;
    modify (fun s => s {{ sackDuplicates :=
                            List.filter (isObsolete s) (sackDuplicates s) }}) ;;;
    modify (fun s => s {{ sackMisOrdered :=
                            List.filter (isObsolete s) (sackMisOrdered s) }}) ;;;
    ret false.

Definition receiveDataChunk (c : DataChunk.t) : M unit :=
  modify (fun s => s {{ sackNeeded := true }}) ;;;
  let* _ := markReceived (DataChunk.tsn c) in
  receive (DataChunk.streamId c) (DataChunk.protocol c) (DataChunk.userData c).

Definition receiveForwardTsnChunk (cumulativeTsn : Z) : M unit :=
  modify (fun s => s {{ sackNeeded := true }}) ;;;
  let* s := get in
  if uint32Gte_u (lastReceivedTsn s) cumulativeTsn then ret tt
  else
    modify (fun s => s {{ lastReceivedTsn := Some cumulativeTsn }}) ;;;
    modify (fun s => s {{ sackMisOrdered :=
                            List.filter (isObsolete s) (sackMisOrdered s) }}) ;;;
    modify (fun s => s {{ lastReceivedTsn :=
                            advanceTsn (Js.sort (sackMisOrdered s))
                                       (lastReceivedTsn s) }}) ;;;
    modify (fun s => s {{ sackDuplicates :=
                            List.filter (isObsolete s) (sackDuplicates s) }}) ;;;
    modify (fun s => s {{ sackMisOrdered :=
                            List.filter (isObsolete s) (sackMisOrdered s) }}).

Definition getExtensions (params : Params) : M unit :=
  forEach params (fun kv =>
    let '(k, v) := kv in
    if k =? SCTP_PRSCTP_SUPPORTED
    then modify (fun s => s {{ remotePartialReliability := true }})
    else if k =? SCTP_SUPPORTED_CHUNK_EXT
    then modify (fun s => s {{ remoteExtensions := map byteToZ v }})
    else ret tt).

(** *** Stream re-configuration *)

Definition sendReconfigParam (param : StreamParam) : M unit :=
  sendChunk (Reconfig [param]).

Definition transmitReconfigRequest : M unit :=
  let* s := get in
  if bool_decide (reconfigQueue s <> [])
     && SCTP_STATE_eqb (associationState s) ESTABLISHED
     && bool_decide (reconfigRequest s = None)
  then
    let streams := take RECONFIG_MAX_STREAMS (reconfigQueue s) in
    let param :=
      OutgoingSSNResetRequestParam.mk
        (reconfigRequestSeq s) (reconfigResponseSeq s)
        (tsnMinusOne (localTsn s)) streams in
    modify (fun s => s {{ reconfigQueue := drop RECONFIG_MAX_STREAMS (reconfigQueue s);
                          reconfigRequestSeq := tsnPlusOne (reconfigRequestSeq s);
                          reconfigRequest := Some param }}) ;;;
    sendReconfigParam (OutgoingSSNResetRequest param) ;;;
    timerReconfigHandleStart
  else ret tt.

(** [if (this.outboundStreamSeq[streamId])]: defined and not [0]. *)
Definition hasOutboundSeq (s : SCTP) (streamId : Z) : bool :=
  match outboundStreamSeq s !! streamId with
  | Some n => negb (n =? 0)
  | None => false
  end.

Definition receiveReconfigParam (param : StreamParam) : M unit :=
  match param with
  | OutgoingSSNResetRequest p =>
      let requestSequence := OutgoingSSNResetRequestParam.requestSequence p in
      let streams := OutgoingSSNResetRequestParam.streams p in
      modify (fun s => s {{ reconfigResponseSeq := requestSequence }}) ;;;
      sendReconfigParam
        (ReconfigResponse requestSequence (ReconfigResultSuccessPerformed ext)) ;;;
      forEach streams (fun streamId =>
        modify (fun s =>
          if hasOutboundSeq s streamId
          then s {{ reconfigQueue := reconfigQueue s ++ [streamId] }}
          else s)) ;;;
      transmitReconfigRequest ;;;
      emit (OnReconfigStreams streams)
  | ReconfigResponse responseSequence result =>
      let* s := get in
      if negb (result =? ReconfigResultSuccessPerformed ext) then ret tt
      else match reconfigRequest s with
           | Some req =>
               if responseSequence =? OutgoingSSNResetRequestParam.requestSequence req
               then
                 let streamIds := OutgoingSSNResetRequestParam.streams req in
                 forEach streamIds (fun streamId =>
                   modify (fun s => s {{ outboundStreamSeq :=
                                           delete streamId (outboundStreamSeq s) }})) ;;;
                 emit (OnReconfigStreams streamIds) ;;;
                 modify (fun s => s {{ reconfigRequest := None }}) ;;;
                 timerReconfigCancel ;;;
                 let* s := get in
                 if bool_decide (reconfigQueue s <> [])
                 then transmitReconfigRequest else ret tt
               else ret tt
           | None => ret tt
           end
  | StreamAddOutgoing requestSequence newStreams =>
      modify (fun s => s {{ _inboundStreamsCount := _inboundStreamsCount s + newStreams;
                            reconfigResponseSeq := requestSequence }}) ;;;
      sendReconfigParam (ReconfigResponse requestSequence 1)
  | OtherParam _ _ => ret tt
  end.

(** *** Chunk dispatch *)

(** The first [SCTP_STATE_COOKIE] parameter of an INIT_ACK. *)
Fixpoint findCookie (params : Params) : option Buffer :=
  match params with
  | [] => None
  | (k, v) :: rest => if k =? SCTP_STATE_COOKIE then Some v else findCookie rest
  end.

(** [stamp < now - COOKIE_LIFETIME || stamp > now] where the source's
    [now] is [Date.now() / 1000]; here [now] is [Date.now()] itself, in
    milliseconds, and both sides are scaled by 1000. An undefined stamp
    compares false on both sides. *)
Definition cookieExpired (stamp : option Z) (now : Z) : bool :=
  match stamp with
  | Some t => (t * 1000 <? now - COOKIE_LIFETIME * 1000) || (now <? t * 1000)
  | None => false
  end.

(** The state cookie built on INIT: the seconds of the clock, packed,
    followed by their HMAC under the association key. *)
Definition makeCookie (key : Buffer) (now : Z) : Buffer :=
  let stamp := packL (now / 1000) in
  stamp ++ hmacSha1 ext key stamp.

Definition receiveInit (andThen : InitChunk.t -> M unit) (i : InitChunk.t) : M unit :=
  modify (fun s => s {{ lastReceivedTsn := Some (tsnMinusOne (InitChunk.initialTsn i));
                        reconfigResponseSeq := tsnMinusOne (InitChunk.initialTsn i);
                        remoteVerificationTag := InitChunk.initiateTag i;
                        ssthresh := Some (InitChunk.advertisedRwnd i) }}) ;;;
  getExtensions (InitChunk.params i) ;;;
  modify (fun s => s {{ _inboundStreamsCount :=
                          Z.min (InitChunk.outboundStreams i) (_inboundStreamsMax s);
                        _outboundStreamsCount :=
                          Z.min (_outboundStreamsCount s) (InitChunk.inboundStreams i) }}) ;;;
  andThen i.

Definition receiveChunk (now : Z) (c : Chunk) : M unit :=
  match c with
  | Data d => receiveDataChunk d
  | Init i =>
      let* s := get in
      if negb (isServer s) then ret tt
      else
        receiveInit (fun _ =>
          let* s := get in
          let* params := setExtensions [] in
          let cookie := makeCookie (hmacKey s) now in
          sendChunk
            (InitAck (InitChunk.mk (localVerificationTag s) (advertisedRwnd s)
                        (_outboundStreamsCount s) (_inboundStreamsCount s)
                        (localTsn s)
                        (params ++ [(SCTP_STATE_COOKIE, cookie)])))) i
  | InitAck i =>
      let* s := get in
      if negb (SCTP_STATE_eqb (associationState s) COOKIE_WAIT) then ret tt
      else
        timer1Cancel ;;;
        receiveInit (fun i =>
          let echo := CookieEcho (findCookie (InitChunk.params i)) in
          sendChunk echo ;;;
          timer1Start echo ;;;
          setState COOKIE_ECHOED) i
  | Sack _ => ret tt
  | Heartbeat params => sendChunk (HeartbeatAck params)
  | Abort => setState CLOSED
  | Shutdown =>
      timer2Cancel ;;;
      setState SHUTDOWN_RECEIVED ;;;
      sendChunk ShutdownAck ;;;
      t2Start ShutdownAck ;;;
      setState SHUTDOWN_SENT
  | ErrorC _ => ret tt
  | CookieEcho body =>
      let* s := get in
      if negb (isServer s) then ret tt
      else match body with
           | None =>
               throw "TypeError: Cannot read properties of undefined (reading 'slice')"
           | Some cookie =>
               let digest := hmacSha1 ext (hmacKey s) (take 4 cookie) in
               if negb (Z.of_nat (length cookie) =? COOKIE_LENGTH)
                  || negb (bufferEquals (drop 4 cookie) digest)
               then ret tt
               else if cookieExpired (unpackL cookie) now
               then sendChunk (ErrorC [(StaleCookieError ext, repeat Byte.x00 8)])
               else sendChunk CookieAck ;;; setState ESTABLISHED
           end
  | CookieAck =>
      let* s := get in
      if negb (SCTP_STATE_eqb (associationState s) COOKIE_ECHOED) then ret tt
      else timer1Cancel ;;; setState ESTABLISHED
  | ShutdownComplete =>
      let* s := get in
      if negb (SCTP_STATE_eqb (associationState s) SHUTDOWN_ACK_SENT) then ret tt
      else timer2Cancel ;;; setState CLOSED
  | Reconfig params =>
      let* s := get in
      if negb (SCTP_STATE_eqb (associationState s) ESTABLISHED) then ret tt
      else forEach params receiveReconfigParam
  | ForwardTsn cumulativeTsn => receiveForwardTsnChunk cumulativeTsn
  | HeartbeatAck _ | ShutdownAck | OtherChunk _ => ret tt
  end.

(** [handleData(data)] on the packet [parsePacket(data)] gives; [now] is
    the reading of [Date.now()] during the call. *)
Definition handleData (now : Z) (p : Packet) : M unit :=
  let* s := get in
  let expectedTag := if isInit (chunk p) then 0 else localVerificationTag s in
  if negb (verificationTag p =? expectedTag) then ret tt
  else
    receiveChunk now (chunk p) ;;;
    let* s := get in
    if sackNeeded s then sendSack else ret tt.

(** Packets handled one after the other; a throw ends one call, not the
    association, so the next packet is handled in the state it left. *)
Fixpoint handleAll (inbound : list (Z * Packet)) (s : SCTP) : SCTP :=
  match inbound with
  | [] => s
  | (now, p) :: rest => handleAll rest (snd (handleData now p s))
  end.

(** *** The rest of the class *)

(** [get maxChannels()]: undefined while no inbound stream is counted. *)
Definition maxChannels (s : SCTP) : option Z :=
  if 0 <? _inboundStreamsCount s
  then Some (Z.min (_inboundStreamsCount s) (_outboundStreamsCount s))
  else None.

(** [SCTP.client(transport, port)] and [SCTP.server(transport, port)] *)
Definition client (port : Z) (key : Buffer) (tag tsn : Z) : SCTP :=
  (create port key tag tsn) {{ isServer := false }}.
Definition server (port : Z) (key : Buffer) (tag tsn : Z) : SCTP :=
  (create port key tag tsn) {{ isServer := true }}.

Definition flightSizeDecrease (c : DataChunk.t) : M unit :=
  modify (fun s => s {{ flightSize := Z.max 0 (flightSize s - DataChunk.bookSize c) }}).

Definition sendResetRequest (now : Z) (streamId : Z) : M unit :=
  transmit now (DataChunk.create {{ DataChunk.streamId := streamId }}).

(** The timer callbacks. [timer1Expired] and [timer2Expired] hand
    [setImmediate] a callback that sends the timer's chunk again; it
    runs after the expiry has returned and is not part of it: the
    result [true] says that it was scheduled. *)
Definition timer1Expired : M bool :=
  modify (fun s => s {{ timer1Failures := timer1Failures s + 1;
                        timer1Handle := None }}) ;;;
  let* s := get in
  if SCTP_MAX_INIT_RETRANS <? timer1Failures s
  then setState CLOSED ;;; ret false
  else
    modify (fun s => s {{ timer1Handle := Some (rto s * 1000) }}) ;;;
    ret true.

Definition timer2Expired : M bool :=
  modify (fun s => s {{ timer2Failures := timer2Failures s + 1;
                        timer2Handle := None }}) ;;;
  let* s := get in
  if SCTP_MAX_ASSOCIATION_RETRANS <? timer2Failures s
  then setState CLOSED ;;; ret false
  else
    modify (fun s => s {{ timer2Handle := Some (rto s * 1000) }}) ;;;
    ret true.

(** [Math.ceil(this.rto * 1.5)] on an integer [rto]. *)
Definition backOff (rto : Z) : Z := (3 * rto + 1) / 2.

Definition timerReconfigHandleExpired : M unit :=
  modify (fun s => s {{ timerReconfigFailures := timerReconfigFailures s + 1;
                        rto := backOff (rto s) }}) ;;;
  let* s := get in
  if SCTP_MAX_ASSOCIATION_RETRANS <? timerReconfigFailures s
  then
    setState CLOSED ;;;
    modify (fun s => s {{ timerReconfigHandle := None }})
  else match reconfigRequest s with
       | Some request =>
           sendReconfigParam (OutgoingSSNResetRequest request) ;;;
           modify (fun s => s {{ timerReconfigHandle := Some (rto s * 1000) }})
       | None => ret tt
       end.

End Association.

End Sctp.

(** ** sdp.ts (the session description) *)

Module Sdp.

Import Js (Outcome, Ok, Throw, number, NaN, Num).
#[local] Open Scope string_scope.

(** *** The classes the description is made of

    [RTCDtlsFingerprint], [RTCDtlsParameters], [RTCIceParameters],
    [IceCandidate] and [RTCSctpCapabilities] are declared in modules that
    are not among the sources; the records have the fields this file
    reads and writes, in the order of the constructor calls. *)

Module RTCDtlsFingerprint.
Record t := mk { algorithm : option string; value : option string }.
End RTCDtlsFingerprint.

(** [DtlsRole] is a string; the tables [DTLS_SETUP_ROLE] and
    [DTLS_ROLE_SETUP] translate it to and from the [a=setup] value. *)
Module RTCDtlsParameters.
#[projections(primitive)]
Record t := mk {
  fingerprints : list RTCDtlsFingerprint.t;
  role : option string;
}.
End RTCDtlsParameters.

Module RTCIceParameters.
#[projections(primitive)]
Record t := mk {
  iceLite : option bool;
  usernameFragment : option string;
  password : option string;
}.
End RTCIceParameters.

Module RTCSctpCapabilities.
Record t := mk { maxMessageSize : number }.
End RTCSctpCapabilities.

Module IceCandidate.
#[projections(primitive)]
Record t := mk {
  component : number;
  foundation : string;
  ip : string;
  port : number;
  priority : number;
  protocol : string;
  type : string;
  relatedAddress : option string;
  relatedPort : option number;
  tcpType : option string;
}.
(** [new IceCandidate(component, foundation, ip, port, priority,
    protocol, type)] *)
Definition create (component : number) (foundation ip : string)
    (port priority : number) (protocol type : string) : t :=
  mk component foundation ip port priority protocol type None None None.
End IceCandidate.

Module GroupDescription.
Record t := mk { semantic : string; items : list string }.
Definition str (g : t) : string :=
  semantic g ++ " " ++ Js.join " " (items g).
End GroupDescription.

(** The format list of an [m=] line: strings, or for [audio] and [video]
    the numbers [Number(v)]; a number is kept as the text it was read
    from. *)
Inductive Fmt :=
| FmtStrings (l : list string)
| FmtNumbers (l : list string).

Inductive SdpType := offer | answer.

Module MediaDescription.
#[projections(primitive)]
Record t := mk {
  kind : string;
  port : number;
  profile : string;
  fmt : Fmt;
  host : option string;
  (** [rtp.muxId] *)
  muxId : option string;
  sctpCapabilities : option RTCSctpCapabilities.t;
  (** The own keys of [sctpMap], in the order of [Object.keys], with
      their values. *)
  sctpMap : list (number * string);
  sctpPort : option number;
  dtlsParams : option RTCDtlsParameters.t;
  iceParams : option RTCIceParameters.t;
  iceCandidates : list IceCandidate.t;
  iceCandidatesComplete : bool;
  iceOptions : option string;
}.
(** [new MediaDescription(kind, port, profile, fmt)] *)
Definition create (kind : string) (port : number) (profile : string)
    (fmt : Fmt) : t :=
  mk kind port profile fmt None None None [] None None None [] false None.
End MediaDescription.

Module SessionDescription.
#[projections(primitive)]
Record t := mk {
  version : number;
  origin : option string;
  name : string;
  time : string;
  host : option string;
  group : list GroupDescription.t;
  extMapAllowMixed : bool;
  msidSemantic : list GroupDescription.t;
  media : list MediaDescription.t;
  type : option SdpType;
  dtlsRole : option string;
  iceOptions : option string;
  iceLite : option bool;
  icePassword : option string;
  iceUsernameFragment : option string;
  dtlsFingerprints : list RTCDtlsFingerprint.t;
}.
(** [new SessionDescription()] *)
Definition create : t :=
  mk (Num 0) None "-" "0 0" None [] true [] [] None None None None None None [].
End SessionDescription.

(** *** What the file takes from modules that are not among the sources *)

Record Externals := {
  (** [isIPv4] of node's [net]. *)
  isIPv4 : string -> bool;
  (** [DTLS_SETUP_ROLE[value]] and [DTLS_ROLE_SETUP[role]] of [./const];
      [None] is [undefined]. *)
  DTLS_SETUP_ROLE : string -> option string;
  DTLS_ROLE_SETUP : string -> option string;
  (** [Number(v).toString()]: the text of a format of an [audio] or
      [video] section after its conversion to a number. *)
  numberText : string -> string;
}.

(** Modelled from the spec: [divide] of [./helper] is not among the
    sources. The spec's attribute lines are [a=<name>:<value>] with colons
    allowed in the value ([a=fingerprint:<alg> <hex-colon>]), so the
    division is at the first separator: the part before it, and the rest
    with the later separators kept. *)
Definition divide (from : string) (sep : ascii) : string * string :=
  match Js.split sep from with
  | first :: rest => (first, Js.join (String sep EmptyString) rest)
  | [] => (EmptyString, EmptyString)
  end.

(** [range(8, n - 1, 2)] of lodash, for [n >= 8]: the
    [ceil((n - 1 - 8) / 2)] numbers [8, 10, ...] below [n - 1]. *)
Fixpoint rangeFrom (start : nat) (count : nat) : list nat :=
  match count with
  | O => []
  | S c => start :: rangeFrom (start + 2) c
  end.
Definition range8 (n : nat) : list nat :=
  rangeFrom 8 (Nat.div2 (n - 8)).

Section Description.

Context (ext : Externals).

(** *** Addresses and candidates *)

Definition isNotSpace (c : ascii) : bool := negb (Ascii.eqb c " ").

(** [sdp.match(/^IN (IP4|IP6) ([^ ]+)$/)]; the second group. *)
Definition ipAddressFromSdp (sdp : string) : Outcome string :=
  if Js.startsWith sdp "IN IP4 " || Js.startsWith sdp "IN IP6 "
  then
    let addr := Js.slice 7 sdp in
    match Js.span isNotSpace addr with
    | (String _ _, EmptyString) => Ok addr
    | _ => Throw "exception"
    end
  else Throw "exception".

Definition ipAddressToSdp (addr : string) : string :=
  "IN IP" ++ (if isIPv4 ext addr then "4" else "6") ++ " " ++ addr.

Definition candidateToSdp (c : IceCandidate.t) : string :=
  IceCandidate.foundation c ++ " "
  ++ Js.numberToString (IceCandidate.component c) ++ " "
  ++ IceCandidate.protocol c ++ " "
  ++ Js.numberToString (IceCandidate.priority c) ++ " "
  ++ IceCandidate.ip c ++ " "
  ++ Js.numberToString (IceCandidate.port c) ++ " typ "
  ++ IceCandidate.type c
  ++ (if Js.truthy (IceCandidate.relatedAddress c)
      then " raddr " ++ Js.text (IceCandidate.relatedAddress c) else "")
  ++ (match IceCandidate.relatedPort c with
      | Some p => if Js.numberTruthy p then " rport " ++ Js.numberToString p else ""
      | None => ""
      end)
  ++ (if Js.truthy (IceCandidate.tcpType c)
      then " tcptype " ++ Js.text (IceCandidate.tcpType c) else "").

(** [bits[i]] of an index known to be in range. *)
Definition bit (bits : list string) (i : nat) : string :=
  nth i bits EmptyString.

Definition candidateExtension (bits : list string) (c : IceCandidate.t) (i : nat)
  : IceCandidate.t :=
  let key := bit bits i in
  if String.eqb key "raddr"
  then c {{ IceCandidate.relatedAddress := Some (bit bits (i + 1)) }}
  else if String.eqb key "rport"
  then c {{ IceCandidate.relatedPort := Some (Js.parseInt (bit bits (i + 1))) }}
  else if String.eqb key "tcptype"
  then c {{ IceCandidate.tcpType := Some (bit bits (i + 1)) }}
  else c.

Definition candidateFromSdp (sdp : string) : Outcome IceCandidate.t :=
  let bits := Js.split " " sdp in
  if (length bits <? 8)%nat then Throw ""
  else
    let candidate :=
      IceCandidate.create
        (Js.parseInt10 (bit bits 1)) (bit bits 0) (bit bits 4)
        (Js.parseInt10 (bit bits 5)) (Js.parseInt10 (bit bits 3))
        (bit bits 2) (bit bits 7) in
    Ok (fold_left (candidateExtension bits) (range8 (length bits)) candidate).

(** *** Serialising *)

Definition fmtTexts (f : Fmt) : list string :=
  match f with
  | FmtStrings l => l
  | FmtNumbers l => map (numberText ext) l
  end.

(** The [when]-guarded pushes of [toString] and [string]. *)
Definition lineIf (b : bool) (line : string) : list string :=
  if b then [line] else [].

Definition fingerprintLine (f : RTCDtlsFingerprint.t) : string :=
  "a=fingerprint:" ++ Js.text (RTCDtlsFingerprint.algorithm f) ++ " "
  ++ Js.text (RTCDtlsFingerprint.value f).

Definition dtlsLines (d : option RTCDtlsParameters.t) : list string :=
  match d with
  | Some d =>
      map fingerprintLine (RTCDtlsParameters.fingerprints d)
      ++ ["a=setup:"
          ++ Js.text (DTLS_ROLE_SETUP ext (Js.text (RTCDtlsParameters.role d)))]
  | None => []
  end.

Definition iceUfrag (i : option RTCIceParameters.t) : option string :=
  i ≫= RTCIceParameters.usernameFragment.
Definition icePwd (i : option RTCIceParameters.t) : option string :=
  i ≫= RTCIceParameters.password.
Definition iceIsLite (i : option RTCIceParameters.t) : bool :=
  default false (i ≫= RTCIceParameters.iceLite).

Definition mediaLines (m : MediaDescription.t) : list string :=
  ["m=" ++ MediaDescription.kind m ++ " "
    ++ Js.numberToString (MediaDescription.port m) ++ " "
    ++ MediaDescription.profile m ++ " "
    ++ Js.join " " (fmtTexts (MediaDescription.fmt m))]
  ++ lineIf (Js.truthy (MediaDescription.host m))
       ("c=" ++ ipAddressToSdp (Js.text (MediaDescription.host m)))
  ++ map (fun c => "a=candidate:" ++ candidateToSdp c)
       (MediaDescription.iceCandidates m)
  ++ lineIf (MediaDescription.iceCandidatesComplete m) "a=end-of-candidates"
  ++ lineIf (Js.truthy (iceUfrag (MediaDescription.iceParams m)))
       ("a=ice-ufrag:" ++ Js.text (iceUfrag (MediaDescription.iceParams m)))
  ++ lineIf (Js.truthy (icePwd (MediaDescription.iceParams m)))
       ("a=ice-pwd:" ++ Js.text (icePwd (MediaDescription.iceParams m)))
  ++ lineIf (iceIsLite (MediaDescription.iceParams m)) "a=ice-lite"
  ++ lineIf (Js.truthy (MediaDescription.iceOptions m))
       ("a=ice-options:" ++ Js.text (MediaDescription.iceOptions m))
  ++ dtlsLines (MediaDescription.dtlsParams m)
  ++ lineIf (Js.truthy (MediaDescription.muxId m))
       ("a=mid:" ++ Js.text (MediaDescription.muxId m))
  ++ map (fun kv => "a=sctpmap:" ++ Js.numberToString (fst kv) ++ " " ++ snd kv)
       (MediaDescription.sctpMap m)
  ++ match MediaDescription.sctpPort m with
     | Some p => lineIf (Js.numberTruthy p) ("a=sctp-port:" ++ Js.numberToString p)
     | None => []
     end
  ++ match MediaDescription.sctpCapabilities m with
     | Some c =>
         ["a=max-message-size:"
          ++ Js.numberToString (RTCSctpCapabilities.maxMessageSize c)]
     | None => []
     end.

(** [MediaDescription.toString] *)
Definition mediaToString (m : MediaDescription.t) : string :=
  Js.join Js.CRLF (mediaLines m) ++ Js.CRLF.

Definition sessionLines (d : SessionDescription.t) : list string :=
  ["v=" ++ Js.numberToString (SessionDescription.version d);
   "o=" ++ Js.text (SessionDescription.origin d);
   "s=" ++ SessionDescription.name d]
  ++ lineIf (Js.truthy (SessionDescription.host d))
       ("c=" ++ ipAddressToSdp (Js.text (SessionDescription.host d)))
  ++ ["t=" ++ SessionDescription.time d]
  ++ map (fun g => "a=group:" ++ GroupDescription.str g) (SessionDescription.group d)
  ++ lineIf (SessionDescription.extMapAllowMixed d) "a=extmap-allow-mixed"
  ++ map (fun g => "a=msid-semantic:" ++ GroupDescription.str g)
       (SessionDescription.msidSemantic d).

(** The getter [SessionDescription.string] *)
Definition string_ (d : SessionDescription.t) : string :=
  Js.join Js.CRLF (sessionLines d) ++ Js.CRLF
  ++ Js.join "" (map mediaToString (SessionDescription.media d)).

(** *** Parsing *)

Definition typeErrorSplit : string :=
  "TypeError: Cannot read properties of undefined (reading 'split')".

(** The lines of the session, and the lines of each media section
    headed by its [m=] line. *)
Definition pushLine (acc : list string * list (list string)) (line : string)
  : list string * list (list string) :=
  let '(session, media) := acc in
  if Js.startsWith line "m=" then (session, (media ++ [[line]])%list)
  else match reverse media with
       | last :: before => (session, (reverse before ++ [(last ++ [line])%list])%list)
       | [] => ((session ++ [line])%list, media)
       end.

Definition groupLines (sdp : string) : list string * list (list string) :=
  let lines := Js.splitCRLF sdp in
  let lines :=
    match lines with
    | [_] => Js.split Js.LF sdp
    | _ => lines
    end in
  fold_left pushLine lines ([], []).

Definition parseAttr (line : string) : string * option string :=
  if Js.includes ":" line
  then let '(attr, value) := divide (Js.slice 2 line) ":" in (attr, Some value)
  else (Js.slice 2 line, None).

(** [parseGroup(dest, value)] with the default [type]. *)
Definition parseGroup (dest : list GroupDescription.t) (value : option string)
  : Outcome (list GroupDescription.t) :=
  match value with
  | None => Throw typeErrorSplit
  | Some v =>
      match Js.split " " v with
      | first :: rest => Ok (dest ++ [GroupDescription.mk first rest])%list
      | [] => Ok dest
      end
  end.

(** [new RTCDtlsFingerprint(algorithm, fingerprint)] from
    [value?.split(' ') || []] *)
Definition fingerprintOf (value : option string) : RTCDtlsFingerprint.t :=
  let bits := match value with Some v => Js.split " " v | None => [] end in
  RTCDtlsFingerprint.mk (bits !! 0%nat) (bits !! 1%nat).

(** The [switch (attr)] of the session lines. *)
Definition sessionAttribute (session : SessionDescription.t) (attr : string)
    (value : option string) : Outcome SessionDescription.t :=
  if String.eqb attr "fingerprint"
  then Ok (session {{ SessionDescription.dtlsFingerprints :=
                        (SessionDescription.dtlsFingerprints session
                           ++ [fingerprintOf value])%list }})
  else if String.eqb attr "ice-lite"
  then Ok (session {{ SessionDescription.iceLite := Some true }})
  else if String.eqb attr "ice-options"
  then Ok (session {{ SessionDescription.iceOptions := value }})
  else if String.eqb attr "ice-pwd"
  then Ok (session {{ SessionDescription.icePassword := value }})
  else if String.eqb attr "ice-ufrag"
  then Ok (session {{ SessionDescription.iceUsernameFragment := value }})
  else if String.eqb attr "group"
  then Js.andThen (parseGroup (SessionDescription.group session) value) (fun g =>
         Ok (session {{ SessionDescription.group := g }}))
  else if String.eqb attr "msid-semantic"
  then Js.andThen (parseGroup (SessionDescription.msidSemantic session) value) (fun g =>
         Ok (session {{ SessionDescription.msidSemantic := g }}))
  else if String.eqb attr "setup"
  then Ok (session {{ SessionDescription.dtlsRole :=
                        DTLS_SETUP_ROLE ext (Js.text value) }})
  else if String.eqb attr "extmap-allow-mixed"
  then Ok (session {{ SessionDescription.extMapAllowMixed := true }})
  else Ok session.

Definition parseSessionLine (session : SessionDescription.t) (line : string)
  : Outcome SessionDescription.t :=
  if Js.startsWith line "v="
  then Ok (session {{ SessionDescription.version := Js.parseInt10 (Js.slice 2 line) }})
  else if Js.startsWith line "o="
  then Ok (session {{ SessionDescription.origin := Some (Js.slice 2 line) }})
  else if Js.startsWith line "s="
  then Ok (session {{ SessionDescription.name := Js.slice 2 line }})
  else if Js.startsWith line "c="
  then Js.andThen (ipAddressFromSdp (Js.slice 2 line)) (fun host =>
         Ok (session {{ SessionDescription.host := Some host }}))
  else if Js.startsWith line "t="
  then Ok (session {{ SessionDescription.time := Js.slice 2 line }})
  else if Js.startsWith line "a="
  then let '(attr, value) := parseAttr line in sessionAttribute session attr value
  else Ok session.

Definition isProfileChar (c : ascii) : bool :=
  let n := N_of_ascii c in
  ((65 <=? n)%N && (n <=? 90)%N) || Ascii.eqb c "/".

Definition isNotLineTerminator (c : ascii) : bool :=
  negb (Ascii.eqb c Js.CR) && negb (Ascii.eqb c Js.LF).

(** [target.match(/^m=([^ ]+) ([0-9]+) ([A-Z/]+) (.+)/)]: the four
    groups. Each class excludes the space that must follow it, so the
    greedy match is the only one. *)
Definition matchMLine (target : string) : option (string * string * string * string) :=
  if negb (Js.startsWith target "m=") then None
  else
    match Js.span isNotSpace (Js.slice 2 target) with
    | (String k kind, String " " r1) =>
        match Js.span Js.isDigit r1 with
        | (String p port, String " " r2) =>
            match Js.span isProfileChar r2 with
            | (String q profile, String " " r3) =>
                match Js.span isNotLineTerminator r3 with
                | (String f fmt, _) =>
                    Some (String k kind, String p port, String q profile, String f fmt)
                | _ => None
                end
            | _ => None
            end
        | _ => None
        end
    | _ => None
    end.

(** [sctpMap[key] = desc]: an own key keeps its place; a new array
    index goes among the indices in ascending order, any other new key
    goes last. *)
Definition isArrayIndex (k : number) : bool :=
  match k with
  | Num z => ((0 <=? z) && (z <? 2 ^ 32 - 1))%Z
  | NaN => false
  end.

Definition keyBefore (k k' : number) : bool :=
  match k, k' with
  | Num a, Num b => isArrayIndex k && (negb (isArrayIndex k') || (a <? b)%Z)
  | Num _, NaN => isArrayIndex k
  | NaN, _ => false
  end.

Definition sameKey (k k' : number) : bool :=
  match k, k' with
  | Num a, Num b => (a =? b)%Z
  | NaN, NaN => true
  | _, _ => false
  end.

Fixpoint sctpMapSet (m : list (number * string)) (k : number) (desc : string)
  : list (number * string) :=
  match m with
  | [] => [(k, desc)]
  | (k', d') :: rest =>
      if sameKey k k' then (k, desc) :: rest
      else if keyBefore k k' then (k, desc) :: (k', d') :: rest
      else (k', d') :: sctpMapSet rest k desc
  end.

Definition updIce (f : RTCIceParameters.t -> RTCIceParameters.t)
    (m : MediaDescription.t) : MediaDescription.t :=
  m {{ MediaDescription.iceParams := f <$> MediaDescription.iceParams m }}.

Definition updDtls (f : RTCDtlsParameters.t -> RTCDtlsParameters.t)
    (m : MediaDescription.t) : MediaDescription.t :=
  m {{ MediaDescription.dtlsParams := f <$> MediaDescription.dtlsParams m }}.

(** The [switch (attr)] of the lines of a media section. *)
Definition mediaAttribute (m : MediaDescription.t) (attr : string)
    (value : option string) : Outcome MediaDescription.t :=
  if String.eqb attr "candidate"
  then if negb (Js.truthy value) then Throw ""
       else Js.andThen (candidateFromSdp (Js.text value)) (fun c =>
              Ok (m {{ MediaDescription.iceCandidates :=
                         (MediaDescription.iceCandidates m ++ [c])%list }}))
  else if String.eqb attr "end-of-candidates"
  then Ok (m {{ MediaDescription.iceCandidatesComplete := true }})
  else if String.eqb attr "extmap"
  then match value with
       | None => Throw typeErrorSplit
       | Some _ => Ok m
       end
  else if String.eqb attr "fingerprint"
  then if negb (Js.truthy value) then Throw ""
       else Ok (updDtls (fun d =>
                  d {{ RTCDtlsParameters.fingerprints :=
                         (RTCDtlsParameters.fingerprints d
                            ++ [fingerprintOf value])%list }}) m)
  else if String.eqb attr "ice-options"
  then Ok (m {{ MediaDescription.iceOptions := value }})
  else if String.eqb attr "ice-pwd"
  then Ok (updIce (fun i => i {{ RTCIceParameters.password := value }}) m)
  else if String.eqb attr "ice-ufrag"
  then Ok (updIce (fun i => i {{ RTCIceParameters.usernameFragment := value }}) m)
  else if String.eqb attr "ice-lite"
  then Ok (updIce (fun i => i {{ RTCIceParameters.iceLite := Some true }}) m)
  else if String.eqb attr "max-message-size"
  then Ok (m {{ MediaDescription.sctpCapabilities :=
                  Some (RTCSctpCapabilities.mk (Js.parseInt10 (Js.text value))) }})
  else if String.eqb attr "mid"
  then Ok (m {{ MediaDescription.muxId := value }})
  else if String.eqb attr "setup"
  then Ok (updDtls (fun d =>
             d {{ RTCDtlsParameters.role := DTLS_SETUP_ROLE ext (Js.text value) }}) m)
  else if String.eqb attr "sctpmap"
  then if negb (Js.truthy value) then Throw ""
       else
         let '(formatId, formatDesc) := divide (Js.text value) " " in
         Ok (m {{ MediaDescription.sctpMap :=
                    sctpMapSet (MediaDescription.sctpMap m)
                               (Js.parseInt formatId) formatDesc;
                  MediaDescription.sctpPort := Some (Js.parseInt formatId) }})
  else if String.eqb attr "sctp-port"
  then if negb (Js.truthy value) then Throw ""
       else Ok (m {{ MediaDescription.sctpPort := Some (Js.parseInt (Js.text value)) }})
  else Ok m.

Definition parseMediaLine (m : MediaDescription.t) (line : string)
  : Outcome MediaDescription.t :=
  if Js.startsWith line "c="
  then Js.andThen (ipAddressFromSdp (Js.slice 2 line)) (fun host =>
         Ok (m {{ MediaDescription.host := Some host }}))
  else if Js.startsWith line "a="
  then let '(attr, value) := parseAttr line in mediaAttribute m attr value
  else Ok m.

Definition hasCredentials (i : option RTCIceParameters.t) : bool :=
  Js.truthy (iceUfrag i) && Js.truthy (icePwd i).

(** The loop that borrows the ICE parameters of a bundled section:
    [i] runs over [0 .. bundle.items.length - 1]. *)
Fixpoint bundledIceParams (items : list string) (media : list MediaDescription.t)
    (i count : nat) : option RTCIceParameters.t :=
  match count with
  | O => None
  | S count' =>
      if negb (existsb (String.eqb (Js.intToString (Z.of_nat i))) items)
      then bundledIceParams items media (S i) count'
      else match media !! i with
           | Some check =>
               if hasCredentials (MediaDescription.iceParams check)
               then MediaDescription.iceParams check
               else bundledIceParams items media (S i) count'
           | None => bundledIceParams items media (S i) count'
           end
  end.

Definition isAudioOrVideo (kind : string) : bool :=
  String.eqb kind "audio" || String.eqb kind "video".

(** One media section: [session] has the sections before it. *)
Definition parseMediaGroup (bundle : option GroupDescription.t)
    (session : SessionDescription.t) (mediaLines : list string)
  : Outcome SessionDescription.t :=
  match matchMLine (hd EmptyString mediaLines) with
  | None => Throw "m line not found"
  | Some (kind, port, profile, fmtText) =>
      let fmt := Js.split " " fmtText in
      let currentMedia :=
        (MediaDescription.create kind (Js.parseInt port) profile
           (if isAudioOrVideo kind then FmtNumbers fmt else FmtStrings fmt))
          {{ MediaDescription.dtlsParams :=
               Some (RTCDtlsParameters.mk
                       (SessionDescription.dtlsFingerprints session)
                       (SessionDescription.dtlsRole session));
             MediaDescription.iceParams :=
               Some (RTCIceParameters.mk
                       (SessionDescription.iceLite session)
                       (SessionDescription.iceUsernameFragment session)
                       (SessionDescription.icePassword session));
             MediaDescription.iceOptions := SessionDescription.iceOptions session }} in
      Js.andThen (Js.foldOutcome parseMediaLine (tail mediaLines) currentMedia)
        (fun currentMedia =>
           let media := (SessionDescription.media session ++ [currentMedia])%list in
           let currentMedia :=
             if negb (hasCredentials (MediaDescription.iceParams currentMedia))
             then match bundle, MediaDescription.muxId currentMedia with
                  | Some b, Some (String c mid) =>
                      if existsb (String.eqb (String c mid)) (GroupDescription.items b)
                      then match bundledIceParams (GroupDescription.items b) media 0
                                   (length (GroupDescription.items b)) with
                           | Some found =>
                               currentMedia {{ MediaDescription.iceParams := Some found }}
                           | None => currentMedia
                           end
                      else currentMedia
                  | _, _ => currentMedia
                  end
             else currentMedia in
           let currentMedia :=
             if negb (Js.truthy (MediaDescription.dtlsParams currentMedia
                                   ≫= RTCDtlsParameters.role))
             then currentMedia {{ MediaDescription.dtlsParams := None }}
             else currentMedia in
           Ok (session {{ SessionDescription.media :=
                            (SessionDescription.media session ++ [currentMedia])%list }}))
  end.

(** [SessionDescription.parse] *)
Definition parse (sdp : string) : Outcome SessionDescription.t :=
  let '(sessionLines, mediaGroups) := groupLines sdp in
  Js.andThen
    (Js.foldOutcome parseSessionLine sessionLines SessionDescription.create)
    (fun session =>
       let bundle :=
         List.find (fun g => String.eqb (GroupDescription.semantic g) "BUNDLE")
                   (SessionDescription.group session) in
       Js.foldOutcome (parseMediaGroup bundle) mediaGroups session).

End Description.

End Sdp.

(** ** src/peerConnection.ts *)

Module PeerConnection.

Import Js (Outcome, Ok, Throw, number, NaN, Num,
           ret, throw, bind, get, modify, forEach).
Import Js.Notations.
Import Sdp.
#[local] Open Scope string_scope.

(** Modelled from the spec: [RTCSignalingState] and [ConnectionState] of
    [./types/domain], which is not among the sources; the spec lists the
    signaling states [stable], [have-local-offer], [have-remote-offer],
    [have-local-pranswer], [have-remote-pranswer], [closed] and the
    connection states [new], [connecting], [connected], [disconnected],
    [failed], [closed]. *)
Inductive RTCSignalingState :=
| stable | have_local_offer | have_remote_offer
| have_local_pranswer | have_remote_pranswer | closed.

Inductive ConnectionState :=
| connection_new | connecting | connected | disconnected | failed
| connection_closed.

Inductive BundlePolicy := max_compat | max_bundle | disable.

Inductive IceGathererState := gather_new | gathering | complete.

(** *** The transports

    [RTCIceGatherer], [RTCIceTransport], [RTCDtlsTransport] and
    [RTCSctpTransport] are declared in modules that are not among the
    sources; the records have what this file reads and writes. *)

Module RTCIceGatherer.
Record t := mk {
  gatheringState : IceGathererState;
  localCandidates : list IceCandidate.t;
  localParameters : RTCIceParameters.t;
}.
End RTCIceGatherer.

Module RTCIceTransport.
#[projections(primitive)]
Record t := mk {
  iceGather : RTCIceGatherer.t;
  (** [connection.iceControlling] and [connection.remoteIsLite] *)
  iceControlling : bool;
  remoteIsLite : bool;
  (** What [setRemoteParams] and [addRemoteCandidate] were called with;
      [None] among the candidates is the end-of-candidates mark. *)
  remoteParams : option RTCIceParameters.t;
  remoteCandidates : list (option IceCandidate.t);
  stopped : bool;
}.
End RTCIceTransport.

Module RTCDtlsTransport.
#[projections(primitive)]
Record t := mk {
  iceTransport : RTCIceTransport.t;
  role : string;
  localParameters : RTCDtlsParameters.t;
  remoteParams : option RTCDtlsParameters.t;
  stopped : bool;
}.
End RTCDtlsTransport.

Module RTCSctpTransport.
#[projections(primitive)]
Record t := mk {
  dtlsTransport : RTCDtlsTransport.t;
  mid : option string;
  mLineIndex : option nat;
  port : number;
  sctp : Sctp.SCTP;
}.
End RTCSctpTransport.

(** *** Notifications, in call order *)

Inductive Event :=
| SignalingStateChange (s : RTCSignalingState)
| ConnectionStateChange (s : ConnectionState)
| Dispose.

(** *** The peer connection object *)

#[projections(primitive)]
Record RTCPeerConnection := mkPC {
  bundlePolicy : BundlePolicy;
  sctpTransport : option RTCSctpTransport.t;
  transportEstablished : bool;
  connectionState : ConnectionState;
  signalingState : RTCSignalingState;
  negotiationneeded : bool;
  shouldNegotiationneeded : bool;
  sctpRemotePort : option number;
  seenMid : list string;
  currentLocalDescription : option SessionDescription.t;
  currentRemoteDescription : option SessionDescription.t;
  pendingLocalDescription : option SessionDescription.t;
  pendingRemoteDescription : option SessionDescription.t;
  isClosed : bool;
  events : list Event;
}.

(** [new RTCPeerConnection(config)] *)
Definition create (policy : BundlePolicy) : RTCPeerConnection :=
  {| bundlePolicy := policy; sctpTransport := None;
     transportEstablished := false; connectionState := connection_new;
     signalingState := stable; negotiationneeded := false;
     shouldNegotiationneeded := false; sctpRemotePort := None;
     seenMid := []; currentLocalDescription := None;
     currentRemoteDescription := None; pendingLocalDescription := None;
     pendingRemoteDescription := None; isClosed := false; events := [] |}.

Definition M (A : Type) : Type := Js.M RTCPeerConnection A.

Definition emit (e : Event) : M unit :=
  modify (fun s => s {{ events := (events s ++ [e])%list }}).

(** [a || b] on values that may be undefined. *)
Definition orElse {A} (a b : option A) : option A :=
  match a with Some _ => a | None => b end.

Definition _localDescription (pc : RTCPeerConnection) : option SessionDescription.t :=
  orElse (pendingLocalDescription pc) (currentLocalDescription pc).

Definition _remoteDescription (pc : RTCPeerConnection) : option SessionDescription.t :=
  orElse (pendingRemoteDescription pc) (currentRemoteDescription pc).

(** *** What the file takes from modules that are not among the sources *)

Record Externals := {
  sdp : Sdp.Externals;
  (** [DISCARD_HOST] and [DISCARD_PORT] of [./const]. *)
  DISCARD_HOST : string;
  DISCARD_PORT : number;
  (** [RTCSctpTransport.getCapabilities()]. *)
  getCapabilities : RTCSctpCapabilities.t;
  (** What [createSctpTransport] builds: the new transports with their
      gatherer, before [mid] is cleared. *)
  newSctpTransport : RTCSctpTransport.t;
}.

Section Connection.

Context (ext : Externals).

(** *** Building descriptions *)

(** [sessionId] is the draw
    [new Uint64BE(randomBytes(64)).toString().slice(0, 8)]. *)
Definition addSDPHeader (sessionId : string) (type : SdpType)
    (description : SessionDescription.t) : SessionDescription.t :=
  description
    {{ SessionDescription.origin := Some ("- " ++ sessionId ++ " 0 IN IP4 0.0.0.0");
       SessionDescription.msidSemantic :=
         (SessionDescription.msidSemantic description
            ++ [GroupDescription.mk "WMS" ["*"]])%list;
       SessionDescription.type := Some type }}.

Definition addTransportDescription (media : MediaDescription.t)
    (dtlsTransport : RTCDtlsTransport.t) : MediaDescription.t :=
  let iceGatherer :=
    RTCIceTransport.iceGather (RTCDtlsTransport.iceTransport dtlsTransport) in
  let media :=
    media {{ MediaDescription.iceCandidates := RTCIceGatherer.localCandidates iceGatherer;
             MediaDescription.iceCandidatesComplete :=
               match RTCIceGatherer.gatheringState iceGatherer with
               | complete => true
               | _ => false
               end;
             MediaDescription.iceParams := Some (RTCIceGatherer.localParameters iceGatherer);
             MediaDescription.iceOptions := Some "trickle";
             MediaDescription.host := Some (DISCARD_HOST ext);
             MediaDescription.port := DISCARD_PORT ext }} in
  match MediaDescription.dtlsParams media with
  | Some _ => media
  | None =>
      media {{ MediaDescription.dtlsParams :=
                 Some (RTCDtlsTransport.localParameters dtlsTransport) }}
  end.

Definition createMediaDescriptionForSctp (sctp : RTCSctpTransport.t)
  : MediaDescription.t :=
  let media :=
    (MediaDescription.create "application" (DISCARD_PORT ext) "UDP/DTLS/SCTP"
       (FmtStrings ["webrtc-datachannel"]))
      {{ MediaDescription.sctpPort := Some (RTCSctpTransport.port sctp);
         MediaDescription.muxId := RTCSctpTransport.mid sctp;
         MediaDescription.sctpCapabilities := Some (getCapabilities ext) }} in
  addTransportDescription media (RTCSctpTransport.dtlsTransport sctp).

(** [allocateMid(mids, type)]: the first of [0type], [1type], ... that
    the set does not hold; among [length mids + 1] candidates one is
    free. *)
Fixpoint allocateMidFrom (mids : list string) (type : string) (i : nat)
    (fuel : nat) : string :=
  let mid := Js.intToString (Z.of_nat i) ++ type in
  match fuel with
  | O => mid
  | S fuel' =>
      if existsb (String.eqb mid) mids
      then allocateMidFrom mids type (S i) fuel'
      else mid
  end.

Definition allocateMid (mids : list string) (type : string) : string * list string :=
  let mid := allocateMidFrom mids type 0 (length mids) in
  (mid, (mids ++ [mid])%list).

Definition buildOfferSdp (sessionId : string) : M SessionDescription.t :=
  let description := addSDPHeader sessionId offer SessionDescription.create in
  let* pc := get in
  let* description :=
    match sctpTransport pc with
    | Some t =>
        (* a fresh description has no application section yet *)
        let* t :=
          match RTCSctpTransport.mid t with
          | Some _ => ret t
          | None =>
              let '(mid, mids) := allocateMid (seenMid pc) "dc" in
              modify (fun pc => pc {{ seenMid := mids }}) ;;;
              ret (t {{ RTCSctpTransport.mid := Some mid }})
          end in
        let t :=
          t {{ RTCSctpTransport.mLineIndex :=
                 Some (length (SessionDescription.media description)) }} in
        modify (fun pc => pc {{ sctpTransport := Some t }}) ;;;
        ret (description
               {{ SessionDescription.media :=
                    (SessionDescription.media description
                       ++ [createMediaDescriptionForSctp t])%list }})
    | None => ret description
    end in
  match bundlePolicy pc with
  | disable => ret description
  | _ =>
      let mids :=
        omap (fun m => if Js.truthy (MediaDescription.muxId m)
                       then MediaDescription.muxId m else None)
             (SessionDescription.media description) in
      match mids with
      | [] => ret description
      | _ =>
          ret (description
                 {{ SessionDescription.group :=
                      (SessionDescription.group description
                         ++ [GroupDescription.mk "BUNDLE" mids])%list }})
      end
  end.

Definition assertNotClosed : M unit :=
  let* pc := get in
  if isClosed pc then throw "RTCPeerConnection is closed" else ret tt.

Definition buildAnswer (sessionId : string) : M SessionDescription.t :=
  assertNotClosed ;;;
  let* pc := get in
  match signalingState pc with
  | have_remote_offer | have_local_pranswer =>
      match _remoteDescription pc with
      | None => throw "wrong state"
      | Some _ => ret (addSDPHeader sessionId answer SessionDescription.create)
      end
  | _ => throw "createAnswer failed"
  end.

(** *** States *)

Definition setSignalingState (st : RTCSignalingState) : M unit :=
  modify (fun pc => pc {{ signalingState := st }}) ;;;
  emit (SignalingStateChange st).

Definition setConnectionState (st : ConnectionState) : M unit :=
  modify (fun pc => pc {{ connectionState := st }}) ;;;
  emit (ConnectionStateChange st).

Definition setLocal (description : SessionDescription.t) : M unit :=
  match SessionDescription.type description with
  | Some answer =>
      modify (fun pc => pc {{ currentLocalDescription := Some description;
                              pendingLocalDescription := None }})
  | _ => modify (fun pc => pc {{ pendingLocalDescription := Some description }})
  end.

(** *** Validation *)

Definition cannotHandleOffer : string := "Cannot handle offer in signaling state".
Definition cannotHandleAnswer : string := "Cannot handle answer in signaling state".
Definition iceMissing : string := "ICE username fragment or password is missing".
Definition mediaMismatch : string := "Media sections in answer do not match offer".

(** The states each call is checked against. *)
Definition allowedStates (isLocal : bool) (type : SdpType) : list RTCSignalingState :=
  match isLocal, type with
  | true, offer => [stable; have_local_offer]
  | true, answer => [have_remote_offer; have_local_pranswer]
  | false, offer => [stable; have_remote_offer]
  | false, answer => [have_local_offer; have_remote_pranswer]
  end.

Definition signalingStateEqb (a b : RTCSignalingState) : bool :=
  match a, b with
  | stable, stable | have_local_offer, have_local_offer
  | have_remote_offer, have_remote_offer
  | have_local_pranswer, have_local_pranswer
  | have_remote_pranswer, have_remote_pranswer | closed, closed => true
  | _, _ => false
  end.

Definition includesState (l : list RTCSignalingState) (st : RTCSignalingState) : bool :=
  existsb (signalingStateEqb st) l.

(** [description.media.map((v, i) => [v.kind, i])] *)
Definition kindsWithIndex (d : SessionDescription.t) : list (string * nat) :=
  imap (fun i m => (MediaDescription.kind m, i)) (SessionDescription.media d).

(** [isEqual] of lodash on two such arrays. *)
Definition isEqual (a b : list (string * nat)) : bool :=
  bool_decide (a = b).

Definition validateDescription (description : SessionDescription.t) (isLocal : bool)
  : M unit :=
  let* pc := get in
  (match SessionDescription.type description with
   | Some type =>
       if negb (includesState (allowedStates isLocal type) (signalingState pc))
       then throw (match type with
                   | offer => cannotHandleOffer
                   | answer => cannotHandleAnswer
                   end)
       else ret tt
   | None => ret tt
   end) ;;;
  forEach (SessionDescription.media description) (fun media =>
    if negb (hasCredentials (MediaDescription.iceParams media))
    then throw iceMissing else ret tt) ;;;
  match SessionDescription.type description with
  | Some answer =>
      match (if isLocal then _remoteDescription pc else _localDescription pc) with
      | None => throw ""
      | Some offerDescription =>
          if negb (isEqual (kindsWithIndex offerDescription)
                           (kindsWithIndex description))
          then throw mediaMismatch
          else ret tt
      end
  | _ => ret tt
  end.

(** *** Applying descriptions

    The two setters are modelled up to their first [await]: parsing,
    validation, the state changes and what is written on the
    transports. The gathering and the connection of the transports,
    which follow, belong to modules that are not among the sources. *)

Definition updDtlsTransport (f : RTCDtlsTransport.t -> RTCDtlsTransport.t) : M unit :=
  modify (fun pc =>
    pc {{ sctpTransport :=
            (fun t => t {{ RTCSctpTransport.dtlsTransport :=
                             f (RTCSctpTransport.dtlsTransport t) }})
              <$> sctpTransport pc }}).

Definition updIceTransport (f : RTCIceTransport.t -> RTCIceTransport.t) : M unit :=
  updDtlsTransport (fun d =>
    d {{ RTCDtlsTransport.iceTransport := f (RTCDtlsTransport.iceTransport d) }}).

(** The start of [connect], before its first [await]. *)
Definition connect : M unit :=
  let* pc := get in
  if transportEstablished pc then ret tt
  else setConnectionState connecting.

Definition parseDescription (type : SdpType) (text : string)
  : M SessionDescription.t :=
  match Sdp.parse (sdp ext) text with
  | Ok d => ret (d {{ SessionDescription.type := Some type }})
  | Throw e => throw e
  end.

(** The first media section that has DTLS parameters gives the role. *)
Definition answeredRole (description : SessionDescription.t) : option string :=
  match List.find (fun m => bool_decide (is_Some (MediaDescription.dtlsParams m)))
                  (SessionDescription.media description) with
  | Some m =>
      match MediaDescription.dtlsParams m with
      | Some d => RTCDtlsParameters.role d
      | None => None
      end
  | None => None
  end.

Definition setupRole (description : SessionDescription.t) : M unit :=
  updIceTransport (fun i =>
    i {{ RTCIceTransport.iceControlling :=
           match SessionDescription.type description with
           | Some offer => true
           | _ => RTCIceTransport.remoteIsLite i
           end }}) ;;;
  match SessionDescription.type description, answeredRole description with
  | Some answer, Some (String c r) =>
      updDtlsTransport (fun d => d {{ RTCDtlsTransport.role := String c r }})
  | _, _ => ret tt
  end.

Definition setLocalDescription (type : SdpType) (text : string) : M unit :=
  let* description := parseDescription type text in
  validateDescription description true ;;;
  setSignalingState (match type with
                     | offer => have_local_offer
                     | answer => stable
                     end) ;;;
  setupRole description ;;;
  setLocal description ;;;
  match type with
  | answer => connect
  | offer => ret tt
  end.

(** [createSctpTransport]; the report to [updateIceConnectionState] is
    left out with the transports' states. *)
Definition createSctpTransport : M unit :=
  modify (fun pc =>
    pc {{ sctpTransport :=
            Some ((newSctpTransport ext) {{ RTCSctpTransport.mid := None }}) }}).

Definition setRemoteSCTP (remoteMedia : MediaDescription.t) (mLineIndex : nat)
  : M unit :=
  modify (fun pc => pc {{ sctpRemotePort := MediaDescription.sctpPort remoteMedia }}) ;;;
  match MediaDescription.sctpPort remoteMedia with
  | Some (Num p) =>
      if (p =? 0)%Z then throw "sctpRemotePort not exist"
      else
        modify (fun pc =>
          pc {{ sctpTransport :=
                  (fun t =>
                     t {{ RTCSctpTransport.sctp :=
                            snd (Sctp.setRemotePort p (RTCSctpTransport.sctp t));
                          RTCSctpTransport.mLineIndex := Some mLineIndex;
                          RTCSctpTransport.mid :=
                            if Js.truthy (RTCSctpTransport.mid t)
                            then RTCSctpTransport.mid t
                            else MediaDescription.muxId remoteMedia }})
                    <$> sctpTransport pc }})
  | _ => throw "sctpRemotePort not exist"
  end.

(** The body of [remoteSdp.media.map((remoteMedia, i) => ...)]. *)
Definition applyRemoteMedia (remoteSdp : SessionDescription.t)
    (im : nat * MediaDescription.t) : M unit :=
  let '(i, remoteMedia) := im in
  if negb (String.eqb (MediaDescription.kind remoteMedia) "application")
  then throw "invalid media kind"
  else
    let* pc := get in
    (match sctpTransport pc with
     | Some _ => ret tt
     | None =>
         createSctpTransport ;;;
         modify (fun pc =>
           pc {{ sctpTransport :=
                   (fun t => t {{ RTCSctpTransport.mid :=
                                    MediaDescription.muxId remoteMedia }})
                     <$> sctpTransport pc }})
     end) ;;;
    (* one SCTP transport: its DTLS transport is the bundle transport *)
    setRemoteSCTP remoteMedia i ;;;
    (match MediaDescription.iceParams remoteMedia,
           MediaDescription.dtlsParams remoteMedia with
     | Some iceParams, Some dtlsParams =>
         updIceTransport (fun t =>
           t {{ RTCIceTransport.remoteParams := Some iceParams;
                RTCIceTransport.iceControlling :=
                  if default false (RTCIceParameters.iceLite iceParams)
                  then true else RTCIceTransport.iceControlling t }}) ;;;
         updDtlsTransport (fun d =>
           d {{ RTCDtlsTransport.remoteParams := Some dtlsParams }})
     | _, _ => ret tt
     end) ;;;
    updIceTransport (fun t =>
      t {{ RTCIceTransport.remoteCandidates :=
             (RTCIceTransport.remoteCandidates t
                ++ map Some (MediaDescription.iceCandidates remoteMedia)
                ++ (if MediaDescription.iceCandidatesComplete remoteMedia
                    then [None] else []))%list }}) ;;;
    match SessionDescription.type remoteSdp,
          match MediaDescription.dtlsParams remoteMedia with
          | Some d => RTCDtlsParameters.role d
          | None => None
          end with
    | Some answer, Some (String c r) =>
        updDtlsTransport (fun d =>
          d {{ RTCDtlsTransport.role :=
                 if String.eqb (String c r) "client" then "server" else "client" }})
    | _, _ => ret tt
    end.

Definition setRemoteDescription (type : SdpType) (text : string) : M unit :=
  let* remoteSdp := parseDescription type text in
  validateDescription remoteSdp false ;;;
  (match type with
   | answer =>
       modify (fun pc => pc {{ currentRemoteDescription := Some remoteSdp;
                               pendingRemoteDescription := None }})
   | offer => modify (fun pc => pc {{ pendingRemoteDescription := Some remoteSdp }})
   end) ;;;
  forEach (imap (fun i m => (i, m)) (SessionDescription.media remoteSdp))
          (applyRemoteMedia remoteSdp) ;;;
  setSignalingState (match type with
                     | offer => have_remote_offer
                     | answer => stable
                     end) ;;;
  match type with
  | answer => connect
  | offer => ret tt
  end.

(** *** Closing *)

Definition dispose : M unit := emit Dispose.

(** Modelled from the spec: [stop] of [RTCSctpTransport],
    [RTCDtlsTransport] and [RTCIceTransport], which are not among the
    sources. The spec has [close] stop all timers and advance every
    state machine to [CLOSED]: the SCTP transport stops its association
    with [SCTP.stop]; the other two are marked stopped. *)
Definition stopSctpTransport : M unit :=
  let* pc := get in
  match sctpTransport pc with
  | None => ret tt
  | Some t =>
      let '(r, sctp') := Sctp.stop (RTCSctpTransport.sctp t) in
      modify (fun pc =>
        pc {{ sctpTransport := Some (t {{ RTCSctpTransport.sctp := sctp' }}) }}) ;;;
      match r with
      | Ok _ => ret tt
      | Throw e => throw e
      end
  end.

Definition stopDtlsAndIce : M unit :=
  updDtlsTransport (fun d => d {{ RTCDtlsTransport.stopped := true }}) ;;;
  updIceTransport (fun i => i {{ RTCIceTransport.stopped := true }}).

Definition close : M unit :=
  let* pc := get in
  if isClosed pc then ret tt
  else
    modify (fun pc => pc {{ isClosed := true }}) ;;;
    setSignalingState closed ;;;
    setConnectionState connection_closed ;;;
    stopSctpTransport ;;;
    stopDtlsAndIce ;;;
    dispose.

(** [close] called [n] times in a row; a rejected call does not keep
    the next from being made. *)
Fixpoint closeTimes (n : nat) (pc : RTCPeerConnection) : RTCPeerConnection :=
  match n with
  | O => pc
  | S n' => closeTimes n' (snd (close pc))
  end.

End Connection.

End PeerConnection.

(** * Properties of the three modules

    First the predicates, reference functions and examples the statements
    use, then the lemmas. *)

(** ** Texts *)

Section Texts.

Import Js Sdp.
#[local] Open Scope string_scope.

(** Every character of a string satisfies [p]. *)
Fixpoint allChars (p : ascii -> bool) (s : string) : bool :=
  match s with
  | String a s' => p a && allChars p s'
  | EmptyString => true
  end.

(** [isNot c]: every character but [c]. *)
Definition isNot (c : ascii) (a : ascii) : bool := negb (Ascii.eqb a c).

(** A character that is neither a space nor a line break. *)
Definition isWordChar (c : ascii) : bool :=
  negb (Ascii.eqb c " ") && negb (Ascii.eqb c Js.CR) && negb (Ascii.eqb c Js.LF).

(** A text with no carriage return, so with no line break of the
    description in it. *)
Definition noCR (s : string) : bool := allChars (isNot Js.CR) s.

(** A line that stays whole in [split('\r\n')] and does not open a media
    section. *)
Definition bodyLine (s : string) : bool := noCR s && negb (Js.startsWith s "m=").

End Texts.

(** ** Well-formed descriptions and what parsing gives back *)

Section CandidateStatements.

Import Js Sdp.
#[local] Open Scope string_scope.

(** A field that can stand between spaces on a line. *)
Definition isWord (s : string) : bool := allChars isWordChar s.
Definition isWordOpt (s : option string) : bool := isWord (default "" s).

(** The fields of a candidate are words. *)
Definition candidateOk (c : IceCandidate.t) : bool :=
  isWord (IceCandidate.foundation c) && isWord (IceCandidate.protocol c)
  && isWord (IceCandidate.ip c) && isWord (IceCandidate.type c)
  && isWordOpt (IceCandidate.relatedAddress c) && isWordOpt (IceCandidate.tcpType c).

(** What is left of an optional value after a trip through the text:
    a falsy value is not written, and reads back as undefined. *)
Definition keepTruthy (v : option string) : option string :=
  if Js.truthy v then v else None.
Definition keepTruthyNumber (v : option number) : option number :=
  match v with
  | Some n => if Js.numberTruthy n then Some n else None
  | None => None
  end.

(** A candidate as [candidateFromSdp] reads it back from its line. *)
Definition normalCandidate (c : IceCandidate.t) : IceCandidate.t :=
  c {{ IceCandidate.relatedAddress := keepTruthy (IceCandidate.relatedAddress c);
       IceCandidate.relatedPort := keepTruthyNumber (IceCandidate.relatedPort c);
       IceCandidate.tcpType := keepTruthy (IceCandidate.tcpType c) }}.

End CandidateStatements.

Section MediaStatements.

Import Js Sdp.
#[local] Open Scope string_scope.

Context (ext : Sdp.Externals).

(** The lines [ls], read one after the other by [parseMediaLine], turn any
    section [m] into [f m]. *)
Definition parsesTo (ls : list string)
    (f : MediaDescription.t -> MediaDescription.t) : Prop :=
  forall m, Js.foldOutcome (parseMediaLine ext) ls m = Ok (f m).

(** The algorithm and the value of a fingerprint are words. *)
Definition fingerprintOk (f : RTCDtlsFingerprint.t) : bool :=
  isWord (Js.text (RTCDtlsFingerprint.algorithm f))
  && isWord (Js.text (RTCDtlsFingerprint.value f)).

(** A fingerprint as [fingerprintOf] reads it back from its line. *)
Definition normalFingerprint (f : RTCDtlsFingerprint.t) : RTCDtlsFingerprint.t :=
  RTCDtlsFingerprint.mk (Some (Js.text (RTCDtlsFingerprint.algorithm f)))
                        (Some (Js.text (RTCDtlsFingerprint.value f))).

(** The value of the [a=setup] line of a section. *)
Definition setupText (d : RTCDtlsParameters.t) : string :=
  Js.text (DTLS_ROLE_SETUP ext (Js.text (RTCDtlsParameters.role d))).

(** What parsing gives back for a section: an empty string is read as
    an absent one, and a fingerprint or a role as its text. *)
Definition normalMedia (m : MediaDescription.t) : MediaDescription.t :=
  m {{ MediaDescription.host := keepTruthy (MediaDescription.host m);
       MediaDescription.iceCandidates :=
         map normalCandidate (MediaDescription.iceCandidates m);
       MediaDescription.iceParams :=
         Some (RTCIceParameters.mk
                 (if iceIsLite (MediaDescription.iceParams m) then Some true else None)
                 (keepTruthy (iceUfrag (MediaDescription.iceParams m)))
                 (keepTruthy (icePwd (MediaDescription.iceParams m))));
       MediaDescription.iceOptions := keepTruthy (MediaDescription.iceOptions m);
       MediaDescription.dtlsParams :=
         (fun d => RTCDtlsParameters.mk
                     (map normalFingerprint (RTCDtlsParameters.fingerprints d))
                     (DTLS_SETUP_ROLE ext (setupText d)))
           <$> MediaDescription.dtlsParams m;
       MediaDescription.muxId := keepTruthy (MediaDescription.muxId m);
       MediaDescription.sctpPort := keepTruthyNumber (MediaDescription.sctpPort m) }}.

(** The section [parseMediaGroup] starts from when the session lines
    had no ICE or DTLS attribute. *)
Definition freshMedia (kind : string) (port : number) (profile : string) (fmt : Fmt)
  : MediaDescription.t :=
  (MediaDescription.create kind port profile fmt)
    {{ MediaDescription.dtlsParams := Some (RTCDtlsParameters.mk [] None);
       MediaDescription.iceParams := Some (RTCIceParameters.mk None None None);
       MediaDescription.iceOptions := None }}.

(** The [a=setup] value of the section is one that [DTLS_SETUP_ROLE] knows,
    and the role it stands for is written as that value again. *)
Definition roleRoundTrips (d : RTCDtlsParameters.t) : Prop :=
  Js.truthy (DTLS_SETUP_ROLE ext (setupText d)) = true
  /\ Js.text (DTLS_ROLE_SETUP ext (Js.text (DTLS_SETUP_ROLE ext (setupText d))))
     = setupText d.

End MediaStatements.

Section SessionStatements.

Import Js Sdp.
#[local] Open Scope string_scope.

Context (ext : Sdp.Externals).

(** The same for the lines of the session part. *)
Definition parsesToS (ls : list string)
    (f : SessionDescription.t -> SessionDescription.t) : Prop :=
  forall s, Js.foldOutcome (parseSessionLine ext) ls s = Ok (f s).

(** A group as [parseGroup] reads it back from its line. *)
Definition normalGroup (g : GroupDescription.t) : GroupDescription.t :=
  match Js.split " " (GroupDescription.str g) with
  | first :: rest => GroupDescription.mk first rest
  | [] => g
  end.

(** What parsing gives back for the session part. *)
Definition normalSession (d : SessionDescription.t) : SessionDescription.t :=
  SessionDescription.create
    {{ SessionDescription.version := SessionDescription.version d;
       SessionDescription.origin := Some (Js.text (SessionDescription.origin d));
       SessionDescription.name := SessionDescription.name d;
       SessionDescription.time := SessionDescription.time d;
       SessionDescription.host := keepTruthy (SessionDescription.host d);
       SessionDescription.group := map normalGroup (SessionDescription.group d);
       SessionDescription.msidSemantic :=
         map normalGroup (SessionDescription.msidSemantic d) }}.

End SessionStatements.

Section DescriptionStatements.

Import Js Sdp.
#[local] Open Scope string_scope.

Context (ext : Sdp.Externals).

(** [roleRoundTrips] as a test, with the setup value free of line breaks. *)
Definition roleOk (d : RTCDtlsParameters.t) : bool :=
  Js.truthy (DTLS_SETUP_ROLE ext (setupText ext d))
  && String.eqb
       (Js.text (DTLS_ROLE_SETUP ext (Js.text (DTLS_SETUP_ROLE ext (setupText ext d)))))
       (setupText ext d)
  && noCR (setupText ext d).

(** The session part is written on lines of its own: no carriage return
    in what goes on a line, a host that is a word when there is one, and
    [extMapAllowMixed] set, as [new SessionDescription()] leaves it. *)
Definition sessionOk (d : SessionDescription.t) : bool :=
  noCR (Js.text (SessionDescription.origin d))
  && noCR (SessionDescription.name d)
  && noCR (SessionDescription.time d)
  && isWordOpt (SessionDescription.host d)
  && forallb (fun g => noCR (GroupDescription.str g)) (SessionDescription.group d)
  && forallb (fun g => noCR (GroupDescription.str g)) (SessionDescription.msidSemantic d)
  && SessionDescription.extMapAllowMixed d.

(** A data-channel section as [createMediaDescriptionForSctp] makes them,
    with well-formed values from the transports. *)
Definition applicationMediaOk (m : MediaDescription.t) : bool :=
  String.eqb (MediaDescription.kind m) "application"
  && match MediaDescription.port m with Num p => (0 <=? p)%Z | NaN => false end
  && String.eqb (MediaDescription.profile m) "UDP/DTLS/SCTP"
  && match MediaDescription.fmt m with
     | FmtStrings [f] => String.eqb f "webrtc-datachannel"
     | _ => false
     end
  && isWordOpt (MediaDescription.host m)
  && forallb candidateOk (MediaDescription.iceCandidates m)
  && noCR (Js.text (iceUfrag (MediaDescription.iceParams m)))
  && noCR (Js.text (icePwd (MediaDescription.iceParams m)))
  && noCR (Js.text (MediaDescription.iceOptions m))
  && match MediaDescription.dtlsParams m with
     | Some d => forallb fingerprintOk (RTCDtlsParameters.fingerprints d) && roleOk d
     | None => false
     end
  && noCR (Js.text (MediaDescription.muxId m))
  && match MediaDescription.sctpMap m with [] => true | _ => false end
  && match MediaDescription.sctpCapabilities m with Some _ => true | None => false end.

(** A description as the connection builds them: the session part and at
    most one section, for the data channels. *)
Definition descriptionOk (d : SessionDescription.t) : bool :=
  sessionOk d
  && match SessionDescription.media d with
     | [] => true
     | [m] => applicationMediaOk m
     | _ => false
     end.

(** What [parse] gives back for the text of a description. *)
Definition normalDescription (d : SessionDescription.t) : SessionDescription.t :=
  (normalSession d)
    {{ SessionDescription.media := map (normalMedia ext) (SessionDescription.media d) }}.

End DescriptionStatements.

(** ** Statements about the peer connection *)

Section ConnectionStatements.

Import Js Sdp PeerConnection.
#[local] Open Scope string_scope.

Context (ext : PeerConnection.Externals).

(** What the transports give [createMediaDescriptionForSctp] is well
    formed. *)
Definition transportOk (t : RTCSctpTransport.t) : bool :=
  let dtls := RTCSctpTransport.dtlsTransport t in
  let gatherer := RTCIceTransport.iceGather (RTCDtlsTransport.iceTransport dtls) in
  let ice := RTCIceGatherer.localParameters gatherer in
  noCR (Js.text (RTCSctpTransport.mid t))
  && forallb candidateOk (RTCIceGatherer.localCandidates gatherer)
  && noCR (Js.text (RTCIceParameters.usernameFragment ice))
  && noCR (Js.text (RTCIceParameters.password ice))
  && forallb fingerprintOk
       (RTCDtlsParameters.fingerprints (RTCDtlsTransport.localParameters dtls))
  && roleOk (sdp ext) (RTCDtlsTransport.localParameters dtls).

(** [DISCARD_HOST] is a word and [DISCARD_PORT] a number from 0 up. *)
Definition constantsOk : bool :=
  isWord (DISCARD_HOST ext)
  && match DISCARD_PORT ext with Num p => (0 <=? p)%Z | NaN => false end.

(** What [buildOfferSdp] and [buildAnswer] start from is well formed. *)
Definition buildOk (sessionId : string) (pc : RTCPeerConnection) : bool :=
  noCR sessionId && constantsOk
  && match sctpTransport pc with Some t => transportOk t | None => true end.

(** The transition table of the spec, section 4.1. *)
Inductive transition : bool -> SdpType -> RTCSignalingState -> RTCSignalingState -> Prop :=
| local_offer_from_stable : transition true offer stable have_local_offer
| local_offer_again : transition true offer have_local_offer have_local_offer
| local_answer_to_offer : transition true answer have_remote_offer stable
| local_answer_to_pranswer : transition true answer have_local_pranswer stable
| remote_offer_from_stable : transition false offer stable have_remote_offer
| remote_offer_again : transition false offer have_remote_offer have_remote_offer
| remote_answer_to_offer : transition false answer have_local_offer stable
| remote_answer_to_pranswer : transition false answer have_remote_pranswer stable.

(** The two setters as one, by the side they set. *)
Definition setDescription (isLocal : bool) : SdpType -> string -> M unit :=
  if isLocal then setLocalDescription ext else setRemoteDescription ext.

(** The invalid-state error of [validateDescription]. *)
Definition cannotHandle (type : SdpType) : string :=
  match type with offer => cannotHandleOffer | answer => cannotHandleAnswer end.

(** The state a setter moves to. *)
Definition nextState (isLocal : bool) (type : SdpType) : RTCSignalingState :=
  match type, isLocal with
  | offer, true => have_local_offer
  | offer, false => have_remote_offer
  | answer, _ => stable
  end.

(** The description an answer is compared with. *)
Definition offerFor (isLocal : bool) (pc : RTCPeerConnection) :=
  if isLocal then _remoteDescription pc else _localDescription pc.

(** What [validateDescription] decides, as one expression. *)
Definition validation (description : SessionDescription.t) (isLocal : bool)
    (pc : RTCPeerConnection) : Outcome unit :=
  match SessionDescription.type description with
  | None =>
      if existsb (fun m => negb (hasCredentials (MediaDescription.iceParams m)))
                 (SessionDescription.media description)
      then Throw iceMissing else Ok tt
  | Some type =>
      if negb (includesState (allowedStates isLocal type) (signalingState pc))
      then Throw (cannotHandle type)
      else if existsb (fun m => negb (hasCredentials (MediaDescription.iceParams m)))
                      (SessionDescription.media description)
      then Throw iceMissing
      else match type with
           | offer => Ok tt
           | answer =>
               match offerFor isLocal pc with
               | None => Throw ""
               | Some o =>
                   if negb (isEqual (kindsWithIndex o) (kindsWithIndex description))
                   then Throw mediaMismatch else Ok tt
               end
           end
  end.

(** Methods that leave the signaling state alone. *)
Definition keepsSignaling {A} (m : M A) : Prop :=
  forall pc, signalingState (snd (m pc)) = signalingState pc.

(** The description a setter works on. *)
Definition parsed (type : SdpType) (text : string) : Outcome SessionDescription.t :=
  match Sdp.parse (sdp ext) text with
  | Ok d => Ok (d {{ SessionDescription.type := Some type }})
  | Throw e => Throw e
  end.

End ConnectionStatements.

(** ** Statements about the association *)

Section AssociationStatements.

Import Js Sctp.

Context (ext : Sctp.Externals).

(** A state cookie of the right length whose last 20 bytes are the HMAC
    of its first 4 under the key. *)
Definition cookieWellFormed (key cookie : Buffer) : Prop :=
  Z.of_nat (length cookie) = COOKIE_LENGTH
  /\ drop 4 cookie = hmacSha1 ext key (take 4 cookie).

(** The spec's words for the cumulative TSN, as a reference to compare
    [markReceived] with: from [lrt], step to the next TSN for as long as
    it is among the received ones. *)
Fixpoint contiguousEnd (received : list Z) (lrt : Z) (fuel : nat) : Z :=
  match fuel with
  | O => lrt
  | S fuel' =>
      if existsb (Z.eqb (tsnPlusOne lrt)) received
      then contiguousEnd received (tsnPlusOne lrt) fuel'
      else lrt
  end.

Definition expectedLastReceivedTsn (lrt : Z) (received : list Z) : Z :=
  contiguousEnd received lrt (length received).

(** A method that, run on a closed association, leaves it closed and
    hands the transport nothing. *)
Definition silentWhenClosed {A} (m : M A) : Prop :=
  forall s, state s = closed ->
    state (snd (m s)) = closed
    /\ sentPackets (trace (snd (m s))) = sentPackets (trace s).

(** The last packet an association handed to its transport, handled by
    the peer at time [now]. *)
Definition deliver (now : Z) (from to : SCTP) : SCTP :=
  match last (sentPackets (trace from)) with
  | Some p => snd (handleData ext now p to)
  | None => to
  end.

(** The association after [n] expiries of T1 and of T2. *)
Definition afterT1 (n : nat) (s : SCTP) : SCTP :=
  Nat.iter n (fun s => snd (timer1Expired s)) s.
Definition afterT2 (n : nat) (s : SCTP) : SCTP :=
  Nat.iter n (fun s => snd (timer2Expired s)) s.

(** The association after [n] expiries of the re-configuration timer. *)
Definition afterReconfigTimer (n : nat) (s : SCTP) : SCTP :=
  Nat.iter n (fun s => snd (timerReconfigHandleExpired s)) s.

End AssociationStatements.

(** ** Examples *)

Section AssociationExamples.

Import Js Sctp.

(** A stand-in for the HMAC: twenty bytes of the data followed by the
    key. *)
Definition exampleSctpExternals : Sctp.Externals :=
  {| hmacSha1 := fun k d => take 20 (d ++ k ++ repeat Byte.x00 20);
     ForwardTsnChunk_type := 192;
     ReConfigChunk_type := 130;
     StaleCookieError := 3;
     ReconfigResultSuccessPerformed := 1 |}.

Definition exampleKey : Buffer := repeat Byte.x2a 16.

(** A server on port 5000 with verification tag 777 and first TSN 100. *)
Definition exampleServer : SCTP :=
  (snd (setRemotePort 5000 (Sctp.create 5000 exampleKey 777 100)))
    {{ isServer := true }}.

(** The peer's INIT: its tag is 555 and its first TSN is 9. *)
Definition exampleInit : Packet :=
  mkPacket 5000 5000 0 (Init (InitChunk.mk 555 1000 10 10 9 [])).

Definition exampleDataChunk (t : Z) : DataChunk.t :=
  DataChunk.create {{ DataChunk.tsn := t }}.

Definition exampleData (t : Z) : Packet :=
  mkPacket 5000 5000 777 (Data (exampleDataChunk t)).

(** The server after the INIT, at the millisecond 1000000: the last
    received TSN is 8. *)
Definition exampleAssociation : SCTP :=
  handleAll exampleSctpExternals [(1000000, exampleInit)] exampleServer.

(** The cookie of the INIT ACK sent then: its stamp is the second 1000. *)
Definition exampleCookie : Buffer := makeCookie exampleSctpExternals exampleKey 1000000.

(** The server once the peer has echoed that cookie, a second later. *)
Definition exampleEstablished : SCTP :=
  handleAll exampleSctpExternals
    [(1001000, mkPacket 5000 5000 777 (CookieEcho (Some exampleCookie)))]
    exampleAssociation.

End AssociationExamples.

Section ConnectionExamples.

Import Js Sdp PeerConnection.
#[local] Open Scope string_scope.

Definition exampleSdpExternals : Sdp.Externals :=
  {| isIPv4 := fun a => Js.includes "." a;
     DTLS_SETUP_ROLE := fun v =>
       if String.eqb v "actpass" then Some "auto"
       else if String.eqb v "active" then Some "client"
       else if String.eqb v "passive" then Some "server" else None;
     DTLS_ROLE_SETUP := fun v =>
       if String.eqb v "auto" then Some "actpass"
       else if String.eqb v "client" then Some "active"
       else if String.eqb v "server" then Some "passive" else None;
     numberText := fun v => v |}.

Definition exampleCandidate : IceCandidate.t :=
  IceCandidate.create (Num 1) "f00" "192.168.1.5" (Num 50000) (Num 2130706431)
    "udp" "host".

Definition exampleReflexiveCandidate : IceCandidate.t :=
  (IceCandidate.create (Num 1) "f01" "1.2.3.4" (Num 50001) (Num 1694498815)
     "udp" "srflx")
    {{ IceCandidate.relatedAddress := Some "192.168.1.5";
       IceCandidate.relatedPort := Some (Num 50000) }}.

Definition exampleSctpTransport : RTCSctpTransport.t :=
  let gatherer :=
    RTCIceGatherer.mk complete [exampleCandidate; exampleReflexiveCandidate]
      (RTCIceParameters.mk (Some false) (Some "abcd") (Some "pwdpwdpwd")) in
  let ice := RTCIceTransport.mk gatherer false false None [] false in
  let dtls :=
    RTCDtlsTransport.mk ice "auto"
      (RTCDtlsParameters.mk
         [RTCDtlsFingerprint.mk (Some "sha-256") (Some "AB:CD:EF")] (Some "auto"))
      None false in
  RTCSctpTransport.mk dtls None None (Num 5000) (Sctp.create 5000 [] 1 2).

Definition exampleExternals : PeerConnection.Externals :=
  {| sdp := exampleSdpExternals;
     DISCARD_HOST := "0.0.0.0";
     DISCARD_PORT := Num 9;
     getCapabilities := RTCSctpCapabilities.mk (Num 65536);
     newSctpTransport := exampleSctpTransport |}.

(** A connection with its data transport, before any offer. *)
Definition examplePeerConnection : RTCPeerConnection :=
  (PeerConnection.create max_compat) {{ sctpTransport := Some exampleSctpTransport }}.

(** The offer it builds, and the connection the building leaves. *)
Definition exampleOffer : SessionDescription.t :=
  match fst (buildOfferSdp exampleExternals "12345678" examplePeerConnection) with
  | Ok d => d
  | Throw _ => SessionDescription.create
  end.

Definition examplePeerConnectionAfterOffer : RTCPeerConnection :=
  snd (buildOfferSdp exampleExternals "12345678" examplePeerConnection).

(** The connection once that offer is its pending local description. *)
Definition examplePeerConnectionWithOffer : RTCPeerConnection :=
  examplePeerConnectionAfterOffer
    {{ pendingLocalDescription := Some exampleOffer;
       signalingState := have_local_offer }}.

(** An answer with no media section. *)
Definition exampleAnswerText : string :=
  string_ exampleSdpExternals (addSDPHeader "87654321" answer SessionDescription.create).

Definition exampleAnswer : SessionDescription.t :=
  match Sdp.parse exampleSdpExternals exampleAnswerText with
  | Ok d => d
  | Throw _ => SessionDescription.create
  end.

(** An offer with an audio section, which the connection has no
    transport for. *)
Definition exampleAudioOfferText : string :=
  Js.join Js.CRLF
    ["v=0";
     "o=- 1 0 IN IP4 0.0.0.0";
     "s=-";
     "t=0 0";
     "m=audio 9 UDP/TLS/RTP/SAVPF 0";
     "a=ice-ufrag:abcd";
     "a=ice-pwd:pwdpwdpwd"] ++ Js.CRLF.

Definition exampleAudioOffer : SessionDescription.t :=
  match Sdp.parse exampleSdpExternals exampleAudioOfferText with
  | Ok d => d
  | Throw _ => SessionDescription.create
  end.

End ConnectionExamples.

(** * The association *)

Section AssociationFacts.

Import Js Sctp.

Context (ext : Externals).

Ltac run := unfold bind, get, modify, emit, ret, throw, constant in *; cbn in *.

Lemma delivered_app a b : delivered (a ++ b) = delivered a ++ delivered b.
Proof. unfold delivered. apply omap_app. Qed.

Lemma sentPackets_app a b : sentPackets (a ++ b) = sentPackets a ++ sentPackets b.
Proof. unfold sentPackets. apply omap_app. Qed.

Lemma isClosedState_false st : st <> closed -> isClosedState st = false.
Proof. by destruct st. Qed.

(** C10: a packet with a DATA chunk whose verification tag is the local
    one hands the chunk's stream, protocol and payload to [onReceive],
    once, after what was delivered before: nothing on the way looks at
    the TSN, so a duplicate or an out-of-order chunk is delivered like
    any other, also when the SACK that follows cannot be sent. *)
Theorem data_chunk_always_delivered now s p d :
  chunk p = Data d -> verificationTag p = localVerificationTag s ->
  delivered (trace (snd (handleData ext now p s)))
  = delivered (trace s) ++ [(DataChunk.streamId d, DataChunk.protocol d, DataChunk.userData d)].
Proof.
  intros Hc Hv.
  unfold handleData, receiveChunk, receiveDataChunk, markReceived, receive, sendSack, sendChunk.
  run. rewrite Hc, Hv. cbn. rewrite Z.eqb_refl. cbn.
  destruct (_ || _); run; repeat case_match; simplify_eq; cbn;
    rewrite ?delivered_app; cbn; rewrite ?app_nil_r; reflexivity.
Qed.


Lemma tsnPlusOne_mod a : 0 <= a -> tsnPlusOne a = (a + 1) mod 2 ^ 32.
Proof. intros. unfold tsnPlusOne, Js.rem, SCTP_TSN_MODULO. apply Z.rem_mod_nonneg; lia. Qed.

(** C6: with the remote port known, the association not closed and the
    local TSN in range, [send] returns normally and hands the transport
    one packet with one DATA chunk: FIRST_FRAG and LAST_FRAG set,
    UNORDERED set exactly when [ordered] is not true, the TSN the local
    TSN, which becomes its successor modulo 2^32 (0 after 2^32 - 1), the
    stream sequence number 0 when unordered and otherwise the stream's
    counter, which becomes its successor modulo 2^16. *)
Theorem send_builds_single_data_chunk now streamId ppId userData options s rp :
  remotePort s = Some rp -> state s <> closed -> 0 <= localTsn s < 2 ^ 32 ->
  let isOrdered := truthy (ordered (default defaultSendOptions options)) in
  let ssn := if isOrdered then default 0 (outboundStreamSeq s !! streamId) else 0 in
  exists c s',
    send now streamId ppId userData options s = (Ok tt, s')
    /\ sentPackets (trace s')
       = sentPackets (trace s)
           ++ [mkPacket (localPort s) rp (remoteVerificationTag s) (Data c)]
    /\ Z.land (DataChunk.flags c) SCTP_DATA_FIRST_FRAG = SCTP_DATA_FIRST_FRAG
    /\ Z.land (DataChunk.flags c) SCTP_DATA_LAST_FRAG = SCTP_DATA_LAST_FRAG
    /\ Z.land (DataChunk.flags c) SCTP_DATA_UNORDERED
       = (if isOrdered then 0 else SCTP_DATA_UNORDERED)
    /\ DataChunk.tsn c = localTsn s
    /\ localTsn s' = (localTsn s + 1) mod 2 ^ 32
    /\ (localTsn s = 2 ^ 32 - 1 -> localTsn s' = 0)
    /\ DataChunk.streamSeqNum c = ssn
    /\ outboundStreamSeq s'
       = (if isOrdered
          then <[streamId := (ssn + 1) mod 2 ^ 16]> (outboundStreamSeq s)
          else outboundStreamSeq s)
    /\ DataChunk.streamId c = streamId
    /\ DataChunk.protocol c = ppId
    /\ DataChunk.userData c = userData.
Proof.
  intros Hp Hst Htsn isOrdered ssn. apply isClosedState_false in Hst.
  pose proof (tsnPlusOne_mod (localTsn s) (proj1 Htsn)) as Hplus.
  destruct s; cbn in *; subst.
  unfold send, transmit, flightSizeIncrease, sendChunk. run.
  fold isOrdered. fold ssn.
  destruct isOrdered eqn:Ho; run; rewrite Hst; cbn;
    (eexists; eexists; split; [reflexivity|]; cbn;
     repeat split; try reflexivity; try assumption).
  all: try (rewrite sentPackets_app; cbn; reflexivity).
  all: cbn; try reflexivity; try assumption.
  all: intros ->; reflexivity.
Qed.

(** C2 (amended): [send] does not look at the length of the payload.
    Closed, it returns normally and sends nothing; with no remote port it
    throws [invalid remote port] and sends nothing; otherwise it returns
    normally and the packet sent carries the whole payload, of any
    length. *)
Theorem send_ignores_payload_length now streamId ppId userData options s :
  let r := send now streamId ppId userData options s in
  (state s = closed ->
     fst r = Ok tt /\ sentPackets (trace (snd r)) = sentPackets (trace s))
  /\ (state s <> closed -> remotePort s = None ->
     fst r = Throw "invalid remote port"
     /\ sentPackets (trace (snd r)) = sentPackets (trace s))
  /\ (state s <> closed -> forall rp, remotePort s = Some rp ->
     fst r = Ok tt
     /\ exists c,
         sentPackets (trace (snd r))
         = sentPackets (trace s)
             ++ [mkPacket (localPort s) rp (remoteVerificationTag s) (Data c)]
         /\ DataChunk.userData c = userData
         /\ DataChunk.bookSize c = Z.of_nat (length userData)).
Proof.
  destruct s; cbn.
  unfold send, transmit, flightSizeIncrease, sendChunk. run.
  split; [|split].
  - intros ->. destruct (truthy _); split; reflexivity.
  - intros Hst ->. apply isClosedState_false in Hst.
    destruct (truthy _); run; rewrite Hst; split; reflexivity.
  - intros Hst rp ->. apply isClosedState_false in Hst.
    destruct (truthy _); run; rewrite Hst; cbn;
      (split; [reflexivity|]; eexists;
       split; [rewrite sentPackets_app; cbn; reflexivity|split; reflexivity]).
Qed.

Lemma bufferEquals_eq a b : bufferEquals a b = true <-> a = b.
Proof.
  revert b. induction a as [|x a IH]; intros [|y b]; cbn; try (split; congruence).
  rewrite andb_true_iff, IH. split.
  - intros [H ->]. apply Byte.byte_dec_bl in H. congruence.
  - intros [= -> ->]. split; [apply Byte.byte_dec_lb|]; reflexivity.
Qed.

Lemma cookieWellFormed_test key cookie :
  negb (Z.of_nat (length cookie) =? COOKIE_LENGTH)
  || negb (bufferEquals (drop 4 cookie) (hmacSha1 ext key (take 4 cookie))) = false
  <-> cookieWellFormed ext key cookie.
Proof.
  unfold cookieWellFormed.
  rewrite orb_false_iff, !negb_false_iff, Z.eqb_eq, bufferEquals_eq. reflexivity.
Qed.

Lemma unpackL_defined cookie :
  Z.of_nat (length cookie) = COOKIE_LENGTH -> exists t, unpackL cookie = Some t.
Proof.
  unfold COOKIE_LENGTH.
  destruct cookie as [|b0 [|b1 [|b2 [|b3 rest]]]]; cbn [length]; try lia.
  intros _. eexists. reflexivity.
Qed.

(** C4 (amended): on a server, a COOKIE ECHO whose cookie is not 24
    bytes long, or whose last 20 bytes are not the HMAC of the first 4
    under the association key, is dropped: nothing is sent and nothing
    changes. A well-formed cookie has a stamp [t]. With
    [now - 60 s <= t <= now] the cookie is accepted: when the remote port
    is known and the connection state is not [closed], a COOKIE ACK is
    sent and the association is ESTABLISHED and connected; when the
    connection state is [closed], [sendChunk] returns without sending, so
    the association becomes ESTABLISHED and connected with no COOKIE ACK;
    with no remote port [sendChunk] throws and nothing changes. With [t]
    outside the window an ERROR chunk with the stale-cookie cause and
    eight zero bytes is sent under the same conditions (nothing when
    closed, the throw with no port) and the association state stays. The
    association state changes only for a well-formed cookie in the
    window, whose ends are [now - 60] (in) and [now - 61] (out). *)
Theorem cookie_echo_checks now s cookie :
  isServer s = true ->
  let r := receiveChunk ext now (CookieEcho (Some cookie)) s in
  let sent rp c := sentPackets (trace s)
                     ++ [mkPacket (localPort s) rp (remoteVerificationTag s) c] in
  let stale := ErrorC [(StaleCookieError ext, repeat Byte.x00 8)] in
  let inWindow := fun t => now - COOKIE_LIFETIME * 1000 <= t * 1000 <= now in
  (COOKIE_LENGTH = 24 /\ COOKIE_LIFETIME = 60)
  /\ (~ cookieWellFormed ext (hmacKey s) cookie -> r = (Ok tt, s))
  /\ (cookieWellFormed ext (hmacKey s) cookie ->
      exists t, unpackL cookie = Some t
      /\ (inWindow t ->
            (forall rp, remotePort s = Some rp -> state s <> closed ->
               fst r = Ok tt /\ associationState (snd r) = ESTABLISHED
               /\ state (snd r) = connected
               /\ sentPackets (trace (snd r)) = sent rp CookieAck)
            /\ (state s = closed ->
               fst r = Ok tt /\ associationState (snd r) = ESTABLISHED
               /\ state (snd r) = connected
               /\ sentPackets (trace (snd r)) = sentPackets (trace s))
            /\ (remotePort s = None -> state s <> closed ->
               r = (Throw "invalid remote port", s)))
      /\ (~ inWindow t ->
            (forall rp, remotePort s = Some rp -> state s <> closed ->
               fst r = Ok tt /\ associationState (snd r) = associationState s
               /\ sentPackets (trace (snd r)) = sent rp stale)
            /\ (state s = closed -> r = (Ok tt, s))
            /\ (remotePort s = None -> state s <> closed ->
               r = (Throw "invalid remote port", s))))
  /\ (associationState (snd r) <> associationState s ->
      cookieWellFormed ext (hmacKey s) cookie
      /\ exists t, unpackL cookie = Some t /\ inWindow t).
Proof.
  intros Hsrv r sent0 stale inWindow.
  pose proof (cookieWellFormed_test (hmacKey s) cookie) as Hwf.
  split; [split; reflexivity|].
  subst r sent0 stale inWindow. destruct s; cbn in *; subst.
  unfold receiveChunk, sendChunk, setState, setConnectionState, removeAllListeners. run.
  destruct (negb (Z.of_nat (length cookie) =? COOKIE_LENGTH) || _) eqn:Hc.
  - assert (~ cookieWellFormed ext hmacKey0 cookie) as Hn
        by (intros H; apply Hwf in H; discriminate).
    split; [reflexivity|]. split; [contradiction|]. cbn. intros H; contradiction H; reflexivity.
  - assert (cookieWellFormed ext hmacKey0 cookie) as Hy by (apply Hwf; reflexivity).
    split; [contradiction|].
    destruct (unpackL_defined cookie (proj1 Hy)) as [t Ht]. rewrite Ht. cbn.
    unfold COOKIE_LIFETIME in *.
    destruct ((t * 1000 <? now - 60 * 1000) || (now <? t * 1000)) eqn:Hexp.
    + apply orb_true_iff in Hexp. rewrite !Z.ltb_lt in Hexp.
      split; [intros _; exists t; split; [reflexivity|split]|].
      * intros ?. lia.
      * intros _. split; [|split].
        -- intros rp -> Hst. apply isClosedState_false in Hst. cbn. rewrite Hst. run.
           rewrite sentPackets_app. cbn. done.
        -- intros ->. cbn. reflexivity.
        -- intros -> Hst. apply isClosedState_false in Hst. cbn. rewrite Hst. reflexivity.
      * intros H. exfalso. apply H. cbn.
        destruct (isClosedState state0); [reflexivity|].
        destruct remotePort0; reflexivity.
    + apply orb_false_iff in Hexp. rewrite !Z.ltb_ge in Hexp.
      split; [intros _; exists t; split; [reflexivity|split]|].
      * intros _. split; [|split].
        -- intros rp -> Hst. apply isClosedState_false in Hst. cbn. rewrite Hst. run.
           destruct associationState0; run;
             rewrite !sentPackets_app; cbn; rewrite app_nil_r; done.
        -- intros ->. run.
           destruct associationState0; run;
             rewrite ?sentPackets_app; cbn; rewrite ?app_nil_r; done.
        -- intros -> Hst. apply isClosedState_false in Hst. cbn. rewrite Hst. reflexivity.
      * intros ?. lia.
      * intros _. split; [assumption|]. exists t. split; [reflexivity|lia].
Qed.

End AssociationFacts.

(** ** The life of an association *)

Section AssociationProtocol.

Import Js Sctp Js.Notations.

Context (ext : Externals).

Lemma silent_ret {A} (a : A) : silentWhenClosed (Js.ret a).
Proof. intros s H. split; [exact H|reflexivity]. Qed.

Lemma silent_throw {A} e : silentWhenClosed (@Js.throw _ A e).
Proof. intros s H. split; [exact H|reflexivity]. Qed.

Lemma silent_get : silentWhenClosed Js.get.
Proof. intros s H. split; [exact H|reflexivity]. Qed.

Lemma silent_bind {A B} (m : M A) (k : A -> M B) :
  silentWhenClosed m -> (forall a, silentWhenClosed (k a)) -> silentWhenClosed (Js.bind m k).
Proof.
  intros Hm Hk s H. unfold Js.bind. specialize (Hm s H).
  destruct (m s) as [[a|e] s']; cbn in *; [|exact Hm].
  destruct Hm as [Hs Ht]. destruct (Hk a s' Hs) as [Hs' Ht'].
  split; [exact Hs'|congruence].
Qed.

Lemma silent_modify (f : SCTP -> SCTP) :
  (forall s, state (f s) = state s /\ trace (f s) = trace s) ->
  silentWhenClosed (Js.modify f).
Proof.
  intros Hf s H. destruct (Hf s) as [Hs Ht]. cbn. rewrite Hs, Ht. split; [exact H|reflexivity].
Qed.

Lemma silent_forEach {A} (body : A -> M unit) xs :
  (forall x, silentWhenClosed (body x)) -> silentWhenClosed (forEach xs body).
Proof.
  intros H. induction xs as [|x xs IH]; [apply silent_ret|].
  unfold forEach; fold (@forEach SCTP A). apply silent_bind; auto.
Qed.

Lemma silent_tryCatch (m : M unit) : silentWhenClosed m -> silentWhenClosed (tryCatch m).
Proof.
  intros Hm s H. unfold tryCatch. specialize (Hm s H).
  destruct (m s) as [[a|e] s']; exact Hm.
Qed.

Lemma silent_sendChunk c : silentWhenClosed (sendChunk c).
Proof.
  intros s H. unfold sendChunk, Js.bind, Js.get. cbn. rewrite H. cbn.
  split; [exact H|reflexivity].
Qed.

Lemma silent_notify e :
  (forall p, e <> TransportSend p) -> silentWhenClosed (emit e).
Proof.
  intros He s H. unfold emit, Js.modify. destruct s. cbn in *.
  split; [exact H|]. rewrite sentPackets_app.
  destruct e; try (cbn; apply app_nil_r). exfalso. eapply He. reflexivity.
Qed.

Lemma silent_setConnectionState_closed : silentWhenClosed (setConnectionState closed).
Proof.
  intros s H. unfold setConnectionState, emit, Js.bind, Js.modify. destruct s. cbn in *.
  split; [reflexivity|]. rewrite sentPackets_app. cbn. apply app_nil_r.
Qed.

Ltac silent :=
  repeat first
    [ apply silent_ret | apply silent_throw | apply silent_get
    | apply silent_sendChunk | apply silent_setConnectionState_closed
    | apply silent_bind; [|intros ?]
    | apply silent_modify; intros []; cbn; repeat case_match; split; reflexivity
    | apply silent_forEach; intros ?
    | apply silent_tryCatch
    | apply silent_notify; discriminate
    | progress unfold timer1Cancel, timer2Cancel, timer1Start, t2Start,
        timerReconfigHandleStart, timerReconfigCancel, removeAllListeners,
        sendReconfigParam, receive, abort
    | case_match ].

Lemma silent_setState st : st <> ESTABLISHED -> silentWhenClosed (setState st).
Proof. intros H. unfold setState. destruct st; try contradiction; silent. Qed.

Lemma silent_transmitReconfigRequest : silentWhenClosed transmitReconfigRequest.
Proof. unfold transmitReconfigRequest. silent. Qed.

Lemma silent_receiveReconfigParam p : silentWhenClosed (receiveReconfigParam ext p).
Proof.
  unfold receiveReconfigParam. destruct p; silent;
    try apply silent_transmitReconfigRequest.
Qed.

Lemma silent_markReceived tsn : silentWhenClosed (markReceived tsn).
Proof. unfold markReceived. silent. Qed.

Lemma silent_getExtensions params : silentWhenClosed (getExtensions params).
Proof. unfold getExtensions. silent. Qed.

Lemma silent_setExtensions params : silentWhenClosed (setExtensions ext params).
Proof. unfold setExtensions. silent. Qed.

Lemma silent_receiveInit k i :
  (forall i, silentWhenClosed (k i)) -> silentWhenClosed (receiveInit k i).
Proof.
  intros Hk. unfold receiveInit. silent; try apply silent_getExtensions; try apply Hk.
Qed.

Lemma silent_sendSack : silentWhenClosed sendSack.
Proof. unfold sendSack. silent. Qed.

Lemma silent_receiveChunk now c :
  (forall b, c <> CookieEcho b) -> c <> CookieAck ->
  silentWhenClosed (receiveChunk ext now c).
Proof.
  intros Hecho Hack. unfold receiveChunk.
  destruct c; try (exfalso; first [apply Hack; reflexivity | eapply Hecho; reflexivity]);
    unfold receiveDataChunk, receiveForwardTsnChunk; silent;
    try apply silent_markReceived;
    try (apply silent_setState; discriminate);
    try (apply silent_receiveInit; intros j; silent;
         try apply silent_setExtensions; try (apply silent_setState; discriminate));
    try apply silent_receiveReconfigParam.
Qed.

(** X1: an association whose connection state is [closed] stays closed
    and hands the transport nothing, whatever packet it is given, unless
    the packet carries a COOKIE ECHO or a COOKIE ACK chunk. *)
Theorem closed_association_sends_nothing now p s :
  state s = closed ->
  (forall b, chunk p <> CookieEcho b) -> chunk p <> CookieAck ->
  let s' := snd (handleData ext now p s) in
  state s' = closed /\ sentPackets (trace s') = sentPackets (trace s).
Proof.
  intros H Hecho Hack. revert s H.
  change (silentWhenClosed (handleData ext now p)).
  unfold handleData. silent;
    try (apply silent_receiveChunk; assumption); try apply silent_sendSack.
Qed.

(** ** The handshake *)

Ltac run := unfold bind, get, modify, emit, ret, throw, constant in *; cbn -[makeCookie] in *.

Lemma byteToZ_u8 z : byteToZ (u8 z) = z mod 256.
Proof.
  unfold byteToZ, u8.
  assert (0 <= z mod 256 < 256) as Hr by (apply Z.mod_pos_bound; lia).
  destruct (Byte.of_N (Z.to_N (z mod 256))) as [b|] eqn:E.
  - apply Byte.to_of_N in E. cbn [from_option id]. rewrite E. lia.
  - apply Byte.of_N_None_iff in E. lia.
Qed.

Lemma unpackL_packL v rest :
  0 <= v < 2 ^ 32 -> unpackL (packL v ++ rest) = Some v.
Proof.
  intros Hv. unfold packL. rewrite Z.min_r, Z.max_r by lia.
  cbn [app unpackL]. rewrite !byteToZ_u8. f_equal.
  rewrite (Z.mod_small (v / 2 ^ 24)) by (split; [apply Z.div_pos; lia|apply Z.div_lt_upper_bound; lia]).
  change (2 ^ 24) with (256 * 256 * 256). change (2 ^ 16) with (256 * 256). change (2 ^ 8) with 256.
  pose proof (Z.div_mod v 256 ltac:(lia)).
  pose proof (Z.div_mod (v / 256) 256 ltac:(lia)).
  pose proof (Z.div_mod (v / 256 / 256) 256 ltac:(lia)).
  rewrite <- !Z.div_div by lia. lia.
Qed.

Lemma bufferEquals_refl a : bufferEquals a a = true.
Proof. apply bufferEquals_eq. reflexivity. Qed.

Lemma makeCookie_parts key t :
  length (hmacSha1 ext key (packL (t / 1000))) = 20%nat ->
  0 <= t -> t / 1000 < 2 ^ 32 ->
  Z.of_nat (length (makeCookie ext key t)) = COOKIE_LENGTH
  /\ drop 4 (makeCookie ext key t) = hmacSha1 ext key (take 4 (makeCookie ext key t))
  /\ unpackL (makeCookie ext key t) = Some (t / 1000).
Proof.
  intros Hlen H0 H1. unfold makeCookie.
  split; [|split].
  - rewrite length_app, Hlen. reflexivity.
  - reflexivity.
  - apply unpackL_packL. split; [apply Z.div_pos; lia|assumption].
Qed.

(** The answer to a COOKIE_ECHO that carries the cookie made at [t]. *)
Lemma issued_cookie_run now t s key :
  hmacKey s = key -> isServer s = true ->
  length (hmacSha1 ext key (packL (t / 1000))) = 20%nat ->
  0 <= t -> t / 1000 < 2 ^ 32 ->
  receiveChunk ext now (CookieEcho (Some (makeCookie ext key t))) s =
    (if (t / 1000 * 1000 <? now - COOKIE_LIFETIME * 1000) || (now <? t / 1000 * 1000)
     then sendChunk (ErrorC [(StaleCookieError ext, repeat Byte.x00 8)])
     else sendChunk CookieAck ;;; setState ESTABLISHED) s.
Proof.
  intros <- Hsrv Hlen H0 H1.
  destruct (makeCookie_parts (hmacKey s) t Hlen H0 H1) as (Hl & Hd & Hu).
  unfold receiveChunk. unfold bind at 1. unfold get at 1. cbn [fst snd].
  rewrite Hsrv. cbn [negb]. rewrite Hl, Hd, Hu, Z.eqb_refl, bufferEquals_refl.
  reflexivity.
Qed.

(** X2: a client and a server started with each other's port, each
    handling the last packet of the other in turn (INIT, INIT ACK,
    COOKIE ECHO, COOKIE ACK), both end ESTABLISHED and connected, for any
    keys, tags and first TSNs, when the cookie is echoed within 59
    seconds; the client has sent the INIT and the server's cookie, the
    server the INIT ACK and the COOKIE ACK, and both count 65535
    channels. *)
Theorem handshake_establishes pc ps kc ks tc ts nc ns t1 t2 t3 t4 :
  pc <> 0 -> ps <> 0 ->
  (forall k d, length (hmacSha1 ext k d) = 20%nat) ->
  0 <= t1 -> t1 / 1000 < 2 ^ 32 -> t1 <= t3 <= t1 + 59000 ->
  let c1 := snd (start ext (Some ps) (client pc kc tc nc)) in
  let s1 := snd (start ext (Some pc) (server ps ks ts ns)) in
  let s2 := deliver ext t1 c1 s1 in
  let c2 := deliver ext t2 s2 c1 in
  let s3 := deliver ext t3 c2 s2 in
  let c3 := deliver ext t4 s3 c2 in
  (associationState c3 = ESTABLISHED /\ state c3 = connected)
  /\ (associationState s3 = ESTABLISHED /\ state s3 = connected)
  /\ (exists i, map chunk (sentPackets (trace c3)) =
         [Init i; CookieEcho (Some (makeCookie ext ks t1))])
  /\ (exists i, map chunk (sentPackets (trace s3)) = [InitAck i; CookieAck])
  /\ maxChannels c3 = Some MAX_STREAMS /\ maxChannels s3 = Some MAX_STREAMS.
Proof.
  intros Hpc Hps Hlen Ht1 Ht1' Ht3 c1.
  intros s1 s2 c2 s3 c3.
  apply Z.eqb_neq in Hpc, Hps.
  assert (c1 = c1) as E1 by reflexivity. unfold c1 at 2 in E1.
  unfold start, client, create, init, setExtensions, tryCatch, sendChunk, timer1Start, setState, setConnectionState, setRemotePort in E1. run. rewrite Hps in E1. run.
  clearbody c1. subst c1.
  assert (s1 = s1) as E1 by reflexivity. unfold s1 at 2 in E1.
  unfold start, server, create, setConnectionState, setRemotePort in E1. run. rewrite Hpc in E1. run.
  clearbody s1. subst s1.
  assert (s2 = s2) as E1 by reflexivity. unfold s2 at 2 in E1.
  unfold deliver, sentPackets, handleData, receiveChunk, receiveInit, getExtensions, setExtensions, sendChunk in E1. run.
  clearbody s2. subst s2.
  assert (c2 = c2) as E1 by reflexivity. unfold c2 at 2 in E1.
  unfold deliver, sentPackets, handleData, receiveChunk, receiveInit, getExtensions, setExtensions, sendChunk, timer1Cancel, timer1Start, setState in E1. run.
  rewrite Z.eqb_refl in E1. run.
  clearbody c2. subst c2.
  assert (s3 = s3) as E1 by reflexivity. unfold s3 at 2 in E1.
  unfold deliver, sentPackets, handleData in E1.
  unfold bind, get in E1. cbn -[receiveChunk makeCookie] in E1.
  rewrite Z.eqb_refl in E1. cbn -[receiveChunk makeCookie] in E1.
  match type of E1 with context [receiveChunk ext ?n ?c ?s] =>
    rewrite (issued_cookie_run n t1 s ks) in E1 by first [reflexivity | apply Hlen | assumption] end.
  assert (t1 `div` 1000 * 1000 <= t1 < t1 `div` 1000 * 1000 + 1000) as Hdiv
    by (pose proof (Z.div_mod t1 1000 ltac:(lia)); pose proof (Z.mod_pos_bound t1 1000 ltac:(lia)); lia).
  replace ((t1 `div` 1000 * 1000 <? t3 - COOKIE_LIFETIME * 1000) || (t3 <? t1 `div` 1000 * 1000)) with false in E1
    by (symmetry; apply orb_false_iff; unfold COOKIE_LIFETIME; split; apply Z.ltb_ge; lia).
  unfold sendChunk, setState, setConnectionState in E1. run.
  clearbody s3. subst s3.
  assert (c3 = c3) as E1 by reflexivity. unfold c3 at 2 in E1.
  unfold deliver, sentPackets, handleData, receiveChunk, timer1Cancel, setState, setConnectionState in E1. run.
  rewrite Z.eqb_refl in E1. run.
  clearbody c3. subst c3. cbn.
  repeat split; unfold sentPackets; cbn; eexists; reflexivity.
Qed.

(** ** Cookies *)

(** X3: the cookie a server makes at the millisecond [t] is accepted
    when it is echoed between the start of that second and 60 seconds
    later, with a COOKIE ACK, and answered with the stale-cookie error at
    any other time. *)
Theorem issued_cookie_is_accepted now t s rp :
  isServer s = true -> remotePort s = Some rp -> state s <> closed ->
  length (hmacSha1 ext (hmacKey s) (packL (t / 1000))) = 20%nat ->
  0 <= t -> t / 1000 < 2 ^ 32 ->
  let r := receiveChunk ext now (CookieEcho (Some (makeCookie ext (hmacKey s) t))) s in
  let issued := t / 1000 * 1000 in
  let sent c := sentPackets (trace s)
                  ++ [mkPacket (localPort s) rp (remoteVerificationTag s) c] in
  (issued <= now <= issued + COOKIE_LIFETIME * 1000 ->
     fst r = Ok tt /\ associationState (snd r) = ESTABLISHED
     /\ state (snd r) = connected
     /\ sentPackets (trace (snd r)) = sent CookieAck)
  /\ (~ issued <= now <= issued + COOKIE_LIFETIME * 1000 ->
     fst r = Ok tt /\ associationState (snd r) = associationState s
     /\ state (snd r) = state s
     /\ sentPackets (trace (snd r))
        = sent (ErrorC [(StaleCookieError ext, repeat Byte.x00 8)])).
Proof.
  intros Hsrv Hp Hst Hlen H0 H1 r issued sent0. subst r issued sent0.
  rewrite (issued_cookie_run now t s (hmacKey s)) by (reflexivity || assumption).
  apply isClosedState_false in Hst. unfold COOKIE_LIFETIME.
  split; intros Hw.
  - replace ((t / 1000 * 1000 <? now - 60 * 1000) || (now <? t / 1000 * 1000))
      with false by (symmetry; apply orb_false_iff; split; apply Z.ltb_ge; lia).
    destruct s; cbn in *; subst.
    unfold sendChunk, setState, setConnectionState. run. rewrite Hst. run.
    destruct associationState0; run;
      rewrite ?sentPackets_app; cbn; rewrite ?app_nil_r; repeat split; reflexivity.
  - replace ((t / 1000 * 1000 <? now - 60 * 1000) || (now <? t / 1000 * 1000))
      with true by (symmetry; apply orb_true_iff; rewrite !Z.ltb_lt; lia).
    destruct s; cbn in *; subst.
    unfold sendChunk. run. rewrite Hst. run.
    repeat split. rewrite sentPackets_app. reflexivity.
Qed.

(** X4: a closed server is opened again by a COOKIE ECHO: with a cookie
    of its own that is still fresh it becomes ESTABLISHED and connected,
    and sends no COOKIE ACK. *)
Theorem cookie_echo_revives_closed_server now t s :
  isServer s = true -> state s = closed ->
  length (hmacSha1 ext (hmacKey s) (packL (t / 1000))) = 20%nat ->
  0 <= t -> t / 1000 < 2 ^ 32 ->
  t / 1000 * 1000 <= now <= t / 1000 * 1000 + COOKIE_LIFETIME * 1000 ->
  let r := receiveChunk ext now (CookieEcho (Some (makeCookie ext (hmacKey s) t))) s in
  fst r = Ok tt /\ state (snd r) = connected
  /\ associationState (snd r) = ESTABLISHED
  /\ sentPackets (trace (snd r)) = sentPackets (trace s).
Proof.
  intros Hsrv Hst Hlen H0 H1 Hw r. subst r.
  rewrite (issued_cookie_run now t s (hmacKey s)) by (reflexivity || assumption).
  unfold COOKIE_LIFETIME in *.
  replace ((t / 1000 * 1000 <? now - 60 * 1000) || (now <? t / 1000 * 1000))
    with false by (symmetry; apply orb_false_iff; split; apply Z.ltb_ge; lia).
  destruct s; cbn in *; subst.
  unfold sendChunk, setState, setConnectionState. run.
  destruct associationState0; run;
    rewrite ?sentPackets_app; cbn; rewrite ?app_nil_r; repeat split; reflexivity.
Qed.

(** ** Starting and stopping *)

(** X5: a second [start] does nothing, whatever the ports given. *)
Theorem start_is_idempotent p q s :
  start ext q (snd (start ext p s)) = (Ok tt, snd (start ext p s))
  /\ started (snd (start ext p s)) = true.
Proof.
  assert (started (snd (start ext p s)) = true) as H.
  { destruct s. unfold start. unfold bind at 1. unfold get at 1. cbn [fst snd].
    cbn [started]. destruct started0; [reflexivity|].
    unfold setConnectionState, setRemotePort, init, setExtensions, tryCatch, sendChunk,
      timer1Start, setState. run.
    destruct p as [p|]; [destruct (p =? 0)|];
      destruct isServer0, remotePort0, timer1Handle0, state0, associationState0; run; reflexivity. }
  split; [|exact H].
  remember (snd (start ext p s)) as s' eqn:E. clear E.
  unfold start. unfold bind at 1. unfold get at 1. cbn [fst snd]. rewrite H. reflexivity.
Qed.

(** X6: a client started with no remote port, or with port 0, returns
    normally but sends no INIT, arms no timer and stays CLOSED: the throw
    of [sendChunk] is caught in [init]. *)
Theorem client_without_port_never_sends p key tag tsn port :
  port = None \/ port = Some 0 ->
  let r := start ext port (client p key tag tsn) in
  fst r = Ok tt /\ associationState (snd r) = CLOSED
  /\ state (snd r) = connecting /\ timer1Handle (snd r) = None
  /\ sentPackets (trace (snd r)) = [].
Proof.
  intros [-> | ->]; cbn; repeat split.
Qed.

(** X7: [stop] on an association with a remote port that is not closed
    sends one ABORT chunk, unless the association state is already
    CLOSED, and leaves it CLOSED and closed with T1 and T2 cleared; a
    second [stop] sends nothing more. On a closed or CLOSED association
    it sends nothing. With no remote port, on an association that is
    neither closed nor CLOSED, it throws from [abort] and closes
    nothing. *)
Theorem stop_aborts_and_closes s :
  let r := stop s in
  (forall rp, remotePort s = Some rp -> state s <> closed ->
     let r2 := stop (snd r) in
     fst r = Ok tt /\ associationState (snd r) = CLOSED /\ state (snd r) = closed
     /\ timer1Handle (snd r) = None /\ timer2Handle (snd r) = None
     /\ sentPackets (trace (snd r)) =
          sentPackets (trace s)
            ++ (if SCTP_STATE_eqb (associationState s) CLOSED then []
                else [mkPacket (localPort s) rp (remoteVerificationTag s) Abort])
     /\ fst r2 = Ok tt /\ state (snd r2) = closed
     /\ sentPackets (trace (snd r2)) = sentPackets (trace (snd r)))
  /\ (state s = closed \/ associationState s = CLOSED ->
      fst r = Ok tt /\ associationState (snd r) = CLOSED /\ state (snd r) = closed
      /\ sentPackets (trace (snd r)) = sentPackets (trace s))
  /\ (remotePort s = None -> state s <> closed -> associationState s <> CLOSED ->
      r = (Throw "invalid remote port", s)).
Proof.
  intros r. subst r. split; [|split].
  - intros rp Hp Hst r2. subst r2. apply isClosedState_false in Hst.
    destruct s; cbn in *; subst.
    unfold stop, abort, sendChunk, setState, timer1Cancel, timer2Cancel,
      setConnectionState, removeAllListeners. run.
    destruct associationState0; run; rewrite ?Hst; run;
      destruct timer1Handle0, timer2Handle0; run;
      rewrite ?sentPackets_app; cbn; rewrite ?app_nil_r; repeat split; reflexivity.
  - intros H. destruct s; cbn in *.
    unfold stop, abort, sendChunk, setState, timer1Cancel, timer2Cancel,
      setConnectionState, removeAllListeners. run.
    destruct H as [-> | ->]; run;
      [destruct associationState0; run
      |try (destruct state0; run; try (destruct remotePort0; run))];
      destruct timer1Handle0, timer2Handle0; run;
      rewrite ?sentPackets_app; cbn; rewrite ?app_nil_r; repeat split; reflexivity.
  - intros Hp Hst Ha. apply isClosedState_false in Hst.
    destruct s; cbn in *; subst.
    unfold stop, abort, sendChunk. run.
    destruct associationState0; try contradiction; run; rewrite Hst; reflexivity.
Qed.

(** ** Timers *)

Lemma afterT1_S n s : afterT1 (S n) s = snd (timer1Expired (afterT1 n s)).
Proof. reflexivity. Qed.

Lemma afterT2_S n s : afterT2 (S n) s = snd (timer2Expired (afterT2 n s)).
Proof. reflexivity. Qed.

Lemma afterT1_running n s :
  timer1Failures s = 0 -> (n <= 8)%nat ->
  afterT1 n s = s {{ timer1Failures := Z.of_nat n;
                     timer1Handle := match n with O => timer1Handle s
                                     | _ => Some (rto s * 1000) end }}.
Proof.
  intros H0 Hn. induction n as [|n IH].
  - destruct s; cbn in *; subst. reflexivity.
  - rewrite afterT1_S, IH by lia.
    destruct s; cbn in *; subst.
    unfold timer1Expired. run. unfold SCTP_MAX_INIT_RETRANS.
    destruct (Z.ltb_spec 8 (Z.of_nat n + 1)); [lia|]. run.
    replace (Z.of_nat n + 1) with (Z.of_nat (S n)) by lia.
    destruct n; reflexivity.
Qed.

Lemma afterT2_running n s :
  timer2Failures s = 0 -> (n <= 10)%nat ->
  afterT2 n s = s {{ timer2Failures := Z.of_nat n;
                     timer2Handle := match n with O => timer2Handle s
                                     | _ => Some (rto s * 1000) end }}.
Proof.
  intros H0 Hn. induction n as [|n IH].
  - destruct s; cbn in *; subst. reflexivity.
  - rewrite afterT2_S, IH by lia.
    destruct s; cbn in *; subst.
    unfold timer2Expired. run. unfold SCTP_MAX_ASSOCIATION_RETRANS.
    destruct (Z.ltb_spec 10 (Z.of_nat n + 1)); [lia|]. run.
    replace (Z.of_nat n + 1) with (Z.of_nat (S n)) by lia.
    destruct n; reflexivity.
Qed.

(** X8: T1 is armed again on each of its first eight expiries and closes
    the association on the ninth; T2 does so on its first ten and on the
    eleventh. *)
Theorem retransmission_timers_give_up s :
  timer1Failures s = 0 -> timer2Failures s = 0 ->
  (forall n, (n <= 8)%nat ->
     associationState (afterT1 n s) = associationState s
     /\ state (afterT1 n s) = state s
     /\ ((0 < n)%nat -> timer1Handle (afterT1 n s) = Some (rto s * 1000)))
  /\ (associationState (afterT1 9 s) = CLOSED /\ state (afterT1 9 s) = closed
      /\ timer1Handle (afterT1 9 s) = None)
  /\ (forall n, (n <= 10)%nat ->
     associationState (afterT2 n s) = associationState s
     /\ state (afterT2 n s) = state s
     /\ ((0 < n)%nat -> timer2Handle (afterT2 n s) = Some (rto s * 1000)))
  /\ (associationState (afterT2 11 s) = CLOSED /\ state (afterT2 11 s) = closed
      /\ timer2Handle (afterT2 11 s) = None).
Proof.
  intros H1 H2. split; [|split; [|split]].
  - intros n Hn. rewrite afterT1_running by assumption.
    destruct s; cbn. repeat split. intros Hp. destruct n; [lia|reflexivity].
  - rewrite (afterT1_S 8), afterT1_running by (assumption || lia).
    destruct s; cbn in *; subst.
    unfold timer1Expired, setState, timer1Cancel, timer2Cancel, setConnectionState,
      removeAllListeners. run.
    destruct associationState0, timer2Handle0; run; repeat split.
  - intros n Hn. rewrite afterT2_running by assumption.
    destruct s; cbn. repeat split. intros Hp. destruct n; [lia|reflexivity].
  - rewrite (afterT2_S 10), afterT2_running by (assumption || lia).
    destruct s; cbn in *; subst.
    unfold timer2Expired, setState, timer1Cancel, timer2Cancel, setConnectionState,
      removeAllListeners. run.
    destruct associationState0, timer1Handle0; run; repeat split.
Qed.

(** ** Sequence numbers *)

(** X9: on 32-bit values [tsnPlusOne] undoes [tsnMinusOne]; the other
    way round fails exactly at 2^32 - 1, because [tsnMinusOne 0] is -1:
    the remainder of JavaScript keeps the sign. *)
Theorem tsn_successor_round_trip a :
  0 <= a < SCTP_TSN_MODULO ->
  tsnPlusOne (tsnMinusOne a) = a
  /\ (tsnMinusOne (tsnPlusOne a) = a <-> a <> SCTP_TSN_MODULO - 1)
  /\ (0 <= tsnMinusOne a <-> a <> 0).
Proof.
  unfold tsnPlusOne, tsnMinusOne, Js.rem, SCTP_TSN_MODULO. intros Ha.
  destruct (Z.eq_dec a 0) as [->|Hn0].
  - split; [reflexivity|]. split.
    + split; [intros _; discriminate|reflexivity].
    + split; [intros H; exfalso; apply H; reflexivity|congruence].
  - rewrite (Z.rem_small (a - 1)) by lia.
    replace (a - 1 + 1) with a by lia. rewrite (Z.rem_small a) by lia.
    split; [reflexivity|].
    split; [|split; [intros _; exact Hn0|lia]].
    destruct (Z.eq_dec a (2 ^ 32 - 1)) as [->|Hm].
    + split; [intros H; exfalso; revert H; vm_compute; discriminate|congruence].
    + rewrite (Z.rem_small (a + 1)) by lia.
      replace (a + 1 - 1) with a by lia. rewrite (Z.rem_small a) by lia.
      split; [intros _; exact Hm|reflexivity].
Qed.

End AssociationProtocol.

Section AssociationStreams.

Import Js Sctp Js.Notations.

Context (ext : Externals).

Ltac run := unfold bind, get, modify, emit, ret, throw, constant in *; cbn in *.

Lemma afterReconfigTimer_S n s :
  afterReconfigTimer (S n) s = snd (timerReconfigHandleExpired (afterReconfigTimer n s)).
Proof. reflexivity. Qed.

Lemma reconfig_expiry_counts s :
  let s' := snd (timerReconfigHandleExpired s) in
  timerReconfigFailures s' = timerReconfigFailures s + 1
  /\ rto s' = backOff (rto s).
Proof.
  destruct s. unfold timerReconfigHandleExpired, setState, timer1Cancel, timer2Cancel,
    setConnectionState, removeAllListeners, sendReconfigParam, sendChunk. run.
  destruct (SCTP_MAX_ASSOCIATION_RETRANS <? timerReconfigFailures0 + 1); run.
  - destruct associationState0, timer1Handle0, timer2Handle0; run; split; reflexivity.
  - destruct reconfigRequest0, state0, remotePort0; run; split; reflexivity.
Qed.

Lemma reconfig_expiries_count n s :
  timerReconfigFailures (afterReconfigTimer n s) = timerReconfigFailures s + Z.of_nat n
  /\ rto (afterReconfigTimer n s) = Nat.iter n backOff (rto s).
Proof.
  induction n as [|n [IH1 IH2]].
  - split; [cbn; lia|reflexivity].
  - rewrite afterReconfigTimer_S.
    destruct (reconfig_expiry_counts (afterReconfigTimer n s)) as [H1 H2].
    rewrite H1, H2, IH1, IH2. split; [lia|reflexivity].
Qed.

Lemma backOff_grows r : 1 <= r -> r < backOff r.
Proof.
  intros H. unfold backOff.
  pose proof (Z.div_mod (3 * r + 1) 2 ltac:(lia)).
  pose proof (Z.mod_pos_bound (3 * r + 1) 2 ltac:(lia)). lia.
Qed.

Lemma reconfig_timer_running n s :
  timerReconfigFailures s = 0 -> (n <= 10)%nat ->
  associationState (afterReconfigTimer n s) = associationState s.
Proof.
  intros H0. induction n as [|n IH]; intros Hn; [reflexivity|].
  rewrite afterReconfigTimer_S, <- IH by lia.
  pose proof (proj1 (reconfig_expiries_count n s)) as Hf. rewrite H0 in Hf.
  clear IH. revert Hf. generalize (afterReconfigTimer n s). intros sn Hf.
  destruct sn. cbn in Hf. subst.
  unfold timerReconfigHandleExpired, sendReconfigParam, sendChunk. run.
  unfold SCTP_MAX_ASSOCIATION_RETRANS.
  destruct (Z.ltb_spec 10 (0 + Z.of_nat n + 1)); [lia|].
  destruct reconfigRequest0, state0, remotePort0; run; reflexivity.
Qed.

Lemma reconfig_timer_closes n s :
  timerReconfigFailures s = 0 -> (10 <= n)%nat ->
  associationState (afterReconfigTimer (S n) s) = CLOSED
  /\ state (afterReconfigTimer (S n) s) = closed
  /\ timerReconfigHandle (afterReconfigTimer (S n) s) = None.
Proof.
  intros H0 Hn. rewrite afterReconfigTimer_S.
  pose proof (proj1 (reconfig_expiries_count n s)) as Hf. rewrite H0 in Hf.
  revert Hf. generalize (afterReconfigTimer n s). intros sn Hf.
  destruct sn. cbn in Hf. subst.
  unfold timerReconfigHandleExpired, setState, timer1Cancel, timer2Cancel,
    setConnectionState, removeAllListeners. run.
  unfold SCTP_MAX_ASSOCIATION_RETRANS.
  destruct (Z.ltb_spec 10 (0 + Z.of_nat n + 1)); [|lia].
  destruct associationState0, timer1Handle0, timer2Handle0; run; repeat split.
Qed.

(** X10: each expiry of the re-configuration timer replaces [rto] by
    [ceil(rto * 1.5)], which is larger from 1 on; the first ten expiries
    leave the association state alone and every later one closes the
    association. *)
Theorem reconfig_timer_backs_off_and_gives_up s :
  (forall n, rto (afterReconfigTimer n s) = Nat.iter n backOff (rto s))
  /\ (forall r, 1 <= r -> r < backOff r)
  /\ (timerReconfigFailures s = 0 ->
      (forall n, (n <= 10)%nat ->
         associationState (afterReconfigTimer n s) = associationState s)
      /\ (forall n, (10 < n)%nat ->
            associationState (afterReconfigTimer n s) = CLOSED
            /\ state (afterReconfigTimer n s) = closed
            /\ timerReconfigHandle (afterReconfigTimer n s) = None)).
Proof.
  split; [intros n; apply reconfig_expiries_count|].
  split; [apply backOff_grows|]. intros H0.
  split; [intros n Hn; apply reconfig_timer_running; assumption|].
  intros [|n] Hn; [lia|]. apply reconfig_timer_closes; [assumption|lia].
Qed.

(** ** Stream re-configuration *)









(** ** Receiving in order *)

(** X13: with nothing held out of order, the DATA chunk with the next
    TSN advances the cumulative TSN by one, through 2^32 - 1 to 0, and
    leaves nothing held, so that the same holds for the chunk after it. *)
Theorem in_order_data_advances_cumulative_tsn s l d :
  lastReceivedTsn s = Some l -> 0 <= l < SCTP_TSN_MODULO -> sackMisOrdered s = [] ->
  DataChunk.tsn d = tsnPlusOne l ->
  let s' := snd (receiveDataChunk d s) in
  lastReceivedTsn s' = Some (tsnPlusOne l)
  /\ 0 <= tsnPlusOne l < SCTP_TSN_MODULO
  /\ sackMisOrdered s' = []
  /\ sackNeeded s' = true
  /\ (tsnPlusOne l = if l =? SCTP_TSN_MODULO - 1 then 0 else l + 1).
Proof.
  intros Hl Hr Hm Ht s'. subst s'.
  assert (tsnPlusOne l = if l =? SCTP_TSN_MODULO - 1 then 0 else l + 1) as Hn.
  { unfold tsnPlusOne, Js.rem, SCTP_TSN_MODULO in *.
    destruct (Z.eqb_spec l (2 ^ 32 - 1)) as [->|Hne]; [reflexivity|].
    apply Z.rem_small. lia. }
  assert (0 <= tsnPlusOne l < SCTP_TSN_MODULO) as Hrange.
  { rewrite Hn. unfold SCTP_TSN_MODULO in *.
    destruct (Z.eqb_spec l (2 ^ 32 - 1)); lia. }
  assert (uint32Gte l (tsnPlusOne l) = false) as Hge.
  { unfold uint32Gte, uint32Gt. rewrite Hn. unfold SCTP_TSN_MODULO in *.
    destruct (Z.eqb_spec l (2 ^ 32 - 1)) as [->|Hne]; [reflexivity|].
    destruct (Z.eqb_spec l (l + 1)); [lia|]. cbn [orb negb andb].
    replace (l - (l + 1)) with (-1) by lia. reflexivity. }
  assert (uint32Gt (tsnPlusOne l) (tsnPlusOne l) = false) as Hgt
    by (unfold uint32Gt; rewrite Z.eqb_refl; reflexivity).
  destruct s; cbn in Hl, Hm; subst.
  unfold receiveDataChunk, markReceived, receive, isObsolete. run. rewrite Ht.
  cbn [uint32Gte_u]. rewrite Hge. cbn.
  unfold isNextTsn, uint32Gt_u. cbn. rewrite Z.eqb_refl. cbn. rewrite Hgt. cbn.
  split; [reflexivity|]. split; [exact Hrange|]. split; [reflexivity|]. split; [reflexivity|exact Hn].
Qed.

End AssociationStreams.

(** ** Runs of the example association *)

Section AssociationRuns.

Import Js Sctp.

(** C3, on the code: with the last received TSN at 8, the chunks with
    TSN 10 and then 9 leave it at 8. [markReceived] walks the recorded
    TSNs in the order of [sort()] without a comparator, which puts 10
    before 9, and stops at the first one that is not the next; every TSN
    up to 10 has been received by then, so the claim asks for 10. *)
Theorem markReceived_orders_tsns_as_text :
  let s := exampleAssociation in
  let s' := snd (receiveDataChunk (exampleDataChunk 9)
                   (snd (receiveDataChunk (exampleDataChunk 10) s))) in
  lastReceivedTsn s = Some 8
  /\ Js.sort [10; 9] = [10; 9]
  /\ sackMisOrdered s' = [10; 9]
  /\ lastReceivedTsn s' = Some 8
  /\ expectedLastReceivedTsn 8 [10; 9] = 10.
Proof. vm_compute. repeat split. Qed.

(** The same two chunks in the order of their TSNs do advance it. *)
Lemma markReceived_in_order :
  let s := exampleAssociation in
  let s' := snd (receiveDataChunk (exampleDataChunk 10)
                   (snd (receiveDataChunk (exampleDataChunk 9) s))) in
  lastReceivedTsn s' = Some 10 /\ sackMisOrdered s' = [].
Proof. vm_compute. repeat split. Qed.



(** C2, a run against the claim: a payload of 1201 bytes is sent whole. *)
Lemma send_transmits_1201_bytes :
  let r := send 1000001 1 51 (repeat Byte.x61 1201) None exampleAssociation in
  fst r = Ok tt
  /\ exists p c,
       last (sentPackets (trace (snd r))) = Some p
       /\ chunk p = Data c
       /\ length (DataChunk.userData c) = 1201%nat.
Proof. split; [reflexivity|]. eexists _, _. vm_compute. repeat split. Qed.

Lemma send_builds_single_data_chunk_witness :
  let s := exampleAssociation {{ localTsn := 2 ^ 32 - 1 }} in
  remotePort s = Some 5000 /\ state s <> closed /\ 0 <= localTsn s < 2 ^ 32
  /\ exists c s',
       send 1000001 1 51 [Byte.x68; Byte.x69] None s = (Ok tt, s')
       /\ sentPackets (trace s')
          = sentPackets (trace s) ++ [mkPacket 5000 5000 555 (Data c)]
       /\ DataChunk.tsn c = 2 ^ 32 - 1
       /\ localTsn s' = 0
       /\ DataChunk.streamSeqNum c = 0.
Proof.
  cbv zeta. set (s := exampleAssociation {{ localTsn := 2 ^ 32 - 1 }}).
  assert (H1 : remotePort s = Some 5000) by reflexivity.
  assert (H2 : state s <> closed) by (vm_compute; discriminate).
  assert (H3 : 0 <= localTsn s < 2 ^ 32) by (vm_compute; split; [discriminate|reflexivity]).
  split; [exact H1|]. split; [exact H2|]. split; [exact H3|].
  destruct (send_builds_single_data_chunk 1000001 1 51 [Byte.x68; Byte.x69] None s 5000
              H1 H2 H3)
    as (c & s' & Hsend & Hsent & _ & _ & _ & Htsn & _ & Hwrap & Hssn & _).
  exists c, s'. split; [exact Hsend|]. split; [exact Hsent|].
  split; [exact Htsn|]. split; [apply Hwrap; reflexivity|].
  rewrite Hssn. reflexivity.
Defined.

(** C4, runs against the claim: a cookie of three bytes, and one of 24
    bytes whose HMAC is wrong, are dropped with nothing sent and nothing
    changed. *)
Lemma malformed_cookie_is_dropped_silently :
  let s := exampleAssociation in
  let echo cookie := mkPacket 5000 5000 777 (CookieEcho (Some cookie)) in
  isServer s = true
  /\ handleData exampleSctpExternals 1000001 (echo [Byte.x01; Byte.x02; Byte.x03]) s
     = (Ok tt, s)
  /\ handleData exampleSctpExternals 1000001 (echo (repeat Byte.x00 24)) s
     = (Ok tt, s).
Proof. vm_compute. repeat split. Qed.

Lemma cookie_echo_checks_witness :
  let s := exampleAssociation in
  let echo := CookieEcho (Some exampleCookie) in
  isServer s = true /\ remotePort s = Some 5000 /\ state s <> closed
  /\ cookieWellFormed exampleSctpExternals (hmacKey s) exampleCookie
  /\ unpackL exampleCookie = Some 1000
  /\ associationState (snd (receiveChunk exampleSctpExternals 1060000 echo s))
     = ESTABLISHED
  /\ associationState (snd (receiveChunk exampleSctpExternals 1061000 echo s))
     = associationState s
  /\ sentPackets (trace (snd (receiveChunk exampleSctpExternals 1061000 echo s)))
     = sentPackets (trace s) ++ [mkPacket 5000 5000 555 (ErrorC [(3, repeat Byte.x00 8)])].
Proof.
  cbv zeta.
  assert (H1 : isServer exampleAssociation = true) by reflexivity.
  assert (H2 : remotePort exampleAssociation = Some 5000) by reflexivity.
  assert (H3 : state exampleAssociation <> closed) by (vm_compute; discriminate).
  assert (H4 : cookieWellFormed exampleSctpExternals (hmacKey exampleAssociation)
                 exampleCookie) by (split; reflexivity).
  assert (H5 : unpackL exampleCookie = Some 1000) by reflexivity.
  split; [exact H1|]. split; [exact H2|]. split; [exact H3|]. split; [exact H4|].
  split; [exact H5|].
  destruct (cookie_echo_checks exampleSctpExternals 1060000 exampleAssociation
              exampleCookie H1) as (_ & _ & Hin & _).
  destruct (cookie_echo_checks exampleSctpExternals 1061000 exampleAssociation
              exampleCookie H1) as (_ & _ & Hout & _).
  destruct (Hin H4) as (t & Ht & Hok & _).
  destruct (Hout H4) as (t' & Ht' & _ & Hstale).
  rewrite H5 in Ht, Ht'. injection Ht as <-. injection Ht' as <-.
  assert (Hyes : 1060000 - COOKIE_LIFETIME * 1000 <= 1000 * 1000 <= 1060000)
    by (unfold COOKIE_LIFETIME; lia).
  destruct (Hok Hyes) as (Hopen & _).
  split; [apply (Hopen 5000 H2 H3)|].
  assert (Hno : ~ (1061000 - COOKIE_LIFETIME * 1000 <= 1000 * 1000 <= 1061000))
    by (unfold COOKIE_LIFETIME; lia).
  destruct (Hstale Hno) as (Hopen' & _).
  destruct (Hopen' 5000 H2 H3) as (_ & Hs & Hp). split; [exact Hs|exact Hp].
Defined.

Lemma data_chunk_always_delivered_witness :
  let s := snd (handleData exampleSctpExternals 1000001 (exampleData 9)
                  exampleAssociation) in
  lastReceivedTsn s = Some 9
  /\ chunk (exampleData 9) = Data (exampleDataChunk 9)
  /\ verificationTag (exampleData 9) = localVerificationTag s
  /\ delivered (trace (snd (handleData exampleSctpExternals 1000002 (exampleData 9) s)))
     = delivered (trace s) ++ [(0, 0, [])].
Proof.
  cbv zeta. split; [reflexivity|]. split; [reflexivity|]. split; [reflexivity|].
  apply (data_chunk_always_delivered exampleSctpExternals 1000002 _ (exampleData 9)
           (exampleDataChunk 9)); reflexivity.
Defined.

Lemma exampleHmac_length k d :
  length (hmacSha1 exampleSctpExternals k d) = 20%nat.
Proof.
  change (length (take 20 (d ++ k ++ repeat Byte.x00 20)) = 20%nat).
  rewrite length_take, !length_app, repeat_length. lia.
Qed.

Lemma closed_association_sends_nothing_witness :
  let s := snd (stop exampleEstablished) in
  let r := handleData exampleSctpExternals 1000003 (exampleData 9) s in
  state s = closed
  /\ (forall b, chunk (exampleData 9) <> CookieEcho b)
  /\ chunk (exampleData 9) <> CookieAck
  /\ state (snd r) = closed
  /\ sentPackets (trace (snd r)) = sentPackets (trace s).
Proof.
  cbv zeta.
  assert (H1 : state (snd (stop exampleEstablished)) = closed) by reflexivity.
  assert (H2 : forall b, chunk (exampleData 9) <> CookieEcho b) by (intros b; discriminate).
  assert (H3 : chunk (exampleData 9) <> CookieAck) by discriminate.
  split; [exact H1|]. split; [exact H2|]. split; [exact H3|].
  exact (closed_association_sends_nothing exampleSctpExternals 1000003 (exampleData 9)
           (snd (stop exampleEstablished)) H1 H2 H3).
Defined.

Lemma handshake_establishes_witness :
  let c1 := snd (start exampleSctpExternals (Some 5001) (client 5000 exampleKey 11 100)) in
  let s1 := snd (start exampleSctpExternals (Some 5000) (server 5001 exampleKey 22 200)) in
  let s2 := deliver exampleSctpExternals 1000000 c1 s1 in
  let c2 := deliver exampleSctpExternals 1000001 s2 c1 in
  let s3 := deliver exampleSctpExternals 1000002 c2 s2 in
  let c3 := deliver exampleSctpExternals 1000003 s3 c2 in
  5000 <> 0 /\ 5001 <> 0
  /\ (forall k d, length (hmacSha1 exampleSctpExternals k d) = 20%nat)
  /\ 0 <= 1000000 /\ 1000000 / 1000 < 2 ^ 32
  /\ 1000000 <= 1000002 <= 1000000 + 59000
  /\ state c3 = connected /\ state s3 = connected.
Proof.
  cbv zeta.
  assert (H1 : 5000 <> 0) by discriminate.
  assert (H2 : 5001 <> 0) by discriminate.
  assert (H3 : 0 <= 1000000) by (vm_compute; discriminate).
  assert (H4 : 1000000 / 1000 < 2 ^ 32) by reflexivity.
  assert (H5 : 1000000 <= 1000002 <= 1000000 + 59000)
    by (split; vm_compute; discriminate).
  split; [exact H1|]. split; [exact H2|]. split; [exact exampleHmac_length|].
  split; [exact H3|]. split; [exact H4|]. split; [exact H5|].
  destruct (handshake_establishes exampleSctpExternals 5000 5001 exampleKey exampleKey
              11 22 100 200 1000000 1000001 1000002 1000003
              H1 H2 exampleHmac_length H3 H4 H5)
    as ((_ & Hc) & (_ & Hs) & _).
  split; [exact Hc|exact Hs].
Defined.

Lemma issued_cookie_is_accepted_witness :
  let s := exampleAssociation in
  let r := receiveChunk exampleSctpExternals 1030000
             (CookieEcho (Some (makeCookie exampleSctpExternals (hmacKey s) 1000000))) s in
  isServer s = true /\ remotePort s = Some 5000 /\ state s <> closed
  /\ length (hmacSha1 exampleSctpExternals (hmacKey s) (packL (1000000 / 1000))) = 20%nat
  /\ 0 <= 1000000 /\ 1000000 / 1000 < 2 ^ 32
  /\ 1000000 / 1000 * 1000 <= 1030000 <= 1000000 / 1000 * 1000 + COOKIE_LIFETIME * 1000
  /\ associationState (snd r) = ESTABLISHED
  /\ sentPackets (trace (snd r))
     = sentPackets (trace s) ++ [mkPacket 5000 5000 555 CookieAck].
Proof.
  cbv zeta.
  assert (H1 : isServer exampleAssociation = true) by reflexivity.
  assert (H2 : remotePort exampleAssociation = Some 5000) by reflexivity.
  assert (H3 : state exampleAssociation <> closed) by (vm_compute; discriminate).
  assert (H4 : 0 <= 1000000) by (vm_compute; discriminate).
  assert (H5 : 1000000 / 1000 < 2 ^ 32) by reflexivity.
  assert (H6 : 1000000 / 1000 * 1000 <= 1030000
               <= 1000000 / 1000 * 1000 + COOKIE_LIFETIME * 1000)
    by (split; vm_compute; discriminate).
  split; [exact H1|]. split; [exact H2|]. split; [exact H3|].
  split; [apply exampleHmac_length|]. split; [exact H4|]. split; [exact H5|].
  split; [exact H6|].
  destruct (issued_cookie_is_accepted exampleSctpExternals 1030000 1000000
              exampleAssociation 5000 H1 H2 H3 (exampleHmac_length _ _) H4 H5)
    as (Hin & _).
  destruct (Hin H6) as (_ & Ha & _ & Hp). split; [exact Ha|exact Hp].
Defined.

Lemma cookie_echo_revives_closed_server_witness :
  let s := snd (stop exampleEstablished) in
  let r := receiveChunk exampleSctpExternals 1030000
             (CookieEcho (Some (makeCookie exampleSctpExternals (hmacKey s) 1000000))) s in
  isServer s = true /\ state s = closed
  /\ length (hmacSha1 exampleSctpExternals (hmacKey s) (packL (1000000 / 1000))) = 20%nat
  /\ 0 <= 1000000 /\ 1000000 / 1000 < 2 ^ 32
  /\ 1000000 / 1000 * 1000 <= 1030000 <= 1000000 / 1000 * 1000 + COOKIE_LIFETIME * 1000
  /\ state (snd r) = connected
  /\ sentPackets (trace (snd r)) = sentPackets (trace s).
Proof.
  cbv zeta.
  assert (H1 : isServer (snd (stop exampleEstablished)) = true) by reflexivity.
  assert (H2 : state (snd (stop exampleEstablished)) = closed) by reflexivity.
  assert (H4 : 0 <= 1000000) by (vm_compute; discriminate).
  assert (H5 : 1000000 / 1000 < 2 ^ 32) by reflexivity.
  assert (H6 : 1000000 / 1000 * 1000 <= 1030000
               <= 1000000 / 1000 * 1000 + COOKIE_LIFETIME * 1000)
    by (split; vm_compute; discriminate).
  split; [exact H1|]. split; [exact H2|]. split; [apply exampleHmac_length|].
  split; [exact H4|]. split; [exact H5|]. split; [exact H6|].
  destruct (cookie_echo_revives_closed_server exampleSctpExternals 1030000 1000000
              (snd (stop exampleEstablished)) H1 H2 (exampleHmac_length _ _) H4 H5 H6)
    as (_ & Hs & _ & Hp).
  split; [exact Hs|exact Hp].
Defined.

Lemma client_without_port_never_sends_witness :
  let r := start exampleSctpExternals None (client 5000 exampleKey 11 100) in
  (@None Z = None \/ @None Z = Some 0)
  /\ fst r = Ok tt /\ associationState (snd r) = CLOSED
  /\ sentPackets (trace (snd r)) = [].
Proof.
  cbv zeta.
  assert (H : @None Z = None \/ @None Z = Some 0) by (left; reflexivity).
  split; [exact H|].
  destruct (client_without_port_never_sends exampleSctpExternals 5000 exampleKey 11 100
              None H) as (Ho & Ha & _ & _ & Hp).
  split; [exact Ho|]. split; [exact Ha|exact Hp].
Defined.

Lemma stop_aborts_and_closes_witness :
  let s := exampleEstablished in
  let unbound :=
    (Sctp.create 5000 exampleKey 777 100) {{ associationState := ESTABLISHED }} in
  remotePort s = Some 5000 /\ state s <> closed
  /\ associationState s = ESTABLISHED
  /\ state (snd (stop s)) = closed
  /\ sentPackets (trace (snd (stop s)))
     = sentPackets (trace s) ++ [mkPacket 5000 5000 555 Abort]
  /\ sentPackets (trace (snd (stop (snd (stop s))))) = sentPackets (trace (snd (stop s)))
  /\ remotePort unbound = None /\ state unbound <> closed
  /\ associationState unbound <> CLOSED
  /\ stop unbound = (Throw "invalid remote port", unbound).
Proof.
  cbv zeta.
  set (unbound := (Sctp.create 5000 exampleKey 777 100) {{ associationState := ESTABLISHED }}).
  assert (H1 : remotePort exampleEstablished = Some 5000) by reflexivity.
  assert (H2 : state exampleEstablished <> closed) by (vm_compute; discriminate).
  assert (H3 : remotePort unbound = None) by reflexivity.
  assert (H4 : state unbound <> closed) by (vm_compute; discriminate).
  assert (H5 : associationState unbound <> CLOSED) by (vm_compute; discriminate).
  split; [exact H1|]. split; [exact H2|]. split; [reflexivity|].
  destruct (stop_aborts_and_closes exampleEstablished) as (Hopen & _).
  destruct (Hopen 5000 H1 H2) as (_ & _ & Hs & _ & _ & Hp & _ & _ & Hp2).
  split; [exact Hs|]. split; [exact Hp|]. split; [exact Hp2|].
  split; [exact H3|]. split; [exact H4|]. split; [exact H5|].
  destruct (stop_aborts_and_closes unbound) as (_ & _ & Hthrow).
  exact (Hthrow H3 H4 H5).
Defined.

Lemma retransmission_timers_give_up_witness :
  let s := exampleEstablished in
  timer1Failures s = 0 /\ timer2Failures s = 0
  /\ associationState (afterT1 8 s) = ESTABLISHED
  /\ state (afterT1 9 s) = closed
  /\ associationState (afterT2 10 s) = ESTABLISHED
  /\ state (afterT2 11 s) = closed.
Proof.
  cbv zeta.
  assert (H1 : timer1Failures exampleEstablished = 0) by reflexivity.
  assert (H2 : timer2Failures exampleEstablished = 0) by reflexivity.
  split; [exact H1|]. split; [exact H2|].
  destruct (retransmission_timers_give_up exampleEstablished H1 H2)
    as (Ht1 & (_ & Hc1 & _) & Ht2 & (_ & Hc2 & _)).
  split; [rewrite (proj1 (Ht1 8%nat (le_n 8))); reflexivity|].
  split; [exact Hc1|].
  split; [rewrite (proj1 (Ht2 10%nat (le_n 10))); reflexivity|exact Hc2].
Defined.

Lemma reconfig_timer_gives_up_witness :
  let s := exampleEstablished in
  timerReconfigFailures s = 0
  /\ rto (afterReconfigTimer 2 s) = 8
  /\ associationState (afterReconfigTimer 10 s) = ESTABLISHED
  /\ state (afterReconfigTimer 11 s) = closed.
Proof.
  cbv zeta.
  assert (H1 : timerReconfigFailures exampleEstablished = 0) by reflexivity.
  split; [exact H1|].
  destruct (reconfig_timer_backs_off_and_gives_up exampleEstablished)
    as (Hrto & _ & Hrun).
  destruct (Hrun H1) as (Hkeep & Hclose).
  split; [rewrite Hrto; reflexivity|].
  split; [rewrite (Hkeep 10%nat (le_n 10)); reflexivity|].
  exact (proj1 (proj2 (Hclose 11%nat (le_n 11)))).
Defined.



Lemma in_order_data_advances_witness :
  let s := exampleAssociation in
  let s' := snd (receiveDataChunk (exampleDataChunk 9) s) in
  lastReceivedTsn s = Some 8 /\ 0 <= 8 < SCTP_TSN_MODULO /\ sackMisOrdered s = []
  /\ DataChunk.tsn (exampleDataChunk 9) = tsnPlusOne 8
  /\ lastReceivedTsn s' = Some 9 /\ sackMisOrdered s' = [].
Proof.
  cbv zeta.
  assert (H1 : lastReceivedTsn exampleAssociation = Some 8) by reflexivity.
  assert (H2 : 0 <= 8 < SCTP_TSN_MODULO) by (split; [vm_compute; discriminate|reflexivity]).
  assert (H3 : sackMisOrdered exampleAssociation = []) by reflexivity.
  assert (H4 : DataChunk.tsn (exampleDataChunk 9) = tsnPlusOne 8) by reflexivity.
  split; [exact H1|]. split; [exact H2|]. split; [exact H3|]. split; [exact H4|].
  destruct (in_order_data_advances_cumulative_tsn exampleAssociation 8
              (exampleDataChunk 9) H1 H2 H3 H4) as (Hl & _ & Hm & _).
  split; [rewrite Hl; reflexivity|exact Hm].
Defined.

Lemma tsn_successor_round_trip_witness :
  0 <= 0 < SCTP_TSN_MODULO
  /\ tsnPlusOne (tsnMinusOne 0) = 0
  /\ tsnMinusOne 0 = -1.
Proof.
  assert (H : 0 <= 0 < SCTP_TSN_MODULO) by (split; [vm_compute; discriminate|reflexivity]).
  split; [exact H|].
  split; [exact (proj1 (tsn_successor_round_trip 0 H))|reflexivity].
Defined.

End AssociationRuns.

(** * The session description *)

Section Strings.

Import Js Sdp.
#[local] Open Scope string_scope.

#[local] Arguments String.append !_ _ / : simpl nomatch.

Lemma append_nil_r s : s ++ "" = s.
Proof. induction s as [|a s IH]; cbn; congruence. Qed.

Lemma append_nil_l s : "" ++ s = s.
Proof. reflexivity. Qed.

Lemma append_assoc (a b c : string) : (a ++ b) ++ c = a ++ (b ++ c).
Proof. induction a as [|x a IH]; cbn; congruence. Qed.

Lemma allChars_app p a b : allChars p (a ++ b) = allChars p a && allChars p b.
Proof. induction a as [|x a IH]; cbn; [reflexivity|]. rewrite IH. apply andb_assoc. Qed.

Lemma allChars_impl (p q : ascii -> bool) s :
  (forall a, p a = true -> q a = true) -> allChars p s = true -> allChars q s = true.
Proof.
  intros H. induction s as [|a s IH]; cbn; [reflexivity|].
  rewrite !andb_true_iff. intros [Ha Hs]. auto.
Qed.

Lemma includes_app c a b : Js.includes c (a ++ b) = Js.includes c a || Js.includes c b.
Proof. induction a as [|x a IH]; cbn; [reflexivity|]. rewrite IH. apply orb_assoc. Qed.

Lemma split_cons c s : exists w ws, Js.split c s = w :: ws.
Proof.
  induction s as [|a s (w & ws & IH)]; cbn; [eauto|].
  destruct (Ascii.eqb a c); [eauto|]. rewrite IH. eauto.
Qed.

Lemma split_token c w :
  allChars (isNot c) w = true -> Js.split c w = [w].
Proof.
  induction w as [|a w IH]; cbn; [reflexivity|].
  unfold isNot at 1. rewrite andb_true_iff, negb_true_iff. intros [-> Hw].
  rewrite (IH Hw). reflexivity.
Qed.

Lemma split_app c w r :
  allChars (isNot c) w = true -> Js.split c (w ++ String c r) = w :: Js.split c r.
Proof.
  induction w as [|a w IH]; cbn.
  - intros _. rewrite Ascii.eqb_refl. reflexivity.
  - unfold isNot at 1. rewrite andb_true_iff, negb_true_iff. intros [-> Hw].
    rewrite (IH Hw). reflexivity.
Qed.

Lemma join_split c s : Js.join (String c "") (Js.split c s) = s.
Proof.
  unfold Js.join. induction s as [|a s IH]; [reflexivity|].
  cbn [Js.split]. destruct (Ascii.eqb_spec a c) as [->|Hne].
  - destruct (split_cons c s) as (w & ws & Hs). rewrite Hs in *.
    cbn [concat]. cbn. f_equal. exact IH.
  - destruct (split_cons c s) as (w & ws & Hs). rewrite Hs in *.
    destruct ws as [|w' ws]; cbn in *; congruence.
Qed.

Lemma divide_app c w v :
  allChars (isNot c) w = true -> divide (w ++ String c v) c = (w, v).
Proof.
  intros Hw. unfold divide. rewrite (split_app c w v Hw). f_equal. apply join_split.
Qed.

Lemma splitCRLF_cons s : exists w ws, Js.splitCRLF s = w :: ws.
Proof.
  induction s as [|a s (w & ws & IH)]; [cbn; eauto|].
  cbn [Js.splitCRLF]. rewrite IH.
  destruct (Ascii.eqb a Js.CR); [|eauto].
  destruct s as [|b s]; [eauto|]. destruct (Ascii.eqb b Js.LF); eauto.
Qed.

Lemma splitCRLF_line w r :
  allChars (isNot Js.CR) w = true ->
  Js.splitCRLF (w ++ Js.CRLF ++ r) = w :: Js.splitCRLF r.
Proof.
  induction w as [|a w IH].
  - intros _. reflexivity.
  - cbn [allChars]. unfold isNot at 1. rewrite andb_true_iff, negb_true_iff.
    intros [Ha Hw]. change ((String a w) ++ Js.CRLF ++ r) with (String a (w ++ Js.CRLF ++ r)).
    cbn [Js.splitCRLF]. rewrite Ha, (IH Hw). reflexivity.
Qed.

Lemma span_app p w c r :
  allChars p w = true -> p c = false -> Js.span p (w ++ String c r) = (w, String c r).
Proof.
  intros Hw Hc. induction w as [|a w IH]; cbn.
  - rewrite Hc. reflexivity.
  - cbn in Hw. apply andb_true_iff in Hw as [-> Hw]. rewrite (IH Hw). reflexivity.
Qed.

Lemma span_all p w : allChars p w = true -> Js.span p w = (w, "").
Proof.
  induction w as [|a w IH]; cbn; [reflexivity|].
  rewrite andb_true_iff. intros [-> Hw]. rewrite (IH Hw). reflexivity.
Qed.

(** *** Decimal text *)

Lemma digitChar_isDigit d : (d < 10)%N -> Js.isDigit (Js.digitChar d) = true.
Proof.
  intros H. assert (d = 0 \/ d = 1 \/ d = 2 \/ d = 3 \/ d = 4 \/ d = 5 \/ d = 6
                    \/ d = 7 \/ d = 8 \/ d = 9)%N as Hd by lia.
  repeat (destruct Hd as [->|Hd]; [reflexivity|]). subst. reflexivity.
Qed.

Lemma digitChar_value d : (d < 10)%N -> Js.digitValue (Js.digitChar d) = Z.of_N d.
Proof.
  intros H. assert (d = 0 \/ d = 1 \/ d = 2 \/ d = 3 \/ d = 4 \/ d = 5 \/ d = 6
                    \/ d = 7 \/ d = 8 \/ d = 9)%N as Hd by lia.
  repeat (destruct Hd as [->|Hd]; [reflexivity|]). subst. reflexivity.
Qed.

Lemma mod10_lt n : (n mod 10 < 10)%N.
Proof. apply N.mod_lt. discriminate. Qed.

Lemma digitsAux_app fuel n acc :
  Js.digitsAux fuel n acc = Js.digitsAux fuel n "" ++ acc.
Proof.
  revert n acc. induction fuel as [|fuel IH]; intros n acc; [reflexivity|].
  cbn [Js.digitsAux]. destruct (n <? 10)%N; [reflexivity|].
  rewrite IH, (IH _ (String _ "")), append_assoc. reflexivity.
Qed.

Lemma digitsAux_allDigits fuel n acc :
  allChars Js.isDigit acc = true -> allChars Js.isDigit (Js.digitsAux fuel n acc) = true.
Proof.
  revert n acc. induction fuel as [|fuel IH]; intros n acc Hacc; [exact Hacc|].
  cbn [Js.digitsAux].
  assert (allChars Js.isDigit (String (Js.digitChar (n mod 10)) acc) = true) as H
      by (cbn [allChars]; rewrite digitChar_isDigit by apply mod10_lt; exact Hacc).
  destruct (n <? 10)%N; [exact H|]. apply IH, H.
Qed.

Lemma digitsAux_nonempty fuel n acc :
  exists c s, Js.digitsAux (S fuel) n acc = String c s.
Proof.
  revert n acc. induction fuel as [|fuel IH]; intros n acc.
  - cbn. destruct (n <? 10)%N; eauto.
  - cbn [Js.digitsAux]. destruct (n <? 10)%N; [eauto|]. apply IH.
Qed.

Lemma readDigits_digitsAux fuel n :
  (n < 10 ^ N.of_nat fuel)%N ->
  exists k, forall a acc,
    Js.readDigits a (Js.digitsAux fuel n acc) = Js.readDigits (a * 10 ^ k + Z.of_N n) acc
    /\ 0 <= k.
Proof.
  revert n. induction fuel as [|fuel IH]; intros n Hn.
  - exists 0. intros a acc. cbn in Hn. assert (n = 0%N) as -> by lia.
    cbn. split; [f_equal; lia|lia].
  - destruct (N.ltb_spec n 10) as [Hlt|Hge].
    + exists 1. intros a acc. cbn [Js.digitsAux].
      apply N.ltb_lt in Hlt as Hlt'. rewrite Hlt'. cbn [Js.readDigits].
      rewrite digitChar_isDigit, digitChar_value by apply mod10_lt.
      rewrite N.mod_small by exact Hlt. split; [f_equal; lia|lia].
    + destruct (IH (n / 10)%N) as [k Hk].
      { apply N.Div0.div_lt_upper_bound.
        rewrite Nat2N.inj_succ, N.pow_succ_r' in Hn. exact Hn. }
      exists (k + 1). intros a acc. cbn [Js.digitsAux].
      apply N.ltb_ge in Hge as Hge'. rewrite Hge'.
      destruct (Hk a (String (Js.digitChar (n mod 10)) acc)) as [-> Hk0].
      cbn [Js.readDigits].
      rewrite digitChar_isDigit, digitChar_value by apply mod10_lt.
      split; [|lia]. f_equal.
      rewrite Z.pow_add_r by lia.
      pose proof (N.div_mod n 10 ltac:(discriminate)) as Hdm.
      assert (Z.of_N n = 10 * Z.of_N (n / 10) + Z.of_N (n mod 10)) as -> by lia.
      lia.
Qed.

Lemma size_bound n : (n < 10 ^ N.of_nat (S (N.to_nat (N.size n))))%N.
Proof.
  rewrite Nat2N.inj_succ, N2Nat.id.
  destruct n as [|p]; [cbn; lia|].
  pose proof (N.size_gt (N.pos p)) as H.
  assert (2 ^ N.size (N.pos p) <= 10 ^ N.size (N.pos p))%N
    by (apply N.pow_le_mono_l; lia).
  rewrite N.pow_succ_r'. lia.
Qed.

Lemma digits_allDigits n : allChars Js.isDigit (Js.digits n) = true.
Proof. apply digitsAux_allDigits. reflexivity. Qed.

Lemma digits_nonempty n : exists c s, Js.digits n = String c s.
Proof. apply digitsAux_nonempty. Qed.

Lemma readDigits_digits n : Js.readDigits 0 (Js.digits n) = Z.of_N n.
Proof.
  unfold Js.digits. destruct (readDigits_digitsAux _ n (size_bound n)) as [k Hk].
  destruct (Hk 0 "") as [-> _]. cbn. lia.
Qed.

Lemma startsWithDigit_digits n : Js.startsWithDigit (Js.digits n) = true.
Proof.
  pose proof (digits_allDigits n) as H.
  destruct (digits_nonempty n) as (c & s & Hd). rewrite Hd in *.
  cbn in *. apply andb_true_iff in H as [H _]. exact H.
Qed.

Lemma isDigit_not_space c : Js.isDigit c = true -> Js.isWhiteSpace c = false.
Proof.
  unfold Js.isDigit, Js.isWhiteSpace.
  rewrite andb_true_iff, !N.leb_le. intros [H1 H2].
  rewrite !orb_false_iff, andb_false_iff, !N.leb_gt, !N.eqb_neq. lia.
Qed.

Ltac ascii_cases c := destruct c as [[] [] [] [] [] [] [] []]; try discriminate; try reflexivity.

Lemma isDigit_not_x c :
  Js.isDigit c = true -> (Ascii.eqb c "x" || Ascii.eqb c "X")%bool = false.
Proof. ascii_cases c. Qed.

Lemma readSign_digit c s : Js.isDigit c = true -> Js.readSign (String c s) = (1, String c s).
Proof. ascii_cases c. Qed.

Lemma skipWhiteSpace_digit c s :
  Js.isDigit c = true -> Js.skipWhiteSpace (String c s) = String c s.
Proof. intros H. cbn. rewrite (isDigit_not_space c H). reflexivity. Qed.

Lemma parseInt10_digits n : Js.parseInt10 (Js.digits n) = Num (Z.of_N n).
Proof.
  pose proof (startsWithDigit_digits n) as Hs. pose proof (readDigits_digits n) as Hr.
  destruct (digits_nonempty n) as (c & s & Hd). rewrite Hd in *. cbn in Hs.
  unfold Js.parseInt10. rewrite (skipWhiteSpace_digit c s Hs), (readSign_digit c s Hs).
  cbn [Js.startsWithDigit]. rewrite Hs, Hr. f_equal. lia.
Qed.

Lemma parseIntBody_digits sign body :
  allChars Js.isDigit body = true -> Js.startsWithDigit body = true ->
  match body with
  | String "0" (String x hex) =>
      if (Ascii.eqb x "x" || Ascii.eqb x "X")%bool
      then if Js.startsWithHexDigit hex then Num (sign * Js.readHexDigits 0 hex) else NaN
      else Num (sign * Js.readDigits 0 body)
  | _ => if Js.startsWithDigit body then Num (sign * Js.readDigits 0 body) else NaN
  end = Num (sign * Js.readDigits 0 body).
Proof.
  intros Hall Hs. destruct body as [|c [|x hex]]; [discriminate| |].
  - cbn in Hs. ascii_cases c.
  - cbn [allChars] in Hall. apply andb_true_iff in Hall as [Hc Hall].
    apply andb_true_iff in Hall as [Hx _]. pose proof (isDigit_not_x x Hx) as Hnx.
    cbn [Js.startsWithDigit] in Hs.
    destruct c as [[] [] [] [] [] [] [] []]; try discriminate Hc;
      cbn [Js.startsWithDigit Js.isDigit]; try reflexivity.
    rewrite Hnx. reflexivity.
Qed.

Lemma parseInt_digits n : Js.parseInt (Js.digits n) = Num (Z.of_N n).
Proof.
  pose proof (startsWithDigit_digits n) as Hs. pose proof (readDigits_digits n) as Hr.
  pose proof (digits_allDigits n) as Hall.
  destruct (digits_nonempty n) as (c & s & Hd). rewrite Hd in *.
  unfold Js.parseInt. cbn [Js.startsWithDigit] in Hs.
  rewrite (skipWhiteSpace_digit c s Hs), (readSign_digit c s Hs).
  rewrite (parseIntBody_digits 1 (String c s) Hall Hs), Hr. f_equal. lia.
Qed.

Lemma skipWhiteSpace_minus s : Js.skipWhiteSpace (String "-" s) = String "-" s.
Proof. reflexivity. Qed.

Lemma readSign_minus s : Js.readSign (String "-" s) = (-1, s).
Proof. reflexivity. Qed.

Lemma parseInt10_int z : Js.parseInt10 (Js.intToString z) = Num z.
Proof.
  unfold Js.intToString. destruct (Z.ltb_spec z 0) as [Hneg|Hpos].
  - pose proof (startsWithDigit_digits (Z.to_N (- z))) as Hs.
    pose proof (readDigits_digits (Z.to_N (- z))) as Hr.
    unfold Js.parseInt10. rewrite skipWhiteSpace_minus, readSign_minus, Hs, Hr.
    f_equal. lia.
  - rewrite parseInt10_digits. f_equal. lia.
Qed.

Lemma parseInt_int z : Js.parseInt (Js.intToString z) = Num z.
Proof.
  unfold Js.intToString. destruct (Z.ltb_spec z 0) as [Hneg|Hpos].
  - pose proof (startsWithDigit_digits (Z.to_N (- z))) as Hs.
    pose proof (readDigits_digits (Z.to_N (- z))) as Hr.
    pose proof (digits_allDigits (Z.to_N (- z))) as Hall.
    unfold Js.parseInt. rewrite skipWhiteSpace_minus, readSign_minus.
    rewrite (parseIntBody_digits (-1) _ Hall Hs), Hr. f_equal. lia.
  - rewrite parseInt_digits. f_equal. lia.
Qed.

Lemma parseInt10_number n : Js.parseInt10 (Js.numberToString n) = n.
Proof. destruct n as [|z]; [reflexivity|apply parseInt10_int]. Qed.

Lemma parseInt_number n : Js.parseInt (Js.numberToString n) = n.
Proof. destruct n as [|z]; [reflexivity|apply parseInt_int]. Qed.

Lemma isDigit_word c : Js.isDigit c = true -> isWordChar c = true.
Proof. ascii_cases c. Qed.

Lemma numberToString_word n : allChars isWordChar (Js.numberToString n) = true.
Proof.
  destruct n as [|z]; [reflexivity|]. cbn. unfold Js.intToString.
  destruct (z <? 0)%Z; cbn [allChars];
    rewrite ?(allChars_impl _ _ _ isDigit_word (digits_allDigits _)); reflexivity.
Qed.

Lemma numberToString_truthy n : exists c s, Js.numberToString n = String c s.
Proof.
  destruct n as [|z]; [cbn; eauto|]. cbn. unfold Js.intToString.
  destruct (z <? 0)%Z; [eauto|apply digits_nonempty].
Qed.

End Strings.

Section Candidates.

Import Js Sdp.
#[local] Open Scope string_scope.

(** *** Candidates *)

Lemma word_no_space s : isWord s = true -> allChars (isNot " ") s = true.
Proof.
  apply allChars_impl. intros a. unfold isWordChar, isNot.
  rewrite !andb_true_iff. tauto.
Qed.

Lemma word_no_cr s : isWord s = true -> allChars (isNot Js.CR) s = true.
Proof.
  apply allChars_impl. intros a. unfold isWordChar, isNot.
  rewrite !andb_true_iff. tauto.
Qed.

Lemma number_no_space n : allChars (isNot " ") (Js.numberToString n) = true.
Proof. apply word_no_space, numberToString_word. Qed.

Lemma split_space_app w r :
  allChars isWordChar w = true -> Js.split " " (w ++ String " " r) = w :: Js.split " " r.
Proof. intros H. apply split_app, word_no_space, H. Qed.

Lemma split_space_number n r :
  Js.split " " (Js.numberToString n ++ String " " r) = Js.numberToString n :: Js.split " " r.
Proof. apply split_app, number_no_space. Qed.

Lemma split_space_word w : allChars isWordChar w = true -> Js.split " " w = [w].
Proof. intros H. apply split_token, word_no_space, H. Qed.

Lemma split_space_number_end n :
  Js.split " " (Js.numberToString n) = [Js.numberToString n].
Proof. apply split_token, number_no_space. Qed.

Lemma candidateToSdp_shape c :
  candidateToSdp c
  = IceCandidate.foundation c ++ String " "
      (Js.numberToString (IceCandidate.component c) ++ String " "
         (IceCandidate.protocol c ++ String " "
            (Js.numberToString (IceCandidate.priority c) ++ String " "
               (IceCandidate.ip c ++ String " "
                  (Js.numberToString (IceCandidate.port c) ++ String " "
                     ("typ" ++ String " "
                        (IceCandidate.type c
                         ++ (let tcp :=
                               if Js.truthy (IceCandidate.tcpType c)
                               then String " " ("tcptype" ++ String " "
                                                  (Js.text (IceCandidate.tcpType c)))
                               else "" in
                             let rport :=
                               match IceCandidate.relatedPort c with
                               | Some p =>
                                   if Js.numberTruthy p
                                   then String " " ("rport" ++ String " "
                                                      (Js.numberToString p ++ tcp))
                                   else tcp
                               | None => tcp
                               end in
                             if Js.truthy (IceCandidate.relatedAddress c)
                             then String " " ("raddr" ++ String " "
                                                (Js.text (IceCandidate.relatedAddress c)
                                                 ++ rport))
                             else rport)))))))).
Proof.
  unfold candidateToSdp.
  destruct (Js.truthy (IceCandidate.relatedAddress c));
    destruct (IceCandidate.relatedPort c) as [p|]; try destruct (Js.numberTruthy p);
    destruct (Js.truthy (IceCandidate.tcpType c)); reflexivity.
Qed.

(** A candidate whose fields have no space or line break is read back
    from its line, empty optional fields as absent ones. *)
Lemma candidate_round_trip c :
  candidateOk c = true -> candidateFromSdp (candidateToSdp c) = Ok (normalCandidate c).
Proof.
  intros H. rewrite candidateToSdp_shape.
  destruct c as [comp f ip port prio proto ty ra rp tt].
  unfold candidateOk, isWordOpt in H. cbn in H.
  repeat (apply andb_true_iff in H as [H ?]).
  unfold candidateFromSdp, normalCandidate, keepTruthy, keepTruthyNumber. cbn -[Js.split String.append Js.numberToString].
  rewrite (split_space_app f) by assumption. rewrite split_space_number.
  rewrite (split_space_app proto) by assumption. rewrite split_space_number.
  rewrite (split_space_app ip) by assumption. rewrite split_space_number.
  rewrite (split_space_app "typ") by reflexivity.
  destruct ra as [[|a ra]|], rp as [[|z]|], tt as [[|t tt]|];
    cbn -[Js.split String.append Js.numberToString Js.parseInt Js.parseInt10];
    try destruct (z =? 0)%Z;
    cbn -[Js.split String.append Js.numberToString Js.parseInt Js.parseInt10];
    rewrite ?append_nil_r.
  all: repeat first
         [ rewrite (split_space_app ty) by assumption
         | rewrite (split_space_word ty) by assumption
         | rewrite (split_space_app "raddr") by reflexivity
         | rewrite (split_space_app "rport") by reflexivity
         | rewrite (split_space_app "tcptype") by reflexivity
         | rewrite (split_space_app (String a ra)) by assumption
         | rewrite (split_space_word (String a ra)) by assumption
         | rewrite (split_space_app (String t tt)) by assumption
         | rewrite (split_space_word (String t tt)) by assumption
         | rewrite split_space_number
         | rewrite split_space_number_end ].
  all: cbn -[Js.numberToString Js.parseInt Js.parseInt10];
    rewrite ?parseInt10_number, ?parseInt_number; reflexivity.
Qed.
End Candidates.

Section Lines.

Import Js Sdp.
#[local] Open Scope string_scope.

Context (ext : Sdp.Externals).

Lemma parseAttr_value name v :
  allChars (isNot ":") name = true ->
  parseAttr ("a=" ++ name ++ String ":" v) = (name, Some v).
Proof.
  intros Hn. unfold parseAttr.
  rewrite !includes_app.
  replace (Js.includes ":" (String ":" v)) with true by (cbn; reflexivity).
  rewrite !orb_true_r.
  change (Js.slice 2 ("a=" ++ name ++ String ":" v)) with (name ++ String ":" v).
  rewrite (divide_app ":" name v Hn). reflexivity.
Qed.

Lemma includes_isNot c s : allChars (isNot c) s = true -> Js.includes c s = false.
Proof.
  induction s as [|a s IH]; cbn; [reflexivity|].
  unfold isNot at 1. rewrite andb_true_iff, negb_true_iff. intros [Ha Hs].
  rewrite (IH Hs). rewrite Ascii.eqb_sym in Ha. rewrite ?Ha. 
  try rewrite Ascii.eqb_sym in Ha; rewrite ?Ha; reflexivity.
Qed.

Lemma parseAttr_flag name :
  allChars (isNot ":") name = true -> parseAttr ("a=" ++ name) = (name, None).
Proof.
  intros Hn. unfold parseAttr. rewrite includes_app, (includes_isNot _ _ Hn).
  reflexivity.
Qed.

Lemma parseMediaLine_value m name v :
  allChars (isNot ":") name = true ->
  parseMediaLine ext m ("a=" ++ name ++ String ":" v) = mediaAttribute ext m name (Some v).
Proof.
  intros Hn. unfold parseMediaLine.
  change (Js.startsWith ("a=" ++ name ++ String ":" v) "c=") with false.
  change (Js.startsWith ("a=" ++ name ++ String ":" v) "a=") with true.
  cbv iota. rewrite (parseAttr_value name v Hn). reflexivity.
Qed.

Lemma parseMediaLine_flag m name :
  allChars (isNot ":") name = true ->
  parseMediaLine ext m ("a=" ++ name) = mediaAttribute ext m name None.
Proof.
  intros Hn. unfold parseMediaLine.
  change (Js.startsWith ("a=" ++ name) "c=") with false.
  change (Js.startsWith ("a=" ++ name) "a=") with true.
  cbv iota. rewrite (parseAttr_flag name Hn). reflexivity.
Qed.

Lemma parseSessionLine_value s name v :
  allChars (isNot ":") name = true ->
  parseSessionLine ext s ("a=" ++ name ++ String ":" v) = sessionAttribute ext s name (Some v).
Proof.
  intros Hn. unfold parseSessionLine.
  change (Js.startsWith ("a=" ++ name ++ String ":" v) "v=") with false.
  change (Js.startsWith ("a=" ++ name ++ String ":" v) "o=") with false.
  change (Js.startsWith ("a=" ++ name ++ String ":" v) "s=") with false.
  change (Js.startsWith ("a=" ++ name ++ String ":" v) "c=") with false.
  change (Js.startsWith ("a=" ++ name ++ String ":" v) "t=") with false.
  change (Js.startsWith ("a=" ++ name ++ String ":" v) "a=") with true.
  cbv iota. rewrite (parseAttr_value name v Hn). reflexivity.
Qed.

Lemma parseSessionLine_flag s name :
  allChars (isNot ":") name = true ->
  parseSessionLine ext s ("a=" ++ name) = sessionAttribute ext s name None.
Proof.
  intros Hn. unfold parseSessionLine.
  change (Js.startsWith ("a=" ++ name) "v=") with false.
  change (Js.startsWith ("a=" ++ name) "o=") with false.
  change (Js.startsWith ("a=" ++ name) "s=") with false.
  change (Js.startsWith ("a=" ++ name) "c=") with false.
  change (Js.startsWith ("a=" ++ name) "t=") with false.
  change (Js.startsWith ("a=" ++ name) "a=") with true.
  cbv iota. rewrite (parseAttr_flag name Hn). reflexivity.
Qed.

Lemma ipAddress_round_trip a h :
  isWord (String a h) = true ->
  ipAddressFromSdp (ipAddressToSdp ext (String a h)) = Ok (String a h).
Proof.
  intros Hw. unfold ipAddressToSdp, ipAddressFromSdp.
  assert (Hs : Js.span isNotSpace (String a h) = (String a h, "")).
  { apply span_all. revert Hw. apply allChars_impl. intros c.
    unfold isWordChar, isNotSpace. rewrite !andb_true_iff. tauto. }
  destruct (isIPv4 ext (String a h)).
  - change (Js.startsWith ("IN IP" ++ "4" ++ " " ++ String a h) "IN IP4 ") with true.
    cbv iota. change (true || _) with true. cbv iota.
    change (Js.slice 7 ("IN IP" ++ "4" ++ " " ++ String a h)) with (String a h).
    cbv zeta. rewrite Hs. reflexivity.
  - change (Js.startsWith ("IN IP" ++ "6" ++ " " ++ String a h) "IN IP4 ") with false.
    change (Js.startsWith ("IN IP" ++ "6" ++ " " ++ String a h) "IN IP6 ") with true.
    change (false || true) with true. cbv iota.
    change (Js.slice 7 ("IN IP" ++ "6" ++ " " ++ String a h)) with (String a h).
    cbv zeta. rewrite Hs. reflexivity.
Qed.

(** *** The lines of a media section *)

Lemma foldOutcome_app {A S} (f : S -> A -> Outcome S) xs ys acc :
  Js.foldOutcome f (xs ++ ys)%list acc
  = Js.andThen (Js.foldOutcome f xs acc) (Js.foldOutcome f ys).
Proof.
  revert acc. induction xs as [|x xs IH]; intros acc; cbn; [reflexivity|].
  destruct (f acc x); cbn; [apply IH|reflexivity].
Qed.

Lemma parsesTo_nil : parsesTo ext [] (fun m => m).
Proof. intros m. reflexivity. Qed.

Lemma parsesTo_app ls ls' f g :
  parsesTo ext ls f -> parsesTo ext ls' g -> parsesTo ext (ls ++ ls')%list (fun m => g (f m)).
Proof. intros Hf Hg m. rewrite foldOutcome_app, Hf. cbn. apply Hg. Qed.

Lemma parsesTo_one l f :
  (forall m, parseMediaLine ext m l = Ok (f m)) -> parsesTo ext [l] f.
Proof. intros H m. cbn. rewrite H. reflexivity. Qed.

Lemma parsesTo_ext ls f g : (forall m, f m = g m) -> parsesTo ext ls f -> parsesTo ext ls g.
Proof. intros H Hf m. rewrite <- H. apply Hf. Qed.

Lemma parsesTo_host h :
  isWordOpt h = true ->
  parsesTo ext (lineIf (Js.truthy h) ("c=" ++ ipAddressToSdp ext (Js.text h)))
    (fun m => m {{ MediaDescription.host :=
                     if Js.truthy h then h else MediaDescription.host m }}).
Proof.
  intros Hw. destruct h as [[|a h]|]; try (intros m; reflexivity).
  apply parsesTo_one. intros m. unfold parseMediaLine.
  change (Js.startsWith ("c=" ++ ?x) "c=") with true. cbv iota.
  change (Js.slice 2 ("c=" ++ ?x)) with x.
  cbn [Js.text default from_option id]. rewrite (ipAddress_round_trip a h Hw). reflexivity.
Qed.

Lemma candidateToSdp_truthy c : Js.truthy (Some (candidateToSdp c)) = true.
Proof.
  rewrite candidateToSdp_shape. destruct (IceCandidate.foundation c); reflexivity.
Qed.

Lemma parsesTo_candidates cs :
  forallb candidateOk cs = true ->
  parsesTo ext (map (fun c => "a=candidate:" ++ candidateToSdp c) cs)
    (fun m => m {{ MediaDescription.iceCandidates :=
                     (MediaDescription.iceCandidates m ++ map normalCandidate cs)%list }}).
Proof.
  induction cs as [|c cs IH]; intros H m.
  - cbn. unfold constant. rewrite app_nil_r. reflexivity.
  - cbn in H. apply andb_true_iff in H as [Hc Hcs].
    cbn [map Js.foldOutcome].
    change ("a=candidate:" ++ candidateToSdp c)
      with ("a=" ++ "candidate" ++ String ":" (candidateToSdp c)).
    rewrite parseMediaLine_value by reflexivity.
    unfold mediaAttribute. cbn [String.eqb Ascii.eqb Bool.eqb].
    rewrite candidateToSdp_truthy. cbn [negb Js.text default from_option id].
    rewrite (candidate_round_trip c Hc). cbn [Js.andThen].
    rewrite (IH Hcs). cbn. unfold constant. cbn. rewrite <- app_assoc. reflexivity.
Qed.

Lemma parsesTo_end_of_candidates b :
  parsesTo ext (lineIf b "a=end-of-candidates")
    (fun m => m {{ MediaDescription.iceCandidatesComplete :=
                     b || MediaDescription.iceCandidatesComplete m }}).
Proof.
  destruct b; [|intros m; reflexivity].
  apply parsesTo_one. intros m.
  change "a=end-of-candidates" with ("a=" ++ "end-of-candidates").
  rewrite parseMediaLine_flag by reflexivity. reflexivity.
Qed.

Lemma updIce_id f m : (forall i, f i = i) -> updIce f m = m.
Proof.
  intros H. unfold updIce. destruct m as [? ? ? ? ? ? ? ? ? ? ice ? ? ?].
  unfold constant. cbn. destruct ice as [i|]; cbn; [rewrite H|]; reflexivity.
Qed.

Lemma updDtls_id f m : (forall i, f i = i) -> updDtls f m = m.
Proof.
  intros H. unfold updDtls. destruct m as [? ? ? ? ? ? ? ? ? dtls ? ? ? ?].
  unfold constant. cbn. destruct dtls as [i|]; cbn; [rewrite H|]; reflexivity.
Qed.

Lemma parsesTo_ice_ufrag u :
  parsesTo ext (lineIf (Js.truthy u) ("a=ice-ufrag:" ++ Js.text u))
    (updIce (fun i => i {{ RTCIceParameters.usernameFragment :=
                             if Js.truthy u then u
                             else RTCIceParameters.usernameFragment i }})).
Proof.
  destruct u as [[|a u]|]; try (intros m; cbn [Js.truthy lineIf Js.foldOutcome]; rewrite updIce_id by (intros i; reflexivity); reflexivity).
  apply parsesTo_one. intros m.
  change ("a=ice-ufrag:" ++ ?x) with ("a=" ++ "ice-ufrag" ++ String ":" x).
  rewrite parseMediaLine_value by reflexivity. reflexivity.
Qed.

Lemma parsesTo_ice_pwd u :
  parsesTo ext (lineIf (Js.truthy u) ("a=ice-pwd:" ++ Js.text u))
    (updIce (fun i => i {{ RTCIceParameters.password :=
                             if Js.truthy u then u
                             else RTCIceParameters.password i }})).
Proof.
  destruct u as [[|a u]|]; try (intros m; cbn [Js.truthy lineIf Js.foldOutcome]; rewrite updIce_id by (intros i; reflexivity); reflexivity).
  apply parsesTo_one. intros m.
  change ("a=ice-pwd:" ++ ?x) with ("a=" ++ "ice-pwd" ++ String ":" x).
  rewrite parseMediaLine_value by reflexivity. reflexivity.
Qed.

Lemma parsesTo_ice_lite b :
  parsesTo ext (lineIf b "a=ice-lite")
    (updIce (fun i => i {{ RTCIceParameters.iceLite :=
                             if b then Some true else RTCIceParameters.iceLite i }})).
Proof.
  destruct b; [|intros m; cbn [Js.truthy lineIf Js.foldOutcome]; rewrite updIce_id by (intros i; reflexivity); reflexivity].
  apply parsesTo_one. intros m.
  change "a=ice-lite" with ("a=" ++ "ice-lite").
  rewrite parseMediaLine_flag by reflexivity. reflexivity.
Qed.

Lemma parsesTo_ice_options o :
  parsesTo ext (lineIf (Js.truthy o) ("a=ice-options:" ++ Js.text o))
    (fun m => m {{ MediaDescription.iceOptions :=
                     if Js.truthy o then o else MediaDescription.iceOptions m }}).
Proof.
  destruct o as [[|a o]|]; try (intros m; reflexivity).
  apply parsesTo_one. intros m.
  change ("a=ice-options:" ++ ?x) with ("a=" ++ "ice-options" ++ String ":" x).
  rewrite parseMediaLine_value by reflexivity. reflexivity.
Qed.

Lemma parsesTo_mid o :
  parsesTo ext (lineIf (Js.truthy o) ("a=mid:" ++ Js.text o))
    (fun m => m {{ MediaDescription.muxId :=
                     if Js.truthy o then o else MediaDescription.muxId m }}).
Proof.
  destruct o as [[|a o]|]; try (intros m; reflexivity).
  apply parsesTo_one. intros m.
  change ("a=mid:" ++ ?x) with ("a=" ++ "mid" ++ String ":" x).
  rewrite parseMediaLine_value by reflexivity. reflexivity.
Qed.

Lemma fingerprint_round_trip f :
  fingerprintOk f = true ->
  fingerprintOf (Some (Js.text (RTCDtlsFingerprint.algorithm f) ++ " "
                       ++ Js.text (RTCDtlsFingerprint.value f)))
  = normalFingerprint f.
Proof.
  unfold fingerprintOk. rewrite andb_true_iff. intros [Ha Hv].
  unfold fingerprintOf.
  change (?a ++ " " ++ ?b) with (a ++ String " " b).
  rewrite (split_space_app _ _ Ha), (split_space_word _ Hv). reflexivity.
Qed.

Lemma parsesTo_fingerprints fps :
  forallb fingerprintOk fps = true ->
  parsesTo ext (map fingerprintLine fps)
    (updDtls (fun d =>
       d {{ RTCDtlsParameters.fingerprints :=
              (RTCDtlsParameters.fingerprints d ++ map normalFingerprint fps)%list }})).
Proof.
  induction fps as [|f fps IH]; intros H m.
  - cbn [map Js.foldOutcome]. rewrite updDtls_id; [reflexivity|].
    intros [fs r]. unfold constant. cbn. rewrite app_nil_r. reflexivity.
  - cbn in H. apply andb_true_iff in H as [Hf Hfs].
    cbn [map Js.foldOutcome]. unfold fingerprintLine at 1.
    change ("a=fingerprint:" ++ ?x) with ("a=" ++ "fingerprint" ++ String ":" x).
    rewrite parseMediaLine_value by reflexivity.
    unfold mediaAttribute. cbn [String.eqb Ascii.eqb Bool.eqb].
    replace (Js.truthy (Some (Js.text (RTCDtlsFingerprint.algorithm f) ++ " "
                              ++ Js.text (RTCDtlsFingerprint.value f)))) with true
      by (destruct (Js.text (RTCDtlsFingerprint.algorithm f)); reflexivity).
    cbn [negb]. rewrite (fingerprint_round_trip f Hf). cbn [Js.andThen].
    rewrite (IH Hfs). f_equal.
    destruct m as [? ? ? ? ? ? ? ? ? dtls ? ? ? ?].
    unfold updDtls, constant. cbn. destruct dtls as [[fs r]|]; cbn; [|reflexivity].
    rewrite <- app_assoc. reflexivity.
Qed.

Lemma parsesTo_setup v :
  parsesTo ext ["a=setup:" ++ v]
    (updDtls (fun d => d {{ RTCDtlsParameters.role := DTLS_SETUP_ROLE ext v }})).
Proof.
  apply parsesTo_one. intros m.
  change ("a=setup:" ++ ?x) with ("a=" ++ "setup" ++ String ":" x).
  rewrite parseMediaLine_value by reflexivity. reflexivity.
Qed.

Lemma parsesTo_dtls d :
  forallb fingerprintOk (RTCDtlsParameters.fingerprints d) = true ->
  parsesTo ext (dtlsLines ext (Some d))
    (updDtls (fun d0 =>
       RTCDtlsParameters.mk
         (RTCDtlsParameters.fingerprints d0
            ++ map normalFingerprint (RTCDtlsParameters.fingerprints d))%list
         (DTLS_SETUP_ROLE ext (setupText ext d)))).
Proof.
  intros H. unfold dtlsLines.
  eapply parsesTo_ext;
    [|exact (parsesTo_app _ _ _ _ (parsesTo_fingerprints _ H) (parsesTo_setup (setupText ext d)))].
  intros m. destruct m as [? ? ? ? ? ? ? ? ? dtls ? ? ? ?].
  unfold updDtls, constant. cbn. destruct dtls as [[fs r]|]; reflexivity.
Qed.

Lemma parsesTo_sctp_port sp :
  parsesTo ext (match sp with
            | Some p => lineIf (Js.numberTruthy p) ("a=sctp-port:" ++ Js.numberToString p)
            | None => []
            end)
    (fun m => m {{ MediaDescription.sctpPort :=
                     match keepTruthyNumber sp with
                     | Some p => Some p
                     | None => MediaDescription.sctpPort m
                     end }}).
Proof.
  destruct sp as [p|]; [|intros m; reflexivity].
  unfold keepTruthyNumber. destruct (Js.numberTruthy p); [|intros m; reflexivity].
  apply parsesTo_one. intros m.
  change ("a=sctp-port:" ++ ?x) with ("a=" ++ "sctp-port" ++ String ":" x).
  rewrite parseMediaLine_value by reflexivity.
  unfold mediaAttribute. cbn [String.eqb Ascii.eqb Bool.eqb].
  destruct (numberToString_truthy p) as (c & r & Hp).
  cbn [Js.text default from_option id]. rewrite parseInt_number. rewrite Hp. reflexivity.
Qed.

Lemma parsesTo_max_message_size n :
  parsesTo ext ["a=max-message-size:" ++ Js.numberToString n]
    (fun m => m {{ MediaDescription.sctpCapabilities :=
                     Some (RTCSctpCapabilities.mk n) }}).
Proof.
  apply parsesTo_one. intros m.
  change ("a=max-message-size:" ++ ?x) with ("a=" ++ "max-message-size" ++ String ":" x).
  rewrite parseMediaLine_value by reflexivity.
  unfold mediaAttribute. cbn [String.eqb Ascii.eqb Bool.eqb].
  cbn [Js.text default from_option id]. rewrite parseInt10_number. reflexivity.
Qed.

Lemma parsesTo_empty_line : parsesTo ext [""] (fun m => m).
Proof. apply parsesTo_one. intros m. reflexivity. Qed.

Lemma matchMLine_application p :
  0 <= p ->
  matchMLine ("m=" ++ "application" ++ " " ++ Js.numberToString (Num p) ++ " "
              ++ "UDP/DTLS/SCTP" ++ " " ++ Js.join " " ["webrtc-datachannel"])
  = Some ("application", Js.numberToString (Num p), "UDP/DTLS/SCTP", "webrtc-datachannel").
Proof.
  intros Hp. cbn [Js.numberToString]. unfold Js.intToString.
  destruct (Z.ltb_spec p 0) as [?|_]; [lia|].
  unfold matchMLine.
  change (Js.startsWith ("m=" ++ ?x) "m=") with true. cbn [negb].
  change (Js.slice 2 ("m=" ++ ?x)) with x.
  change ("application" ++ " " ++ ?x) with ("application" ++ String " " x).
  rewrite (span_app isNotSpace "application" " " _ eq_refl eq_refl).
  cbv beta iota.
  change (Js.digits ?n ++ " " ++ ?x) with (Js.digits n ++ String " " x).
  rewrite (span_app Js.isDigit _ " " _ (digits_allDigits _) eq_refl).
  destruct (digits_nonempty (Z.to_N p)) as (c & r & ->).
  cbv beta iota.
  reflexivity.
Qed.

(** The lines after the [m=] line, and the empty line that ends the text,
    folded from a fresh section. *)
Lemma media_attributes_round_trip m c d :
  isWordOpt (MediaDescription.host m) = true ->
  forallb candidateOk (MediaDescription.iceCandidates m) = true ->
  MediaDescription.sctpMap m = [] ->
  MediaDescription.sctpCapabilities m = Some c ->
  MediaDescription.dtlsParams m = Some d ->
  forallb fingerprintOk (RTCDtlsParameters.fingerprints d) = true ->
  Js.foldOutcome (parseMediaLine ext) (tail (mediaLines ext m ++ [""]))
    (freshMedia (MediaDescription.kind m) (MediaDescription.port m)
                (MediaDescription.profile m) (MediaDescription.fmt m))
  = Ok (normalMedia ext m).
Proof.
  intros Hh Hc Hmap Hcaps Hd Hf.
  destruct m as [kind port profile fmt host mid caps smap sport dtls ice cands complete opts].
  cbn in Hh, Hc, Hmap, Hcaps, Hd. subst smap caps dtls.
  destruct c as [n].
  pose proof
    (parsesTo_app _ _ _ _
       (parsesTo_app _ _ _ _ (parsesTo_host host Hh)
       (parsesTo_app _ _ _ _ (parsesTo_candidates cands Hc)
       (parsesTo_app _ _ _ _ (parsesTo_end_of_candidates complete)
       (parsesTo_app _ _ _ _ (parsesTo_ice_ufrag (iceUfrag ice))
       (parsesTo_app _ _ _ _ (parsesTo_ice_pwd (icePwd ice))
       (parsesTo_app _ _ _ _ (parsesTo_ice_lite (iceIsLite ice))
       (parsesTo_app _ _ _ _ (parsesTo_ice_options opts)
       (parsesTo_app _ _ _ _ (parsesTo_dtls d Hf)
       (parsesTo_app _ _ _ _ (parsesTo_mid mid)
       (parsesTo_app _ _ _ _ parsesTo_nil
       (parsesTo_app _ _ _ _ (parsesTo_sctp_port sport)
                              (parsesTo_max_message_size n))))))))))))
       parsesTo_empty_line) as H.
  etransitivity; [exact (H _)|].
  f_equal. unfold normalMedia, freshMedia, MediaDescription.create, updIce, updDtls, constant.
  cbn. rewrite orb_false_r.
  destruct sport as [sp|]; [cbn; destruct (Js.numberTruthy sp)|]; reflexivity.
Qed.

Lemma candidateToSdp_normal c : candidateToSdp (normalCandidate c) = candidateToSdp c.
Proof.
  destruct c as [comp f ip port prio proto ty ra rp tt].
  unfold normalCandidate, candidateToSdp, constant. cbn.
  destruct ra as [[|? ?]|], rp as [rp|], tt as [[|? ?]|]; cbn;
    try destruct (Js.numberTruthy rp) eqn:E; cbn; rewrite ?E; reflexivity.
Qed.

Lemma fingerprintLine_normal f : fingerprintLine (normalFingerprint f) = fingerprintLine f.
Proof. reflexivity. Qed.

Lemma lineIf_keepTruthy (line : string -> string) v :
  lineIf (Js.truthy (keepTruthy v)) (line (Js.text (keepTruthy v)))
  = lineIf (Js.truthy v) (line (Js.text v)).
Proof. destruct v as [[|? ?]|]; reflexivity. Qed.

Lemma mediaLines_normal m d :
  MediaDescription.dtlsParams m = Some d -> roleRoundTrips ext d ->
  mediaLines ext (normalMedia ext m) = mediaLines ext m.
Proof.
  intros Hd [_ Hrole].
  destruct m as [kind port profile fmt host mid caps smap sport dtls ice cands complete opts].
  cbn in Hd. subst dtls.
  unfold mediaLines, normalMedia, constant.
  cbn -[keepTruthy keepTruthyNumber lineIf iceUfrag icePwd iceIsLite dtlsLines
        Js.truthy Js.text ipAddressToSdp candidateToSdp normalCandidate
        Js.numberToString map app String.append Js.join fmtTexts Js.numberTruthy].
  f_equal.
  rewrite (lineIf_keepTruthy (fun h => "c=" ++ ipAddressToSdp ext h) host).
  f_equal.
  rewrite map_map. rewrite (map_ext _ (fun c => "a=candidate:" ++ candidateToSdp c))
    by (intros c; rewrite candidateToSdp_normal; reflexivity).
  f_equal. f_equal.
  change (iceUfrag (Some {| RTCIceParameters.iceLite := ?l;
                            RTCIceParameters.usernameFragment := ?u;
                            RTCIceParameters.password := ?p |})) with u.
  change (icePwd (Some {| RTCIceParameters.iceLite := ?l;
                          RTCIceParameters.usernameFragment := ?u;
                          RTCIceParameters.password := ?p |})) with p.
  rewrite (lineIf_keepTruthy (fun h => "a=ice-ufrag:" ++ h)). f_equal.
  rewrite (lineIf_keepTruthy (fun h => "a=ice-pwd:" ++ h)). f_equal.
  f_equal; [destruct (iceIsLite ice); reflexivity|].
  rewrite (lineIf_keepTruthy (fun h => "a=ice-options:" ++ h)). f_equal.
  f_equal.
  { unfold dtlsLines. cbn [RTCDtlsParameters.fingerprints RTCDtlsParameters.role].
    rewrite map_map. f_equal. f_equal. f_equal. exact Hrole. }
  rewrite (lineIf_keepTruthy (fun h => "a=mid:" ++ h)). f_equal.
  f_equal. f_equal.
  destruct sport as [sp|]; [cbn; destruct (Js.numberTruthy sp) eqn:E; cbn; rewrite ?E|];
    reflexivity.
Qed.

Lemma bundledIceParams_single items m i count :
  hasCredentials (MediaDescription.iceParams m) = false ->
  bundledIceParams items [m] i count = None.
Proof.
  intros H. revert i. induction count as [|count IH]; intros i; [reflexivity|].
  cbn [bundledIceParams]. destruct (negb _); [apply IH|].
  destruct i as [|i]; cbn [lookup list_lookup].
  - rewrite H. apply IH.
  - replace ([m] !! S i) with (@None MediaDescription.t) by (destruct i; reflexivity).
    apply IH.
Qed.

Lemma parseMediaGroup_single bundle session lines kind port profile fmtText m1 :
  matchMLine (hd "" lines) = Some (kind, port, profile, fmtText) ->
  SessionDescription.media session = [] ->
  Js.foldOutcome (parseMediaLine ext) (tail lines)
    ((MediaDescription.create kind (Js.parseInt port) profile
        (if isAudioOrVideo kind then FmtNumbers (Js.split " " fmtText)
         else FmtStrings (Js.split " " fmtText)))
       {{ MediaDescription.dtlsParams :=
            Some (RTCDtlsParameters.mk
                    (SessionDescription.dtlsFingerprints session)
                    (SessionDescription.dtlsRole session));
          MediaDescription.iceParams :=
            Some (RTCIceParameters.mk
                    (SessionDescription.iceLite session)
                    (SessionDescription.iceUsernameFragment session)
                    (SessionDescription.icePassword session));
          MediaDescription.iceOptions := SessionDescription.iceOptions session }})
  = Ok m1 ->
  Js.truthy (MediaDescription.dtlsParams m1 ≫= RTCDtlsParameters.role) = true ->
  parseMediaGroup ext bundle session lines
  = Ok (session {{ SessionDescription.media := [m1] }}).
Proof.
  intros Hm Hmedia Hfold Hrole. unfold parseMediaGroup. rewrite Hm. cbv zeta iota beta.
  rewrite Hfold. cbn [Js.andThen]. rewrite Hmedia. cbn [app].
  destruct m1 as [k1 p1 pr1 f1 h1 mid1 caps1 smap1 sp1 dtls1 ice1 cands1 compl1 opts1].
  destruct dtls1 as [[fs [[|a r]|]]|]; try discriminate Hrole.
  cbn [MediaDescription.dtlsParams MediaDescription.iceParams MediaDescription.muxId
       mbind option_bind RTCDtlsParameters.role Js.truthy negb].
  destruct (hasCredentials ice1) eqn:Hc; cbn [negb]; [reflexivity|].
  destruct bundle as [b|]; [|reflexivity].
  destruct mid1 as [[|a' mid]|]; try reflexivity.
  destruct (existsb _ _); [|reflexivity].
  rewrite bundledIceParams_single by exact Hc. reflexivity.
Qed.

End Lines.

Section Grouping.

Import Js Sdp.
#[local] Open Scope string_scope.

Lemma join_cons sep x y l :
  Js.join sep (x :: y :: l) = x ++ sep ++ Js.join sep (y :: l).
Proof. reflexivity. Qed.

Lemma splitCRLF_lines ls rest :
  ls <> [] -> forallb noCR ls = true ->
  Js.splitCRLF (Js.join Js.CRLF ls ++ Js.CRLF ++ rest) = (ls ++ Js.splitCRLF rest)%list.
Proof.
  induction ls as [|l ls IH]; [congruence|]. intros _ H.
  cbn [forallb] in H. apply andb_true_iff in H as [Hl Hls].
  destruct ls as [|l' ls].
  - change (Js.join Js.CRLF [l]) with l. rewrite (splitCRLF_line l rest Hl). reflexivity.
  - rewrite join_cons, !append_assoc.
    rewrite (splitCRLF_line l _ Hl).
    rewrite IH by (congruence || exact Hls). reflexivity.
Qed.

Lemma pushLine_session ls acc :
  forallb bodyLine ls = true ->
  fold_left pushLine ls (acc, []) = ((acc ++ ls)%list, []).
Proof.
  revert acc. induction ls as [|l ls IH]; intros acc H.
  - rewrite app_nil_r. reflexivity.
  - cbn [forallb] in H. apply andb_true_iff in H as [Hl Hls].
    unfold bodyLine in Hl. apply andb_true_iff in Hl as [_ Hl].
    apply negb_true_iff in Hl.
    cbn [fold_left]. unfold pushLine at 2. rewrite Hl. cbn [reverse rev_append].
    change (reverse []) with (@nil (list string)). cbv iota.
    rewrite (IH _ Hls), <- app_assoc. reflexivity.
Qed.

Lemma pushLine_media ls acc before g :
  forallb bodyLine ls = true ->
  fold_left pushLine ls (acc, (before ++ [g])%list) = (acc, (before ++ [(g ++ ls)%list])%list).
Proof.
  revert g. induction ls as [|l ls IH]; intros g H.
  - rewrite app_nil_r. reflexivity.
  - cbn [forallb] in H. apply andb_true_iff in H as [Hl Hls].
    unfold bodyLine in Hl. apply andb_true_iff in Hl as [_ Hl].
    apply negb_true_iff in Hl.
    cbn [fold_left]. unfold pushLine at 2. rewrite Hl.
    rewrite reverse_snoc, reverse_involutive.
    rewrite (IH _ Hls), <- app_assoc. reflexivity.
Qed.

Lemma groupLines_session a b SL :
  forallb bodyLine (a :: b :: SL) = true ->
  groupLines (Js.join Js.CRLF (a :: b :: SL) ++ Js.CRLF)
  = ((a :: b :: SL) ++ [""], [])%list.
Proof.
  intros H. unfold groupLines.
  assert (Hn : forallb noCR (a :: b :: SL) = true).
  { revert H. generalize (a :: b :: SL). intros l. rewrite !forallb_forall.
    intros H x Hx. specialize (H x Hx). unfold bodyLine in H.
    apply andb_true_iff in H. tauto. }
  rewrite <- (append_nil_r (Js.join Js.CRLF (a :: b :: SL) ++ Js.CRLF)), append_assoc.
  rewrite splitCRLF_lines by (congruence || exact Hn).
  cbn [Js.splitCRLF app]. cbv zeta.
  replace (fold_left pushLine (a :: b :: (SL ++ [""])%list) ([], []))
    with (fold_left pushLine ((a :: b :: SL) ++ [""])%list ([], [])) by reflexivity.
  rewrite pushLine_session; [reflexivity|].
  rewrite forallb_app, H. reflexivity.
Qed.

Lemma groupLines_media a SL mline ML :
  forallb bodyLine (a :: SL) = true ->
  noCR mline = true -> Js.startsWith mline "m=" = true ->
  forallb bodyLine ML = true ->
  groupLines (Js.join Js.CRLF (a :: SL) ++ Js.CRLF
              ++ Js.join Js.CRLF (mline :: ML) ++ Js.CRLF)
  = (a :: SL, [(mline :: ML) ++ [""]])%list.
Proof.
  intros H Hm1 Hm2 HML. unfold groupLines.
  assert (Hn : forall l, forallb bodyLine l = true -> forallb noCR l = true).
  { intros l. rewrite !forallb_forall.
    intros H' x Hx. specialize (H' x Hx). unfold bodyLine in H'.
    apply andb_true_iff in H'. tauto. }
  rewrite splitCRLF_lines by (congruence || auto).
  rewrite <- (append_nil_r (Js.join Js.CRLF (mline :: ML) ++ Js.CRLF)), append_assoc.
  rewrite splitCRLF_lines by (congruence || (cbn [forallb]; rewrite Hm1; apply Hn; exact HML)).
  cbn [Js.splitCRLF]. 
  assert (Hshape : exists x y rest, ((a :: SL) ++ (mline :: ML) ++ [""])%list = x :: y :: rest).
  { destruct SL as [|s SL]; cbn; eauto. }
  destruct Hshape as (x & y & rest & Hshape).
  rewrite Hshape. cbv zeta iota. rewrite <- Hshape.
  rewrite fold_left_app, pushLine_session by exact H.
  cbn [app fold_left]. unfold pushLine at 2. rewrite Hm2.
  change ([] ++ [[mline]])%list with ([] ++ [[mline]])%list.
  rewrite (pushLine_media (ML ++ [""]) (a :: SL) [] [mline]); [reflexivity|].
  rewrite forallb_app, HML. reflexivity.
Qed.

End Grouping.

Section Session.

Import Js Sdp.
#[local] Open Scope string_scope.

Context (ext : Sdp.Externals).

Lemma parsesToS_app ls ls' f g :
  parsesToS ext ls f -> parsesToS ext ls' g -> parsesToS ext (ls ++ ls')%list (fun s => g (f s)).
Proof. intros Hf Hg s. rewrite foldOutcome_app, Hf. cbn. apply Hg. Qed.

Lemma parsesToS_one l f :
  (forall s, parseSessionLine ext s l = Ok (f s)) -> parsesToS ext [l] f.
Proof. intros H s. cbn. rewrite H. reflexivity. Qed.

Lemma parsesToS_version n :
  parsesToS ext ["v=" ++ Js.numberToString n]
    (fun s => s {{ SessionDescription.version := n }}).
Proof.
  apply parsesToS_one. intros s. unfold parseSessionLine.
  change (Js.startsWith ("v=" ++ ?x) "v=") with true. cbv iota.
  change (Js.slice 2 ("v=" ++ ?x)) with x. rewrite parseInt10_number. reflexivity.
Qed.

Lemma parsesToS_origin o :
  parsesToS ext ["o=" ++ o] (fun s => s {{ SessionDescription.origin := Some o }}).
Proof. apply parsesToS_one. intros s. reflexivity. Qed.

Lemma parsesToS_name n :
  parsesToS ext ["s=" ++ n] (fun s => s {{ SessionDescription.name := n }}).
Proof. apply parsesToS_one. intros s. reflexivity. Qed.

Lemma parsesToS_time t :
  parsesToS ext ["t=" ++ t] (fun s => s {{ SessionDescription.time := t }}).
Proof. apply parsesToS_one. intros s. reflexivity. Qed.

Lemma parsesToS_host h :
  isWordOpt h = true ->
  parsesToS ext (lineIf (Js.truthy h) ("c=" ++ ipAddressToSdp ext (Js.text h)))
    (fun s => s {{ SessionDescription.host :=
                     if Js.truthy h then h else SessionDescription.host s }}).
Proof.
  intros Hw. destruct h as [[|a h]|]; try (intros s; reflexivity).
  apply parsesToS_one. intros s. unfold parseSessionLine.
  change (Js.startsWith ("c=" ++ ?x) "v=") with false.
  change (Js.startsWith ("c=" ++ ?x) "o=") with false.
  change (Js.startsWith ("c=" ++ ?x) "s=") with false.
  change (Js.startsWith ("c=" ++ ?x) "c=") with true. cbv iota.
  change (Js.slice 2 ("c=" ++ ?x)) with x.
  cbn [Js.text default from_option id]. rewrite (ipAddress_round_trip ext a h Hw).
  reflexivity.
Qed.

Lemma split_two c a b : exists w w' ws, Js.split c (a ++ String c b) = w :: w' :: ws.
Proof.
  induction a as [|x a (w & w' & ws & IH)].
  - change ("" ++ String c b) with (String c b). cbn [Js.split].
    rewrite Ascii.eqb_refl. destruct (split_cons c b) as (w & ws & ->). eauto.
  - change (String x a ++ String c b) with (String x (a ++ String c b)).
    cbn [Js.split]. rewrite IH. destruct (Ascii.eqb x c); eauto.
Qed.

Lemma str_normalGroup g : GroupDescription.str (normalGroup g) = GroupDescription.str g.
Proof.
  unfold normalGroup.
  pose proof (join_split " " (GroupDescription.str g)) as Hj.
  destruct (split_two " " (GroupDescription.semantic g)
              (Js.join " " (GroupDescription.items g))) as (w & w' & ws & Hs).
  change (GroupDescription.semantic g ++ String " " (Js.join " " (GroupDescription.items g)))
    with (GroupDescription.str g) in Hs.
  rewrite Hs in *. rewrite <- Hj. reflexivity.
Qed.

Lemma parsesToS_groups gs :
  parsesToS ext (map (fun g => "a=group:" ++ GroupDescription.str g) gs)
    (fun s => s {{ SessionDescription.group :=
                     (SessionDescription.group s ++ map normalGroup gs)%list }}).
Proof.
  induction gs as [|g gs IH]; intros s.
  - cbn. unfold constant. rewrite app_nil_r. reflexivity.
  - cbn [map Js.foldOutcome].
    change ("a=group:" ++ ?x) with ("a=" ++ "group" ++ String ":" x).
    rewrite parseSessionLine_value by reflexivity.
    unfold sessionAttribute. cbn [String.eqb Ascii.eqb Bool.eqb].
    unfold parseGroup.
    destruct (split_cons " " (GroupDescription.str g)) as (w & ws & Hs).
    assert (Hn : normalGroup g = GroupDescription.mk w ws)
      by (unfold normalGroup; rewrite Hs; reflexivity).
    rewrite Hs. cbn [Js.andThen]. rewrite IH. f_equal.
    destruct s. unfold constant. cbn -[normalGroup]. rewrite Hn, <- app_assoc.
    reflexivity.
Qed.

Lemma parsesToS_msid gs :
  parsesToS ext (map (fun g => "a=msid-semantic:" ++ GroupDescription.str g) gs)
    (fun s => s {{ SessionDescription.msidSemantic :=
                     (SessionDescription.msidSemantic s ++ map normalGroup gs)%list }}).
Proof.
  induction gs as [|g gs IH]; intros s.
  - cbn. unfold constant. rewrite app_nil_r. reflexivity.
  - cbn [map Js.foldOutcome].
    change ("a=msid-semantic:" ++ ?x) with ("a=" ++ "msid-semantic" ++ String ":" x).
    rewrite parseSessionLine_value by reflexivity.
    unfold sessionAttribute. cbn [String.eqb Ascii.eqb Bool.eqb].
    unfold parseGroup.
    destruct (split_cons " " (GroupDescription.str g)) as (w & ws & Hs).
    assert (Hn : normalGroup g = GroupDescription.mk w ws)
      by (unfold normalGroup; rewrite Hs; reflexivity).
    rewrite Hs. cbn [Js.andThen]. rewrite IH. f_equal.
    destruct s. unfold constant. cbn -[normalGroup]. rewrite Hn, <- app_assoc.
    reflexivity.
Qed.

Lemma parsesToS_extmap b :
  parsesToS ext (lineIf b "a=extmap-allow-mixed")
    (fun s => s {{ SessionDescription.extMapAllowMixed :=
                     b || SessionDescription.extMapAllowMixed s }}).
Proof.
  destruct b; [|intros s; reflexivity].
  apply parsesToS_one. intros s.
  change "a=extmap-allow-mixed" with ("a=" ++ "extmap-allow-mixed").
  rewrite parseSessionLine_flag by reflexivity. reflexivity.
Qed.

Lemma parsesToS_empty_line : parsesToS ext [""] (fun s => s).
Proof. apply parsesToS_one. intros s. reflexivity. Qed.

Lemma parsesToS_nil : parsesToS ext [] (fun s => s).
Proof. intros s. reflexivity. Qed.

Lemma session_lines_round_trip d tl :
  isWordOpt (SessionDescription.host d) = true ->
  parsesToS ext tl (fun s => s) ->
  Js.foldOutcome (parseSessionLine ext) (sessionLines ext d ++ tl) SessionDescription.create
  = Ok (normalSession d).
Proof.
  intros Hh Htl.
  pose proof
    (parsesToS_app _ _ _ _
      (parsesToS_app _ _ _ _
        (parsesToS_app _ _ _ _ (parsesToS_version (SessionDescription.version d))
          (parsesToS_app _ _ _ _ (parsesToS_origin (Js.text (SessionDescription.origin d)))
            (parsesToS_name (SessionDescription.name d))))
      (parsesToS_app _ _ _ _ (parsesToS_host _ Hh)
      (parsesToS_app _ _ _ _ (parsesToS_time (SessionDescription.time d))
      (parsesToS_app _ _ _ _ (parsesToS_groups (SessionDescription.group d))
      (parsesToS_app _ _ _ _ (parsesToS_extmap (SessionDescription.extMapAllowMixed d))
        (parsesToS_msid (SessionDescription.msidSemantic d)))))))
      Htl) as H.
  etransitivity; [exact (H _)|].
  f_equal. unfold normalSession, SessionDescription.create, constant, keepTruthy.
  cbn. rewrite orb_true_r. reflexivity.
Qed.

Lemma sessionLines_normal d :
  SessionDescription.extMapAllowMixed d = true ->
  sessionLines ext (normalSession d) = sessionLines ext d.
Proof.
  intros Hx. destruct d as [v o n t h g x ms media ty r io il ip iu fs].
  cbn in Hx. subst x.
  unfold sessionLines, normalSession, SessionDescription.create, constant.
  cbn -[keepTruthy lineIf Js.truthy Js.text ipAddressToSdp Js.numberToString map app
        String.append normalGroup].
  rewrite (lineIf_keepTruthy (fun h => "c=" ++ ipAddressToSdp ext h) h).
  rewrite !map_map.
  rewrite (map_ext (fun g0 => "a=group:" ++ GroupDescription.str (normalGroup g0))
                   (fun g0 => "a=group:" ++ GroupDescription.str g0))
    by (intros a; rewrite str_normalGroup; reflexivity).
  rewrite (map_ext (fun g0 => "a=msid-semantic:" ++ GroupDescription.str (normalGroup g0))
                   (fun g0 => "a=msid-semantic:" ++ GroupDescription.str g0))
    by (intros a; rewrite str_normalGroup; reflexivity).
  reflexivity.
Qed.

End Session.

Section WellFormed.

Import Js Sdp.
#[local] Open Scope string_scope.

Context (ext : Sdp.Externals).

Lemma bodyLine_tag a x :
  Ascii.eqb "m" a = false -> isNot Js.CR a = true -> noCR x = true ->
  bodyLine (String a (String "=" x)) = true.
Proof.
  intros Hm Ha Hx. unfold bodyLine, noCR in *. cbn [allChars Js.startsWith].
  rewrite Hm, Ha, Hx. reflexivity.
Qed.

Lemma noCR_app a b : noCR (a ++ b) = noCR a && noCR b.
Proof. apply allChars_app. Qed.

Lemma noCR_word s : isWord s = true -> noCR s = true.
Proof. apply word_no_cr. Qed.

Lemma noCR_number n : noCR (Js.numberToString n) = true.
Proof. apply noCR_word, numberToString_word. Qed.

Lemma bodyLine_lineIf b l : (b = true -> bodyLine l = true) -> forallb bodyLine (lineIf b l) = true.
Proof. destruct b; cbn; [intros ->; reflexivity|reflexivity]. Qed.

Lemma noCR_ipAddress h : isWord h = true -> noCR (ipAddressToSdp ext h) = true.
Proof.
  intros H. unfold ipAddressToSdp. rewrite !noCR_app, (noCR_word _ H).
  destruct (isIPv4 ext h); reflexivity.
Qed.

Lemma bodyLine_map {A} (f : A -> string) (ok : A -> bool) l :
  (forall a, ok a = true -> bodyLine (f a) = true) ->
  forallb ok l = true -> forallb bodyLine (map f l) = true.
Proof.
  intros H. induction l as [|a l IH]; cbn; [reflexivity|].
  rewrite !andb_true_iff. intros [Ha Hl]. auto.
Qed.

Ltac tagged := apply bodyLine_tag; [reflexivity|reflexivity|].
Ltac literal :=
  unfold noCR in *; cbn [allChars isNot Ascii.eqb Bool.eqb negb andb Js.CR].

Lemma sessionLines_body d :
  sessionOk d = true -> forallb bodyLine (sessionLines ext d) = true.
Proof.
  unfold sessionOk. rewrite !andb_true_iff.
  intros [[[[[[Ho Hn] Ht] Hh] Hg] Hm] _].
  unfold sessionLines. rewrite !forallb_app. cbn [forallb].
  rewrite !andb_true_iff. repeat split.
  - tagged. apply noCR_number.
  - tagged. exact Ho.
  - tagged. exact Hn.
  - apply bodyLine_lineIf. intros Hy. tagged.
    destruct (SessionDescription.host d) as [h|]; [|discriminate Hy].
    apply noCR_ipAddress, Hh.
  - tagged. exact Ht.
  - apply (bodyLine_map _ (fun g => noCR (GroupDescription.str g))); [|exact Hg].
    intros g H. tagged. literal. exact H.
  - apply bodyLine_lineIf. intros _. reflexivity.
  - apply (bodyLine_map _ (fun g => noCR (GroupDescription.str g))); [|exact Hm].
    intros g H. tagged. literal. exact H.
Qed.

End WellFormed.

Section MediaBody.

Import Js Sdp.
#[local] Open Scope string_scope.

Context (ext : Sdp.Externals).

Ltac tagged := apply bodyLine_tag; [reflexivity|reflexivity|].
Ltac literal :=
  unfold noCR in *; cbn [allChars isNot Ascii.eqb Bool.eqb negb andb Js.CR].

Lemma noCR_if (b : bool) x y : noCR x = true -> noCR y = true -> noCR (if b then x else y) = true.
Proof. destruct b; auto. Qed.

Lemma noCR_candidate c : candidateOk c = true -> noCR (candidateToSdp c) = true.
Proof.
  destruct c as [comp f ip port prio proto ty ra rp tt].
  unfold candidateOk, isWordOpt. cbn [IceCandidate.foundation IceCandidate.protocol
    IceCandidate.ip IceCandidate.type IceCandidate.relatedAddress IceCandidate.tcpType].
  rewrite !andb_true_iff. intros [[[[[Hf Hp] Hi] Ht] Hra] Htt].
  unfold candidateToSdp. cbn [IceCandidate.foundation IceCandidate.protocol
    IceCandidate.ip IceCandidate.type IceCandidate.relatedAddress IceCandidate.tcpType
    IceCandidate.component IceCandidate.priority IceCandidate.port
    IceCandidate.relatedPort].
  rewrite !noCR_app, !noCR_number, !(noCR_word _ Hf), !(noCR_word _ Hp),
    !(noCR_word _ Hi), !(noCR_word _ Ht).
  assert (H1 : noCR (if Js.truthy ra then " raddr " ++ Js.text ra else "") = true).
  { destruct ra as [[|a ra]|]; cbn [Js.truthy Js.text default from_option id];
      try reflexivity.
    rewrite noCR_app, (noCR_word (String a ra) Hra). reflexivity. }
  assert (H2 : noCR (if Js.truthy tt then " tcptype " ++ Js.text tt else "") = true).
  { destruct tt as [[|a tt]|]; cbn [Js.truthy Js.text default from_option id];
      try reflexivity.
    rewrite noCR_app, (noCR_word (String a tt) Htt). reflexivity. }
  assert (H3 : noCR (match rp with
                     | Some p => if Js.numberTruthy p
                                 then " rport " ++ Js.numberToString p else ""
                     | None => ""
                     end) = true).
  { destruct rp as [p|]; [|reflexivity]. apply noCR_if; [|reflexivity].
    rewrite noCR_app, noCR_number. reflexivity. }
  rewrite H1, H2, H3. reflexivity.
Qed.

Lemma noCR_fingerprint f : fingerprintOk f = true -> noCR (fingerprintLine f) = true.
Proof.
  unfold fingerprintOk, fingerprintLine. rewrite andb_true_iff. intros [Ha Hv].
  rewrite !noCR_app, (noCR_word _ Ha), (noCR_word _ Hv). reflexivity.
Qed.

Lemma bodyLine_fingerprint f : fingerprintOk f = true -> bodyLine (fingerprintLine f) = true.
Proof.
  intros H. pose proof (noCR_fingerprint f H) as Hn. unfold bodyLine. rewrite Hn.
  reflexivity.
Qed.

Lemma roleOk_round_trips d : roleOk ext d = true -> roleRoundTrips ext d.
Proof.
  unfold roleOk, roleRoundTrips. rewrite !andb_true_iff, String.eqb_eq. tauto.
Qed.

Lemma mediaLines_body m :
  applicationMediaOk ext m = true ->
  exists mline ML,
    mediaLines ext m = mline :: ML
    /\ noCR mline = true /\ Js.startsWith mline "m=" = true
    /\ forallb bodyLine ML = true.
Proof.
  unfold applicationMediaOk. rewrite !andb_true_iff.
  intros [[[[[[[[[[[[Hk Hport] Hprof] Hfmt] Hh] Hc] Hu] Hpw] Ho] Hd] Hmid] Hmap] Hcaps].
  apply String.eqb_eq in Hk, Hprof.
  destruct (MediaDescription.fmt m) as [[|f [|]]|] eqn:Ef; try discriminate Hfmt.
  apply String.eqb_eq in Hfmt. subst f.
  eexists _, _. split; [reflexivity|]. rewrite Hk, Hprof, Ef.
  split; [|split; [reflexivity|]].
  { rewrite !noCR_app, noCR_number. reflexivity. }
  rewrite !forallb_app, !andb_true_iff. repeat split.
  - apply bodyLine_lineIf. intros Hy. tagged.
    destruct (MediaDescription.host m) as [h|]; [|discriminate Hy].
    apply noCR_ipAddress, Hh.
  - apply (bodyLine_map _ candidateOk); [|exact Hc].
    intros c H. tagged. literal. apply (noCR_candidate c H).
  - apply bodyLine_lineIf. intros _. reflexivity.
  - apply bodyLine_lineIf. intros _. tagged. literal. exact Hu.
  - apply bodyLine_lineIf. intros _. tagged. literal. exact Hpw.
  - apply bodyLine_lineIf. intros _. reflexivity.
  - apply bodyLine_lineIf. intros _. tagged. literal. exact Ho.
  - destruct (MediaDescription.dtlsParams m) as [d|]; [|discriminate Hd].
    apply andb_true_iff in Hd as [Hf Hr].
    unfold dtlsLines. rewrite forallb_app, andb_true_iff. split.
    + apply (bodyLine_map _ fingerprintOk); [|exact Hf]. apply bodyLine_fingerprint.
    + cbn [forallb]. rewrite andb_true_r. tagged. literal.
      unfold roleOk in Hr. rewrite !andb_true_iff in Hr. apply Hr.
  - apply bodyLine_lineIf. intros _. tagged. literal. exact Hmid.
  - destruct (MediaDescription.sctpMap m); [reflexivity|discriminate Hmap].
  - destruct (MediaDescription.sctpPort m) as [p|]; [|reflexivity].
    apply bodyLine_lineIf. intros _. tagged. literal. apply noCR_number.
  - destruct (MediaDescription.sctpCapabilities m) as [c|]; [|reflexivity].
    cbn [forallb]. rewrite andb_true_r. tagged. literal. apply noCR_number.
Qed.

End MediaBody.

Section RoundTrip.

Import Js Sdp.
#[local] Open Scope string_scope.

Context (ext : Sdp.Externals).

Lemma sessionLines_shape d : exists a b SL, sessionLines ext d = a :: b :: SL.
Proof. eexists _, _, _. reflexivity. Qed.

Lemma application_media_group bundle session m :
  applicationMediaOk ext m = true ->
  SessionDescription.media session = [] ->
  SessionDescription.dtlsFingerprints session = [] ->
  SessionDescription.dtlsRole session = None ->
  SessionDescription.iceLite session = None ->
  SessionDescription.iceUsernameFragment session = None ->
  SessionDescription.icePassword session = None ->
  SessionDescription.iceOptions session = None ->
  parseMediaGroup ext bundle session (mediaLines ext m ++ [""])
  = Ok (session {{ SessionDescription.media := [normalMedia ext m] }}).
Proof.
  intros Hok Hmedia Hfs Hr Hl Hu Hp Ho.
  pose proof Hok as Hok'. unfold applicationMediaOk in Hok'.
  rewrite !andb_true_iff in Hok'.
  destruct Hok' as [[[[[[[[[[[[Hk Hport] Hprof] Hfmt] Hh] Hc] _] _] _] Hd] _] Hmap] Hcaps].
  apply String.eqb_eq in Hk, Hprof.
  destruct (MediaDescription.fmt m) as [[|f [|]]|] eqn:Ef; try discriminate Hfmt.
  apply String.eqb_eq in Hfmt. subst f.
  destruct (MediaDescription.port m) as [|p] eqn:Ep; [discriminate Hport|].
  apply Z.leb_le in Hport.
  destruct (MediaDescription.dtlsParams m) as [d|] eqn:Ed; [|discriminate Hd].
  apply andb_true_iff in Hd as [Hf Hrole].
  destruct (MediaDescription.sctpMap m) eqn:Em; [|discriminate Hmap].
  destruct (MediaDescription.sctpCapabilities m) as [c|] eqn:Ec; [|discriminate Hcaps].
  pose proof (media_attributes_round_trip ext m c d Hh Hc Em Ec Ed Hf) as Hfold.
  rewrite Hk, Ep, Hprof, Ef in Hfold.
  apply (parseMediaGroup_single ext bundle session _ "application"
           (Js.numberToString (Num p)) "UDP/DTLS/SCTP" "webrtc-datachannel").
  - replace (hd "" (mediaLines ext m ++ [""])%list)
      with ("m=" ++ "application" ++ " " ++ Js.numberToString (Num p) ++ " "
            ++ "UDP/DTLS/SCTP" ++ " " ++ Js.join " " ["webrtc-datachannel"]).
    + apply matchMLine_application, Hport.
    + unfold mediaLines. rewrite Hk, Ep, Hprof, Ef. reflexivity.
  - exact Hmedia.
  - rewrite Hfs, Hr, Hl, Hu, Hp, Ho, parseInt_number. exact Hfold.
  - unfold normalMedia, constant. rewrite Ed.
    destruct m. cbn. apply roleOk_round_trips in Hrole. apply Hrole.
Qed.

(** A well-formed description with at most one section, an application
    one, is read back as its normal form, which has the same text. *)
Theorem description_round_trip d :
  descriptionOk ext d = true ->
  parse ext (string_ ext d) = Ok (normalDescription ext d)
  /\ string_ ext (normalDescription ext d) = string_ ext d.
Proof.
  unfold descriptionOk. rewrite andb_true_iff. intros [Hs Hm].
  pose proof (sessionLines_body ext d Hs) as Hbody.
  assert (Hh : isWordOpt (SessionDescription.host d) = true).
  { unfold sessionOk in Hs. rewrite !andb_true_iff in Hs. tauto. }
  assert (Hx : SessionDescription.extMapAllowMixed d = true).
  { unfold sessionOk in Hs. rewrite !andb_true_iff in Hs. tauto. }
  pose proof (sessionLines_normal ext d Hx) as Hlines.
  destruct (sessionLines_shape d) as (a & b & SL & Hshape).
  destruct (SessionDescription.media d) as [|m [|m' ms]] eqn:Emedia; [| |discriminate Hm].
  - assert (Hstr : string_ ext d = Js.join Js.CRLF (sessionLines ext d) ++ Js.CRLF).
    { unfold string_. rewrite Emedia. cbn [map Js.join String.concat].
      rewrite append_nil_r. reflexivity. }
    split.
    + rewrite Hstr. unfold parse. rewrite Hshape in *.
      rewrite (groupLines_session a b SL Hbody). rewrite <- Hshape.
      rewrite (session_lines_round_trip ext d [""] Hh (parsesToS_empty_line ext)).
      unfold normalDescription. rewrite Emedia. reflexivity.
    + rewrite Hstr. unfold string_, normalDescription.
      rewrite Emedia. cbn [map]. 
      change (sessionLines ext ((normalSession d) {{ SessionDescription.media := [] }}))
        with (sessionLines ext (normalSession d)).
      rewrite Hlines. cbn. rewrite append_nil_r. reflexivity.
  - destruct (mediaLines_body ext m Hm) as (mline & ML & HML & Hn & Hst & Hb).
    assert (Hstr : string_ ext d
                   = Js.join Js.CRLF (sessionLines ext d) ++ Js.CRLF
                     ++ Js.join Js.CRLF (mediaLines ext m) ++ Js.CRLF).
    { unfold string_. rewrite Emedia. reflexivity. }
    assert (Hok : applicationMediaOk ext m = true) by exact Hm.
    unfold applicationMediaOk in Hm. rewrite !andb_true_iff in Hm.
    destruct Hm as [[[[_ Hd] _] _] _].
    destruct (MediaDescription.dtlsParams m) as [dt|] eqn:Ed; [|discriminate Hd].
    apply andb_true_iff in Hd as [_ Hrole]. apply roleOk_round_trips in Hrole.
    split.
    + rewrite Hstr. unfold parse. rewrite Hshape in *. rewrite HML.
      assert (Hb' : forallb bodyLine (a :: (b :: SL)) = true) by exact Hbody.
      rewrite (groupLines_media a (b :: SL) mline ML Hb' Hn Hst Hb).
      rewrite <- Hshape, <- HML.
      rewrite <- (app_nil_r (sessionLines ext d)).
      rewrite (session_lines_round_trip ext d [] Hh (parsesToS_nil ext)).
      cbn [Js.andThen Js.foldOutcome].
      rewrite (application_media_group _ (normalSession d) m Hok) by reflexivity.
      unfold normalDescription. rewrite Emedia. reflexivity.
    + rewrite Hstr. unfold string_, normalDescription. rewrite Emedia. cbn [map].
      change (sessionLines ext ((normalSession d)
                {{ SessionDescription.media := [normalMedia ext m] }}))
        with (sessionLines ext (normalSession d)).
      rewrite Hlines.
      change (SessionDescription.media ((normalSession d)
                {{ SessionDescription.media := [normalMedia ext m] }}))
        with [normalMedia ext m].
      cbn [map]. unfold mediaToString. rewrite (mediaLines_normal ext m dt Ed Hrole).
      reflexivity.
Qed.

End RoundTrip.

Section BuiltDescriptions.

Import Js Sdp PeerConnection.
#[local] Open Scope string_scope.

Context (ext : PeerConnection.Externals).

Ltac run := unfold Js.bind, Js.get, Js.modify, PeerConnection.emit, Js.ret, Js.throw,
  constant in *; cbn in *.

Lemma header_ok sessionId type :
  noCR sessionId = true ->
  sessionOk (addSDPHeader sessionId type SessionDescription.create) = true.
Proof.
  intros H. unfold sessionOk, addSDPHeader, constant. cbn.
  rewrite !andb_true_r. rewrite !noCR_app, H. reflexivity.
Qed.

Lemma media_ok t :
  constantsOk ext = true -> transportOk ext t = true ->
  applicationMediaOk (sdp ext) (createMediaDescriptionForSctp ext t) = true.
Proof.
  destruct t as [[[[gs cands [lite u pw]] ? ? ? ? ?] role lp rp st] mid idx port sctp].
  unfold constantsOk, transportOk.
  cbn -[noCR isWordOpt isWord forallb roleOk Js.text]. rewrite !andb_true_iff.
  intros [Hh Hp] [[[[[Hmid Hc] Hu] Hpw] Hf] Hr].
  unfold applicationMediaOk, createMediaDescriptionForSctp, addTransportDescription,
    MediaDescription.create, constant.
  cbn -[noCR isWordOpt isWord forallb roleOk Js.text].
  rewrite Hc, Hf, Hr, Hmid. unfold isWordOpt. cbn [default from_option id].
  rewrite Hh. unfold iceUfrag, icePwd. cbn [mbind option_bind RTCIceParameters.usernameFragment RTCIceParameters.password].
  rewrite Hu, Hpw. destruct (DISCARD_PORT ext); [discriminate Hp|]. rewrite Hp.
  reflexivity.
Qed.

Lemma noCR_allocateMidFrom mids i fuel : noCR (allocateMidFrom mids "dc" i fuel) = true.
Proof.
  revert i. induction fuel as [|fuel IH]; intros i; cbn [allocateMidFrom].
  - rewrite noCR_app. change (Js.intToString ?z) with (Js.numberToString (Num z)).
    rewrite noCR_number. reflexivity.
  - destruct (existsb _ mids); [apply IH|].
    rewrite noCR_app. change (Js.intToString ?z) with (Js.numberToString (Num z)).
    rewrite noCR_number. reflexivity.
Qed.

Lemma description_ok_header sessionId type :
  noCR sessionId = true ->
  descriptionOk (sdp ext) (addSDPHeader sessionId type SessionDescription.create) = true.
Proof.
  intros H. unfold descriptionOk. rewrite header_ok by exact H. reflexivity.
Qed.

Lemma description_ok_media sessionId type m grp :
  noCR sessionId = true ->
  forallb (fun g => noCR (GroupDescription.str g)) grp = true ->
  applicationMediaOk (sdp ext) m = true ->
  descriptionOk (sdp ext)
    ((addSDPHeader sessionId type SessionDescription.create)
       {{ SessionDescription.media := [m]; SessionDescription.group := grp }}) = true.
Proof.
  intros H Hg Hm. pose proof (header_ok sessionId type H) as Hs.
  unfold descriptionOk, sessionOk, addSDPHeader, constant in *.
  cbn -[noCR isWordOpt forallb applicationMediaOk] in *.
  rewrite Hm, andb_true_r. rewrite !andb_true_iff in *.
  repeat split; tauto.
Qed.

Lemma offer_description_ok sessionId pc d pc' :
  buildOk ext sessionId pc = true ->
  buildOfferSdp ext sessionId pc = (Ok d, pc') ->
  descriptionOk (sdp ext) d = true.
Proof.
  unfold buildOk. rewrite !andb_true_iff. intros [[Hsid Hconst] Ht] Hb.
  unfold buildOfferSdp in Hb.
  destruct pc as [policy tr est cs ss nn sn rp seen cl cr pl pr closed ev].
  cbn [sctpTransport] in Ht.
  destruct tr as [t|].
  - pose proof (media_ok t Hconst Ht) as Hm.
    destruct t as [dtls mid idx port sctp].
    destruct mid as [mid|].
    + assert (Hm' : applicationMediaOk (sdp ext)
                (createMediaDescriptionForSctp ext
                   (RTCSctpTransport.mk dtls (Some mid) (Some 0%nat) port sctp)) = true)
        by exact Hm.
      assert (Hmid : noCR mid = true).
      { unfold transportOk in Ht. rewrite !andb_true_iff in Ht. apply Ht. }
      run. destruct policy, mid as [|a mid]; cbn in Hb; injection Hb as <- <-;
        first [ apply (description_ok_media sessionId offer _ [] Hsid eq_refl Hm')
              | apply (description_ok_media sessionId offer _
                         [GroupDescription.mk "BUNDLE" [String a mid]] Hsid);
                [cbn [forallb]; rewrite andb_true_r; unfold GroupDescription.str;
                 cbn [GroupDescription.semantic GroupDescription.items Js.join
                      String.concat];
                 rewrite !noCR_app, Hmid; reflexivity
                |exact Hm'] ].
    + unfold allocateMid in Hb. run.
      remember (allocateMidFrom seen "dc" 0 (length seen)) as mid eqn:Emid in *.
      assert (Hmid : noCR mid = true) by (subst mid; apply noCR_allocateMidFrom).
      clear Emid.
      assert (Hm' : applicationMediaOk (sdp ext)
                (createMediaDescriptionForSctp ext
                   (RTCSctpTransport.mk dtls (Some mid) (Some 0%nat) port sctp)) = true).
      { apply media_ok; [exact Hconst|].
        destruct dtls as [[[gs cands [lite u pw]] ? ? ? ? ?] role lp rpp st].
        unfold transportOk in *. cbn -[noCR forallb roleOk Js.text] in *.
        rewrite !andb_true_iff in *. cbn [Js.text default from_option id].
        rewrite Hmid. tauto. }
      destruct policy, mid as [|a mid]; cbn in Hb; injection Hb as <- <-;
        first [ apply (description_ok_media sessionId offer _ [] Hsid eq_refl Hm')
              | apply (description_ok_media sessionId offer _
                         [GroupDescription.mk "BUNDLE" [String a mid]] Hsid);
                [cbn [forallb]; rewrite andb_true_r; unfold GroupDescription.str;
                 cbn [GroupDescription.semantic GroupDescription.items Js.join
                      String.concat];
                 rewrite !noCR_app, Hmid; reflexivity
                |exact Hm'] ].
  - run. destruct policy; injection Hb as <- <-;
      apply (description_ok_header sessionId offer Hsid).
Qed.

Lemma answer_description_ok sessionId pc d pc' :
  buildOk ext sessionId pc = true ->
  buildAnswer sessionId pc = (Ok d, pc') ->
  descriptionOk (sdp ext) d = true.
Proof.
  unfold buildOk. rewrite !andb_true_iff. intros [[Hsid _] _] Hb.
  unfold buildAnswer, assertNotClosed in Hb.
  destruct pc as [policy tr est cs ss nn sn rp seen cl cr pl pr closed ev].
  run. unfold _remoteDescription, orElse in Hb. cbn in Hb.
  destruct closed; cbn in Hb; [discriminate Hb|].
  destruct ss; try discriminate Hb; destruct pr, cr; try discriminate Hb;
    injection Hb as <- <-; apply (description_ok_header sessionId answer Hsid).
Qed.

(** C8: the text of an offer or an answer that the connection builds,
    parsed and serialised again, is the same text, byte for byte. The
    strings that come from outside the three files are taken well formed
    ([buildOk]): no carriage return in the session identifier, the mid
    and the ICE credentials, candidate and fingerprint fields and
    DISCARD_HOST without space or line break, DISCARD_PORT a number from 0
    up, and a DTLS role that the two tables of [./const] translate to a
    setup value and back. *)
Theorem built_description_round_trips sessionId pc d pc' :
  buildOk ext sessionId pc = true ->
  buildOfferSdp ext sessionId pc = (Ok d, pc')
  \/ buildAnswer sessionId pc = (Ok d, pc') ->
  exists d',
    Sdp.parse (sdp ext) (string_ (sdp ext) d) = Ok d'
    /\ string_ (sdp ext) d' = string_ (sdp ext) d.
Proof.
  intros Hok Hb. exists (normalDescription (sdp ext) d).
  apply description_round_trip.
  destruct Hb as [Hb|Hb];
    [exact (offer_description_ok _ _ _ _ Hok Hb)|exact (answer_description_ok _ _ _ _ Hok Hb)].
Qed.

End BuiltDescriptions.

Section Addresses.

Import Js Sdp.
#[local] Open Scope string_scope.

Context (ext : Sdp.Externals).

Lemma span_stops p s : allChars p s = false -> snd (Js.span p s) <> "".
Proof.
  induction s as [|a s IH]; cbn; [discriminate|].
  destruct (p a) eqn:E; cbn; [|discriminate].
  intros H. specialize (IH H). destruct (Js.span p s) as [w r]. exact IH.
Qed.

Lemma ipAddressFromSdp_prefixed (v : string) addr :
  v = "4" \/ v = "6" ->
  ipAddressFromSdp ("IN IP" ++ v ++ " " ++ addr)
  = match addr with
    | String _ _ => if allChars isNotSpace addr then Ok addr else Throw "exception"
    | EmptyString => Throw "exception"
    end.
Proof.
  intros Hv. unfold ipAddressFromSdp.
  assert (Js.startsWith ("IN IP" ++ v ++ " " ++ addr) "IN IP4 "
          || Js.startsWith ("IN IP" ++ v ++ " " ++ addr) "IN IP6 " = true) as ->
    by (destruct Hv as [-> | ->]; reflexivity).
  assert (Js.slice 7 ("IN IP" ++ v ++ " " ++ addr) = addr) as ->
    by (destruct Hv as [-> | ->]; reflexivity).
  destruct addr as [|a h]; [reflexivity|].
  destruct (allChars isNotSpace (String a h)) eqn:E.
  - rewrite (span_all _ _ E). reflexivity.
  - pose proof (span_stops _ _ E) as Hr.
    destruct (Js.span isNotSpace (String a h)) as [[|? ?] [|? ?]];
      try reflexivity. contradiction Hr. reflexivity.
Qed.

(** X14: the connection line of an address is read back as that address
    when it is not empty and has no space in it, and is refused with
    [exception] otherwise. *)
Theorem ip_address_text_round_trips addr :
  ipAddressFromSdp (ipAddressToSdp ext addr)
  = match addr with
    | String _ _ => if allChars isNotSpace addr then Ok addr else Throw "exception"
    | EmptyString => Throw "exception"
    end.
Proof.
  unfold ipAddressToSdp. apply ipAddressFromSdp_prefixed.
  destruct (isIPv4 ext addr); auto.
Qed.

(** X15: the line of a candidate whose fields are words is read back as
    the candidate, an empty related address or TCP type and a related
    port of 0 as absent ones; that normal form has the same line and is
    its own normal form. *)
Theorem candidate_text_round_trips c :
  candidateOk c = true ->
  candidateFromSdp (candidateToSdp c) = Ok (normalCandidate c)
  /\ candidateToSdp (normalCandidate c) = candidateToSdp c
  /\ normalCandidate (normalCandidate c) = normalCandidate c.
Proof.
  intros H. split; [apply candidate_round_trip, H|].
  split; [apply candidateToSdp_normal|].
  destruct c as [comp f ip port prio proto ty ra rp tt].
  unfold normalCandidate, keepTruthy, keepTruthyNumber, constant. cbn.
  destruct ra as [[|? ?]|], rp as [[|z]|], tt as [[|? ?]|]; cbn;
    try destruct (z =? 0)%Z eqn:E; cbn; rewrite ?E; reflexivity.
Qed.

End Addresses.

(** ** The example offer *)

Section DescriptionRuns.

Import Js Sdp PeerConnection.
#[local] Open Scope string_scope.

Lemma built_description_round_trips_witness :
  buildOk exampleExternals "12345678" examplePeerConnection = true
  /\ buildOfferSdp exampleExternals "12345678" examplePeerConnection
     = (Ok exampleOffer, examplePeerConnectionAfterOffer)
  /\ exists d',
       Sdp.parse exampleSdpExternals (string_ exampleSdpExternals exampleOffer) = Ok d'
       /\ string_ exampleSdpExternals d' = string_ exampleSdpExternals exampleOffer.
Proof.
  assert (H1 : buildOk exampleExternals "12345678" examplePeerConnection = true)
    by (vm_compute; reflexivity).
  assert (H2 : buildOfferSdp exampleExternals "12345678" examplePeerConnection
               = (Ok exampleOffer, examplePeerConnectionAfterOffer))
    by (vm_compute; reflexivity).
  split; [exact H1|]. split; [exact H2|].
  exact (built_description_round_trips exampleExternals "12345678" examplePeerConnection
           exampleOffer examplePeerConnectionAfterOffer H1 (or_introl H2)).
Defined.

(** The text of the example offer. *)
Lemma example_offer_text :
  string_ exampleSdpExternals exampleOffer
  = Js.join Js.CRLF
      ["v=0";
       "o=- 12345678 0 IN IP4 0.0.0.0";
       "s=-";
       "t=0 0";
       "a=group:BUNDLE 0dc";
       "a=extmap-allow-mixed";
       "a=msid-semantic:WMS *";
       "m=application 9 UDP/DTLS/SCTP webrtc-datachannel";
       "c=IN IP4 0.0.0.0";
       "a=candidate:f00 1 udp 2130706431 192.168.1.5 50000 typ host";
       "a=candidate:f01 1 udp 1694498815 1.2.3.4 50001 typ srflx raddr 192.168.1.5 rport 50000";
       "a=end-of-candidates";
       "a=ice-ufrag:abcd";
       "a=ice-pwd:pwdpwdpwd";
       "a=ice-options:trickle";
       "a=fingerprint:sha-256 AB:CD:EF";
       "a=setup:actpass";
       "a=mid:0dc";
       "a=sctp-port:5000";
       "a=max-message-size:65536"] ++ Js.CRLF.
Proof. vm_compute. reflexivity. Qed.

Lemma candidate_text_round_trips_witness :
  candidateOk exampleReflexiveCandidate = true
  /\ candidateToSdp exampleReflexiveCandidate
     = "f01 1 udp 1694498815 1.2.3.4 50001 typ srflx raddr 192.168.1.5 rport 50000"
  /\ candidateFromSdp (candidateToSdp exampleReflexiveCandidate)
     = Ok exampleReflexiveCandidate.
Proof.
  assert (H : candidateOk exampleReflexiveCandidate = true) by (vm_compute; reflexivity).
  split; [exact H|]. split; [vm_compute; reflexivity|].
  exact (proj1 (candidate_text_round_trips exampleReflexiveCandidate H)).
Defined.

End DescriptionRuns.

(** * The peer connection *)

Section ConnectionFacts.

Import Js Sdp PeerConnection.
#[local] Open Scope string_scope.

#[local] Arguments Sctp.stop : simpl never.
#[local] Arguments isEqual : simpl never.
#[local] Arguments kindsWithIndex : simpl never.
#[local] Arguments includesState : simpl never.
Context (ext : PeerConnection.Externals).

Ltac run := unfold Js.bind, Js.get, Js.modify, PeerConnection.emit, Js.ret, Js.throw, constant in *; cbn in *.

Lemma close_when_closed pc : isClosed pc = true -> close pc = (Ok tt, pc).
Proof. intros H. unfold close. run. rewrite H. reflexivity. Qed.

Lemma close_sets_closed pc : isClosed (snd (close pc)) = true.
Proof.
  destruct pc as [? tr ? ? ? ? ? ? ? ? ? ? ? cl ?].
  unfold close. run. destruct cl; [reflexivity|].
  unfold setSignalingState, setConnectionState, stopSctpTransport, stopDtlsAndIce,
    updDtlsTransport, updIceTransport, dispose. run.
  destruct tr as [t|]; run; [|reflexivity].
  destruct (Sctp.stop (RTCSctpTransport.sctp t)) as [[|e] sctp']; run; reflexivity.
Qed.

(** C9: [close] called [n + 1] times leaves the very state one call
    leaves (signaling and connection state, transports, notifications),
    and a further call returns normally without changing it. *)
Theorem close_is_idempotent n pc :
  closeTimes (S n) pc = closeTimes 1 pc
  /\ close (closeTimes 1 pc) = (Ok tt, closeTimes 1 pc).
Proof.
  split; [|apply close_when_closed, close_sets_closed].
  revert pc. induction n as [|n IH]; intros pc; [reflexivity|].
  change (closeTimes (S (S n)) pc) with (closeTimes (S n) (snd (close pc))).
  rewrite IH. cbn [closeTimes].
  rewrite (close_when_closed _ (close_sets_closed pc)). reflexivity.
Qed.

Lemma allowed_transition isLocal type st :
  includesState (allowedStates isLocal type) st = true
  <-> transition isLocal type st (nextState isLocal type).
Proof.
  split.
  - destruct isLocal, type, st; cbn; intros H; try discriminate; constructor.
  - inversion 1; reflexivity.
Qed.

Lemma transition_target isLocal type st st' :
  transition isLocal type st st' -> st' = nextState isLocal type.
Proof. inversion 1; reflexivity. Qed.

Lemma forEach_check {S A} (p : A -> bool) (e : string) (xs : list A) (s : S) :
  forEach xs (fun x => if p x then (fun s => (Throw e, s)) else (fun s => (Ok tt, s))) s
  = if existsb p xs then (Throw e, s) else (Ok tt, s).
Proof.
  induction xs as [|x xs IH]; [reflexivity|].
  cbn. unfold Js.bind. destruct (p x); cbn; [reflexivity|]. apply IH.
Qed.

#[local] Arguments forEach : simpl never.

Lemma validateDescription_spec description isLocal pc :
  validateDescription description isLocal pc = (validation description isLocal pc, pc).
Proof.
  unfold validateDescription, validation, offerFor. run.
  destruct (SessionDescription.type description) as [[|]|]; run.
  all: repeat match goal with
       | |- context [forEach ?xs ?body ?s] =>
           rewrite (forEach_check
                      (fun m => negb (hasCredentials (MediaDescription.iceParams m)))
                      iceMissing xs s)
       | _ => case_match; run; try reflexivity; try congruence
       end.
Qed.

Lemma keeps_ret {A} (a : A) : keepsSignaling (Js.ret a).
Proof. intros pc. reflexivity. Qed.

Lemma keeps_throw {A} e : keepsSignaling (@Js.throw _ A e).
Proof. intros pc. reflexivity. Qed.

Lemma keeps_get : keepsSignaling Js.get.
Proof. intros pc. reflexivity. Qed.

Lemma keeps_bind {A B} (m : M A) (k : A -> M B) :
  keepsSignaling m -> (forall a, keepsSignaling (k a)) -> keepsSignaling (Js.bind m k).
Proof.
  intros Hm Hk pc. unfold Js.bind. specialize (Hm pc).
  destruct (m pc) as [[a|e] pc']; cbn in *; [|exact Hm].
  rewrite Hk. exact Hm.
Qed.

Lemma keeps_modify (f : RTCPeerConnection -> RTCPeerConnection) :
  (forall pc, signalingState (f pc) = signalingState pc) -> keepsSignaling (Js.modify f).
Proof. intros H pc. apply H. Qed.

Lemma keeps_forEach {A} (body : A -> M unit) xs :
  (forall x, keepsSignaling (body x)) -> keepsSignaling (forEach xs body).
Proof.
  intros H. induction xs as [|x xs IH]; [apply keeps_ret|].
  unfold forEach; fold (@forEach RTCPeerConnection A). apply keeps_bind; auto.
Qed.

Ltac keeps :=
  repeat first
    [ apply keeps_ret | apply keeps_throw | apply keeps_get
    | apply keeps_bind; [|intros ?]
    | apply keeps_modify; intros ?; reflexivity
    | apply keeps_forEach; intros ?
    | progress unfold setRemoteSCTP, createSctpTransport, updIceTransport,
        updDtlsTransport, setConnectionState, connect, PeerConnection.emit
    | case_match ].

Lemma applyRemoteMedia_keeps remoteSdp im : keepsSignaling (applyRemoteMedia ext remoteSdp im).
Proof. destruct im as [i m]. unfold applyRemoteMedia. keeps. Qed.

Lemma bind_ok {S A B} (m : Js.M S A) (k : A -> Js.M S B) s a s' :
  m s = (Ok a, s') -> Js.bind m k s = k a s'.
Proof. intros H. unfold Js.bind. rewrite H. reflexivity. Qed.

Lemma bind_throw {S A B} (m : Js.M S A) (k : A -> Js.M S B) s e s' :
  m s = (Throw e, s') -> Js.bind m k s = (Throw e, s').
Proof. intros H. unfold Js.bind. rewrite H. reflexivity. Qed.

Lemma setDescription_spec isLocal type text pc :
  match parsed ext type text with
  | Throw e => setDescription ext isLocal type text pc = (Throw e, pc)
  | Ok d =>
      match validation d isLocal pc with
      | Throw e => setDescription ext isLocal type text pc = (Throw e, pc)
      | Ok _ =>
          let r := setDescription ext isLocal type text pc in
          (fst r = Ok tt
           /\ signalingState (snd r) = nextState isLocal type)
          \/ ((exists e, fst r = Throw e)
              /\ signalingState (snd r) = signalingState pc)
      end
  end.
Proof.
  unfold parsed, setDescription.
  destruct isLocal; unfold setLocalDescription, setRemoteDescription, parseDescription;
    (destruct (parse (sdp ext) text) as [d|e]; [|reflexivity]);
    rewrite (bind_ok (Js.ret _) _ pc _ pc eq_refl);
    pose proof (validateDescription_spec (d {{ SessionDescription.type := Some type }})) as Hv.
  - specialize (Hv true pc).
    destruct (validation _ true pc) as [[]|e];
      [rewrite (bind_ok _ _ _ _ _ Hv)|rewrite (bind_throw _ _ _ _ _ Hv); reflexivity].
    clear Hv. left. destruct pc as [? tr ? ? ? ? ? ? ? ? ? ? ? ? ?].
    unfold setSignalingState, setupRole, setLocal, connect, updIceTransport, updDtlsTransport,
      setConnectionState. run.
    destruct type; run; repeat (case_match; run; simplify_eq); split; reflexivity.
  - specialize (Hv false pc).
    destruct (validation _ false pc) as [[]|e];
      [rewrite (bind_ok _ _ _ _ _ Hv)|rewrite (bind_throw _ _ _ _ _ Hv); reflexivity].
    clear Hv. cbv zeta.
    set (store := match type with offer => _ | answer => _ end).
    assert (exists pc1, store pc = (Ok tt, pc1) /\ signalingState pc1 = signalingState pc)
      as (pc1 & Hs & H1) by (subst store; destruct type; eexists; split; reflexivity).
    rewrite (bind_ok _ _ _ _ _ Hs).
    match goal with |- context [forEach ?xs ?body] =>
      pose proof (keeps_forEach body xs (applyRemoteMedia_keeps _) pc1) as H2;
      destruct (forEach xs body pc1) as [[[]|e] pc2] eqn:Hf
    end; cbn in H2.
    + left. rewrite (bind_ok _ _ _ _ _ Hf). clear Hf Hs.
      destruct pc2 as [? tr ? ? ? ? ? ? ? ? ? ? ? ? ?].
      unfold setSignalingState, connect, setConnectionState. run.
      destruct type; run; repeat (case_match; run; simplify_eq); split; reflexivity.
    + right. rewrite (bind_throw _ _ _ _ _ Hf). cbn. split; [eauto|]. congruence.
Qed.

Lemma validation_ok_allowed d isLocal pc type :
  SessionDescription.type d = Some type ->
  validation d isLocal pc = Ok tt ->
  includesState (allowedStates isLocal type) (signalingState pc) = true.
Proof.
  unfold validation. intros ->.
  destruct (includesState _ _); [reflexivity|discriminate].
Qed.

Lemma close_signaling pc : isClosed pc = false -> signalingState (snd (close pc)) = closed.
Proof.
  destruct pc as [? tr ? ? ? ? ? ? ? ? ? ? ? cl ?]. cbn. intros ->.
  unfold close, setSignalingState, setConnectionState, stopSctpTransport, stopDtlsAndIce,
    updDtlsTransport, updIceTransport, dispose. run.
  destruct tr as [t|]; run; [|reflexivity].
  destruct (Sctp.stop (RTCSctpTransport.sctp t)) as [[|e] sctp']; run; reflexivity.
Qed.

(** C5 (amended): whatever a setter does, it leaves the signaling
    state as it was or moves it along a row of the table; one that
    returns normally has moved it along a row; one whose text does not
    parse, or whose description [validateDescription] refuses, throws
    that error and changes nothing; from a state with no row for the
    call, the setter throws and changes nothing, with the invalid-state
    message when the text parses and with the parser's error when it
    does not; and [close] on an open connection leads to [closed]. The
    state is set before the first [await] of a setter, up to which it is
    followed here: a rejection that comes later finds the state moved. *)
Theorem signaling_state_follows_table isLocal type text pc :
  let r := setDescription ext isLocal type text pc in
  (signalingState (snd r) = signalingState pc
   \/ transition isLocal type (signalingState pc) (signalingState (snd r)))
  /\ (fst r = Ok tt -> transition isLocal type (signalingState pc) (signalingState (snd r)))
  /\ (forall e, parsed ext type text = Throw e -> r = (Throw e, pc))
  /\ (forall d e, parsed ext type text = Ok d ->
        fst (validateDescription d isLocal pc) = Throw e -> r = (Throw e, pc))
  /\ ((forall st', ~ transition isLocal type (signalingState pc) st') ->
      match Sdp.parse (sdp ext) text with
      | Ok _ => r = (Throw (cannotHandle type), pc)
      | Throw e => r = (Throw e, pc)
      end)
  /\ (isClosed pc = false -> signalingState (snd (close pc)) = closed).
Proof.
  intros r. subst r.
  pose proof (setDescription_spec isLocal type text pc) as H.
  unfold parsed in *.
  destruct (Sdp.parse (sdp ext) text) as [d|e].
  - set (d' := d {{ SessionDescription.type := Some type }}) in *.
    pose proof (validation_ok_allowed d' isLocal pc type eq_refl) as Ha.
    pose proof (validateDescription_spec d' isLocal pc) as Hvd.
    destruct (validation d' isLocal pc) as [[]|e] eqn:Hv.
    + specialize (Ha eq_refl). cbv zeta in H.
      split; [|split; [|split; [|split; [|split]]]].
      * destruct H as [[_ ->]|[_ ->]]; [right|left; reflexivity].
        apply allowed_transition, Ha.
      * intros Hok. destruct H as [[_ ->]|[[e He] _]]; [|congruence].
        apply allowed_transition, Ha.
      * intros e He. discriminate He.
      * intros d0 e [= <-] He. change (fst (validateDescription d' isLocal pc) = Throw e) in He.
        rewrite Hvd in He. discriminate He.
      * intros Hno. exfalso. eapply Hno, allowed_transition, Ha.
      * apply close_signaling.
    + rewrite H. cbn.
      split; [left; reflexivity|].
      split; [discriminate|]. split; [discriminate|].
      split; [|split].
      * intros d0 e0 [= <-] He. change (fst (validateDescription d' isLocal pc) = Throw e0) in He.
        rewrite Hvd in He. cbn in He. congruence.
      * intros Hno. unfold validation in Hv. cbn in Hv.
        destruct (includesState (allowedStates isLocal type) (signalingState pc)) eqn:Hin.
        -- exfalso. eapply Hno, allowed_transition, Hin.
        -- cbn in Hv. congruence.
      * apply close_signaling.
  - rewrite H. cbn.
    split; [left; reflexivity|].
    split; [discriminate|]. split; [intros e0 [= <-]; reflexivity|].
    split; [discriminate|]. split; [reflexivity|]. apply close_signaling.
Qed.

Lemma kindsWithIndex_type d ty :
  kindsWithIndex (d {{ SessionDescription.type := ty }}) = kindsWithIndex d.
Proof. reflexivity. Qed.

Lemma isEqual_true a b : isEqual a b = true <-> a = b.
Proof. unfold isEqual. apply bool_decide_eq_true. Qed.

Lemma validation_answer d isLocal pc o :
  offerFor isLocal pc = Some o ->
  validation (d {{ SessionDescription.type := Some answer }}) isLocal pc
  = if negb (includesState (allowedStates isLocal answer) (signalingState pc))
    then Throw cannotHandleAnswer
    else if existsb (fun m => negb (hasCredentials (MediaDescription.iceParams m)))
                    (SessionDescription.media d)
    then Throw iceMissing
    else if negb (isEqual (kindsWithIndex o) (kindsWithIndex d))
    then Throw mediaMismatch else Ok tt.
Proof. intros Ho. unfold validation. cbn. rewrite Ho. reflexivity. Qed.

(** C7: for an answer that parses, with [o] the description the offer
    is read from, a setter returns normally only if the (kind, index)
    pairs of the answer are those of [o]; when they differ the call
    throws and leaves the connection as it was, no description applied,
    and the error is the media mismatch once the state allows an answer
    and every section has its ICE credentials. *)
Theorem answer_media_must_match_offer isLocal text pc d o :
  Sdp.parse (sdp ext) text = Ok d ->
  offerFor isLocal pc = Some o ->
  let r := setDescription ext isLocal answer text pc in
  (fst r = Ok tt -> kindsWithIndex d = kindsWithIndex o)
  /\ (kindsWithIndex d <> kindsWithIndex o ->
      snd r = pc
      /\ (exists e, fst r = Throw e)
      /\ (includesState (allowedStates isLocal answer) (signalingState pc) = true ->
          forallb (fun m => hasCredentials (MediaDescription.iceParams m))
                  (SessionDescription.media d) = true ->
          fst r = Throw mediaMismatch)).
Proof.
  intros Hp Ho r. subst r.
  pose proof (setDescription_spec isLocal answer text pc) as H.
  unfold parsed in H. rewrite Hp in H.
  rewrite (validation_answer d isLocal pc o Ho) in H.
  destruct (isEqual (kindsWithIndex o) (kindsWithIndex d)) eqn:He.
  - apply isEqual_true in He. split; [intros _; congruence|]. intros Hne. congruence.
  - assert (exists e, setDescription ext isLocal answer text pc = (Throw e, pc)) as [e Hr]
        by (repeat case_match; try discriminate; eauto).
    rewrite Hr. cbn. split; [discriminate|]. intros _.
    split; [reflexivity|]. split; [eauto|].
    intros Hin Hcred. f_equal.
    assert (existsb (fun m => negb (hasCredentials (MediaDescription.iceParams m)))
              (SessionDescription.media d) = false) as Hex.
    { clear -Hcred. induction (SessionDescription.media d) as [|m ms IH]; [reflexivity|].
      cbn in *. apply andb_true_iff in Hcred as [-> Hms]. cbn. apply IH, Hms. }
    rewrite Hin, Hex in H. cbn in H. congruence.
Qed.
End ConnectionFacts.

Section ConnectionLife.

Import Js Sdp PeerConnection.
#[local] Open Scope string_scope.

#[local] Arguments Sctp.stop : simpl never.
#[local] Arguments isEqual : simpl never.
#[local] Arguments kindsWithIndex : simpl never.
#[local] Arguments includesState : simpl never.
#[local] Arguments createMediaDescriptionForSctp : simpl never.
Context (ext : PeerConnection.Externals).

Ltac run := unfold Js.bind, Js.get, Js.modify, PeerConnection.emit, Js.ret, Js.throw, constant in *; cbn in *.

Lemma close_is_closed pc :
  isClosed pc = false ->
  isClosed (snd (close pc)) = true /\ signalingState (snd (close pc)) = closed.
Proof.
  intros H. split; [apply close_sets_closed|apply close_signaling; exact H].
Qed.

Lemma closed_has_no_row isLocal type :
  includesState (allowedStates isLocal type) closed = false.
Proof. destruct isLocal, type; reflexivity. Qed.

(** X16: once [close] has run, both setters fail and change nothing, with
    the invalid-state message for a text that parses and the parser's
    error for one that does not, and [buildAnswer] fails with
    [RTCPeerConnection is closed]. *)
Theorem closed_connection_refuses_descriptions isLocal type text sessionId pc :
  isClosed pc = false ->
  let pc' := snd (close pc) in
  setDescription ext isLocal type text pc'
  = (Throw (match Sdp.parse (sdp ext) text with
            | Ok _ => cannotHandle type
            | Throw e => e
            end), pc')
  /\ buildAnswer sessionId pc' = (Throw "RTCPeerConnection is closed", pc').
Proof.
  intros H pc'. destruct (close_is_closed pc H) as [Hc Hs]. fold pc' in Hc, Hs.
  clearbody pc'. split.
  - pose proof (setDescription_spec ext isLocal type text pc') as Hspec.
    unfold parsed in Hspec.
    destruct (Sdp.parse (sdp ext) text) as [d|e]; [|exact Hspec].
    unfold validation in Hspec. cbn [SessionDescription.type] in Hspec.
    replace (SessionDescription.type (d {{ SessionDescription.type := Some type }}))
      with (Some type) in Hspec by reflexivity.
    rewrite Hs, closed_has_no_row in Hspec. exact Hspec.
  - unfold buildAnswer, assertNotClosed. run. rewrite Hc. reflexivity.
Qed.

(** X17: a remote description that is valid but whose first section is
    not an application section is refused with [invalid media kind]
    after it has been stored: the call throws, the signaling state and
    the transports are as before, and the description is the pending
    (for an answer, the current) remote description. *)
Theorem rejected_remote_description_is_stored type text pc d m rest :
  Sdp.parse (sdp ext) text = Ok d ->
  let d' := d {{ SessionDescription.type := Some type }} in
  fst (validateDescription d' false pc) = Ok tt ->
  SessionDescription.media d = m :: rest ->
  MediaDescription.kind m <> "application" ->
  setRemoteDescription ext type text pc
  = (Throw "invalid media kind",
     match type with
     | offer => pc {{ pendingRemoteDescription := Some d' }}
     | answer => pc {{ currentRemoteDescription := Some d';
                       pendingRemoteDescription := None }}
     end).
Proof.
  intros Hparse d' Hv Hm Hk.
  pose proof (validateDescription_spec d' false pc) as Hvd.
  rewrite Hvd in Hv. cbn [fst] in Hv. rewrite Hv in Hvd.
  unfold setRemoteDescription, parseDescription. rewrite Hparse.
  rewrite (bind_ok (Js.ret _) _ pc _ pc eq_refl). fold d'.
  rewrite (bind_ok _ _ _ _ _ Hvd).
  assert (SessionDescription.media d' = m :: rest) as Hm' by exact Hm.
  assert (String.eqb (MediaDescription.kind m) "application" = false) as Hne
    by (apply String.eqb_neq; exact Hk).
  destruct type.
  - erewrite bind_ok by reflexivity.
    erewrite bind_throw; [reflexivity|].
    rewrite Hm'. cbn [imap forEach]. unfold Js.bind, applyRemoteMedia.
    rewrite Hne. reflexivity.
  - erewrite bind_ok by reflexivity.
    erewrite bind_throw; [reflexivity|].
    rewrite Hm'. cbn [imap forEach]. unfold Js.bind, applyRemoteMedia.
    rewrite Hne. reflexivity.
Qed.


(** *** Fresh mids *)

Lemma length_append (a b : string) :
  String.length (a ++ b) = (String.length a + String.length b)%nat.
Proof.
  induction a as [|c a IH]; [reflexivity|].
  change (String c a ++ b) with (String c (a ++ b)). cbn [String.length].
  rewrite IH. reflexivity.
Qed.

Lemma append_cancel_r (a b t : string) : a ++ t = b ++ t -> a = b.
Proof.
  revert b. induction a as [|c a IH]; intros [|c' b] H.
  - reflexivity.
  - apply (f_equal String.length) in H. rewrite !length_append in H.
    cbn [String.length] in H. lia.
  - apply (f_equal String.length) in H. rewrite !length_append in H.
    cbn [String.length] in H. lia.
  - change (String c (a ++ t) = String c' (b ++ t)) in H.
    injection H as -> H. f_equal. apply IH, H.
Qed.

Lemma intToString_inj a b : Js.intToString a = Js.intToString b -> a = b.
Proof.
  intros H. apply (f_equal Js.parseInt10) in H.
  rewrite !parseInt10_int in H. congruence.
Qed.

Lemma mid_inj (type : string) i j :
  Js.intToString (Z.of_nat i) ++ type = Js.intToString (Z.of_nat j) ++ type -> i = j.
Proof.
  intros H. apply append_cancel_r, intToString_inj in H. lia.
Qed.

Lemma mids_pigeonhole (type : string) (mids : list string) n :
  (forall j, (j <= n)%nat -> In (Js.intToString (Z.of_nat j) ++ type) mids) ->
  (n < length mids)%nat.
Proof.
  intros H.
  assert (NoDup (map (fun j => Js.intToString (Z.of_nat j) ++ type) (seq 0 (S n)))) as Hnd.
  { apply NoDup_fmap_2; [|apply NoDup_seq]. intros i j. apply mid_inj. }
  apply NoDup_ListNoDup in Hnd.
  apply (List.NoDup_incl_length (l' := mids)) in Hnd.
  - rewrite length_map, length_seq in Hnd. lia.
  - intros x Hx. apply in_map_iff in Hx as (j & <- & Hj).
    apply in_seq in Hj. apply H. lia.
Qed.

Lemma allocateMidFrom_fresh (type : string) mids fuel i :
  (forall j, (j < i)%nat -> In (Js.intToString (Z.of_nat j) ++ type) mids) ->
  (i + fuel = length mids)%nat ->
  exists k, allocateMidFrom mids type i fuel = Js.intToString (Z.of_nat k) ++ type
    /\ (i <= k <= length mids)%nat
    /\ (forall j, (j < k)%nat -> In (Js.intToString (Z.of_nat j) ++ type) mids)
    /\ ~ In (Js.intToString (Z.of_nat k) ++ type) mids.
Proof.
  revert i. induction fuel as [|fuel IH]; intros i Hbelow Hlen.
  - exists i. cbn [allocateMidFrom]. split; [reflexivity|]. split; [lia|].
    split; [exact Hbelow|]. intros Hin.
    assert (i < length mids)%nat; [|lia].
    apply (mids_pigeonhole type). intros j Hj.
    destruct (Nat.eq_dec j i) as [->|]; [exact Hin|apply Hbelow; lia].
  - cbn [allocateMidFrom].
    destruct (existsb _ mids) eqn:E.
    + apply existsb_exists in E as (x & Hx & Heq). apply String.eqb_eq in Heq. subst x.
      destruct (IH (S i)) as (k & Hk & Hr & Hb & Hn).
      * intros j Hj. destruct (Nat.eq_dec j i) as [->|]; [exact Hx|apply Hbelow; lia].
      * lia.
      * exists k. split; [exact Hk|]. split; [lia|]. split; assumption.
    + exists i. split; [reflexivity|]. split; [lia|]. split; [exact Hbelow|].
      intros Hin. apply not_true_iff_false in E. apply E.
      apply existsb_exists. eexists. split; [exact Hin|]. apply String.eqb_refl.
Qed.

(** X19: [allocateMid] returns a mid that the set does not hold, adds it,
    and it is the first free one of [0type], [1type], ...: its index is
    at most the size of the set, which is why the search ends. *)
Theorem allocateMid_is_fresh mids (type : string) :
  let mid := fst (allocateMid mids type) in
  ~ In mid mids
  /\ snd (allocateMid mids type) = (mids ++ [mid])%list
  /\ exists k, mid = Js.intToString (Z.of_nat k) ++ type
       /\ (k <= length mids)%nat
       /\ forall j, (j < k)%nat -> In (Js.intToString (Z.of_nat j) ++ type) mids.
Proof.
  cbv zeta. unfold allocateMid. cbn [fst snd].
  destruct (allocateMidFrom_fresh type mids (length mids) 0) as (k & Hk & Hr & Hb & Hn);
    [intros j Hj; lia|lia|].
  rewrite Hk. split; [exact Hn|]. split; [reflexivity|].
  exists k. split; [reflexivity|]. split; [lia|exact Hb].
Qed.

End ConnectionLife.

(** ** Runs of the example connection *)

Section ConnectionRuns.

Import Js Sdp PeerConnection.
#[local] Open Scope string_scope.

(** C5, a run against the claim: an answer from [stable] has no row in
    the table, yet a text without a well-formed [m=] line fails with the
    parser's error, raised before the state is looked at. *)
Lemma unparsable_text_fails_before_the_state_check :
  signalingState examplePeerConnection = stable
  /\ (forall st', ~ transition true answer stable st')
  /\ setLocalDescription exampleExternals answer "m=" examplePeerConnection
     = (Throw "m line not found", examplePeerConnection)
  /\ "m line not found" <> cannotHandleAnswer.
Proof.
  split; [reflexivity|]. split; [intros st' H; inversion H|].
  split; [vm_compute; reflexivity|]. vm_compute. discriminate.
Qed.

Lemma answer_media_must_match_offer_witness :
  let r := setRemoteDescription exampleExternals answer exampleAnswerText
             examplePeerConnectionWithOffer in
  Sdp.parse exampleSdpExternals exampleAnswerText = Ok exampleAnswer
  /\ offerFor false examplePeerConnectionWithOffer = Some exampleOffer
  /\ kindsWithIndex exampleAnswer <> kindsWithIndex exampleOffer
  /\ snd r = examplePeerConnectionWithOffer
  /\ fst r = Throw mediaMismatch.
Proof.
  cbv zeta.
  assert (H1 : Sdp.parse exampleSdpExternals exampleAnswerText = Ok exampleAnswer)
    by (vm_compute; reflexivity).
  assert (H2 : offerFor false examplePeerConnectionWithOffer = Some exampleOffer)
    by reflexivity.
  assert (H3 : kindsWithIndex exampleAnswer <> kindsWithIndex exampleOffer)
    by (vm_compute; discriminate).
  split; [exact H1|]. split; [exact H2|]. split; [exact H3|].
  destruct (answer_media_must_match_offer exampleExternals false exampleAnswerText
              examplePeerConnectionWithOffer exampleAnswer exampleOffer H1 H2)
    as [_ H].
  destruct (H H3) as (Hs & _ & He).
  split; [exact Hs|]. apply He; vm_compute; reflexivity.
Defined.

Lemma closed_connection_refuses_descriptions_witness :
  let pc' := snd (close examplePeerConnectionWithOffer) in
  isClosed examplePeerConnectionWithOffer = false
  /\ signalingState examplePeerConnectionWithOffer = have_local_offer
  /\ setRemoteDescription exampleExternals answer exampleAnswerText pc'
     = (Throw cannotHandleAnswer, pc')
  /\ buildAnswer "87654321" pc' = (Throw "RTCPeerConnection is closed", pc').
Proof.
  cbv zeta.
  assert (H : isClosed examplePeerConnectionWithOffer = false) by reflexivity.
  split; [exact H|]. split; [reflexivity|].
  destruct (closed_connection_refuses_descriptions exampleExternals false answer
              exampleAnswerText "87654321" examplePeerConnectionWithOffer H) as [Hs Hb].
  split; [|exact Hb].
  replace (Sdp.parse (sdp exampleExternals) exampleAnswerText) with (Ok exampleAnswer) in Hs
    by (vm_compute; reflexivity).
  exact Hs.
Defined.

Lemma rejected_remote_description_is_stored_witness :
  let r := setRemoteDescription exampleExternals offer exampleAudioOfferText
             examplePeerConnection in
  Sdp.parse (sdp exampleExternals) exampleAudioOfferText = Ok exampleAudioOffer
  /\ fst (validateDescription
            (exampleAudioOffer {{ SessionDescription.type := Some offer }}) false
            examplePeerConnection) = Ok tt
  /\ (exists m rest, SessionDescription.media exampleAudioOffer = m :: rest
                     /\ MediaDescription.kind m = "audio")
  /\ fst r = Throw "invalid media kind"
  /\ signalingState (snd r) = stable
  /\ pendingRemoteDescription (snd r)
     = Some (exampleAudioOffer {{ SessionDescription.type := Some offer }}).
Proof.
  cbv zeta.
  assert (H1 : Sdp.parse (sdp exampleExternals) exampleAudioOfferText = Ok exampleAudioOffer)
    by (vm_compute; reflexivity).
  assert (H2 : fst (validateDescription
                      (exampleAudioOffer {{ SessionDescription.type := Some offer }}) false
                      examplePeerConnection) = Ok tt)
    by (vm_compute; reflexivity).
  assert (H3 : SessionDescription.media exampleAudioOffer
               = hd (MediaDescription.create "" NaN "" (FmtStrings []))
                    (SessionDescription.media exampleAudioOffer)
                 :: tl (SessionDescription.media exampleAudioOffer))
    by (vm_compute; reflexivity).
  assert (H4 : MediaDescription.kind
                 (hd (MediaDescription.create "" NaN "" (FmtStrings []))
                     (SessionDescription.media exampleAudioOffer)) <> "application")
    by (vm_compute; discriminate).
  split; [exact H1|]. split; [exact H2|].
  split; [eexists _, _; split; [exact H3|vm_compute; reflexivity]|].
  rewrite (rejected_remote_description_is_stored exampleExternals offer
             exampleAudioOfferText examplePeerConnection exampleAudioOffer _ _
             H1 H2 H3 H4).
  split; [reflexivity|]. split; reflexivity.
Defined.

End ConnectionRuns.
